(** * GIKI timetable generator: a shallow embedding of [timetable_generator.py]

    The development follows the four stages of [TimetableGenerator]:
    conflict-graph construction, Welsh-Powell slot coloring, tiered room
    allocation and schedule compilation, followed by the textual report.

    Python values are represented as follows.
    - [str] is [string]; [int] slot indices, which only ever come from
      [range(len(self.time_slots))], are [nat].
    - A naive [datetime] is the number of microseconds since
      0001-01-01T00:00:00 as a [Z]; comparison is comparison of counts.
    - A [dict] is an insertion-ordered association list: iteration follows
      insertion order and assignment to an existing key keeps its position.
    - An uncaught exception is the [Raise] branch of [result]. *)

From Stdlib Require Import List String Ascii ZArith Arith Bool Lia.
From Stdlib Require Import Permutation Sorted DecimalString.
Import ListNotations.
Local Open Scope string_scope.
Local Open Scope list_scope.

(* ================================================================== *)
(** ** Exceptions *)

Inductive exn : Type :=
| KeyError (key : string)
| IndexError
| StopIteration
| NetworkXError (node : string).

Inductive result (A : Type) : Type :=
| Ok (a : A)
| Raise (e : exn).

Arguments Ok {A} a.
Arguments Raise {A} e.

Definition bind {A B : Type} (m : result A) (k : A -> result B) : result B :=
  match m with
  | Ok a => k a
  | Raise e => Raise e
  end.

Notation "x <- m ;; k" := (bind m (fun x => k))
  (at level 61, m at next level, right associativity).

(* ================================================================== *)
(** ** Insertion-ordered dictionaries with string keys *)

Section Dict.
Variable V : Type.

Definition dict : Type := list (string * V).

Fixpoint dict_get (d : dict) (k : string) : option V :=
  match d with
  | [] => None
  | (k', v) :: rest => if String.eqb k' k then Some v else dict_get rest k
  end.

Definition dict_mem (d : dict) (k : string) : bool :=
  match dict_get d k with
  | Some _ => true
  | None => false
  end.

(** [d[k] = v]: an existing key keeps its place, a new one goes last. *)
Fixpoint dict_set (d : dict) (k : string) (v : V) : dict :=
  match d with
  | [] => [(k, v)]
  | (k', v') :: rest =>
      if String.eqb k' k then (k', v) :: rest
      else (k', v') :: dict_set rest k v
  end.

(** [d[k]] as an expression. *)
Definition dict_lookup (d : dict) (k : string) : result V :=
  match dict_get d k with
  | Some v => Ok v
  | None => Raise (KeyError k)
  end.

Definition dict_keys (d : dict) : list string := map fst d.
End Dict.

Arguments dict_get {V} d k.
Arguments dict_mem {V} d k.
Arguments dict_set {V} d k v.
Arguments dict_lookup {V} d k.
Arguments dict_keys {V} d.

(** [l[i]] for a non-negative index. *)
Definition list_index {A : Type} (l : list A) (i : nat) : result A :=
  match nth_error l i with
  | Some x => Ok x
  | None => Raise IndexError
  end.

(* ================================================================== *)
(** ** Records *)

Definition datetime : Type := Z.

Module TimeSlot.
Record t : Type := make
  { day : string;
    start_time : datetime;
    end_time : datetime }.
End TimeSlot.

Module Course.
Record t : Type := make
  { id : string;
    name : string;
    teacher : string;
    student_group : string;
    duration : Z;
    department : string }.
End Course.

Module Room.
Record t : Type := make
  { id : string;
    capacity : Z;
    department : string;
    room_type : string }.
End Room.

(* ================================================================== *)
(** ** The part of [networkx.Graph] the generator uses

    [Graph] is the adjacency dictionary [_adj]: node -> neighbour keys, both
    levels in insertion order. *)

Definition Graph : Type := dict (list string).

Definition str_in (x : string) (l : list string) : bool :=
  existsb (String.eqb x) l.

Definition add_node (g : Graph) (n : string) : Graph :=
  if dict_mem g n then g else dict_set g n [].

Definition adj_insert (g : Graph) (u v : string) : Graph :=
  match dict_get g u with
  | Some nbrs => dict_set g u (if str_in v nbrs then nbrs else nbrs ++ [v])
  | None => g
  end.

Definition add_edge (g : Graph) (u v : string) : Graph :=
  adj_insert (adj_insert (add_node (add_node g u) v) u v) v u.

Definition nodes (g : Graph) : list string := dict_keys g.

Definition neighbors (g : Graph) (n : string) : result (list string) :=
  match dict_get g n with
  | Some nbrs => Ok nbrs
  | None => Raise (NetworkXError n)
  end.

(** [G.degree(n)]: a self-loop counts twice.  It is only asked of nodes. *)
Definition degree (g : Graph) (n : string) : nat :=
  match dict_get g n with
  | Some nbrs => List.length nbrs + (if str_in n nbrs then 1 else 0)
  | None => 0
  end.

Definition has_edge (g : Graph) (u v : string) : bool :=
  match dict_get g u with
  | Some nbrs => str_in v nbrs
  | None => false
  end.

(* ================================================================== *)
(** ** Stable sorting

    [sorted] and [list.sort] are stable; the result of a stable sort is
    determined by the keys, so insertion sort stands for Timsort.  With
    [reverse=True] the comparison is flipped and equal keys still keep their
    original order. *)

Section StableSort.
Variable A : Type.
Variable key : A -> Z.
Variable reverse : bool.

(** [goes_before a b]: [a] must come strictly before [b]. *)
Definition goes_before (a b : A) : bool :=
  if reverse then (key b <? key a)%Z else (key a <? key b)%Z.

Fixpoint insert_sorted (x : A) (l : list A) : list A :=
  match l with
  | [] => [x]
  | y :: rest =>
      if goes_before y x then y :: insert_sorted x rest else x :: y :: rest
  end.

Fixpoint sorted (l : list A) : list A :=
  match l with
  | [] => []
  | x :: rest => insert_sorted x (sorted rest)
  end.
End StableSort.

Arguments goes_before {A} key reverse a b.
Arguments insert_sorted {A} key reverse x l.
Arguments sorted {A} key reverse l.

(* ================================================================== *)
(** ** The generator object *)

Definition entry : Type := (Course.t * TimeSlot.t * Room.t)%type.

Record TimetableGenerator : Type := mkGen
  { courses : list Course.t;
    time_slots : list TimeSlot.t;
    rooms : list Room.t;
    graph : Graph;
    color_assignments : dict nat;
    room_assignments : dict string;
    teacher_schedules : dict (list entry);
    student_schedules : dict (list entry);
    stdout : list string }.

(** [__init__] *)
Definition init : TimetableGenerator :=
  mkGen [] [] [] [] [] [] [] [] [].

Definition set_graph (self : TimetableGenerator) (g : Graph) :=
  mkGen (courses self) (time_slots self) (rooms self) g
        (color_assignments self) (room_assignments self)
        (teacher_schedules self) (student_schedules self) (stdout self).

Definition set_color_assignments (self : TimetableGenerator) (c : dict nat) :=
  mkGen (courses self) (time_slots self) (rooms self) (graph self)
        c (room_assignments self)
        (teacher_schedules self) (student_schedules self) (stdout self).

Definition set_room_assignments (self : TimetableGenerator) (r : dict string) :=
  mkGen (courses self) (time_slots self) (rooms self) (graph self)
        (color_assignments self) r
        (teacher_schedules self) (student_schedules self) (stdout self).

Definition set_schedules (self : TimetableGenerator)
    (ts ss : dict (list entry)) :=
  mkGen (courses self) (time_slots self) (rooms self) (graph self)
        (color_assignments self) (room_assignments self)
        ts ss (stdout self).

Definition print (self : TimetableGenerator) (line : string) :=
  mkGen (courses self) (time_slots self) (rooms self) (graph self)
        (color_assignments self) (room_assignments self)
        (teacher_schedules self) (student_schedules self)
        (stdout self ++ [line]).

Definition add_course (self : TimetableGenerator) (course : Course.t) :=
  mkGen (courses self ++ [course]) (time_slots self) (rooms self)
        (add_node (graph self) (Course.id course))
        (color_assignments self) (room_assignments self)
        (teacher_schedules self) (student_schedules self) (stdout self).

Definition add_time_slot (self : TimetableGenerator) (slot : TimeSlot.t) :=
  mkGen (courses self) (time_slots self ++ [slot]) (rooms self) (graph self)
        (color_assignments self) (room_assignments self)
        (teacher_schedules self) (student_schedules self) (stdout self).

Definition add_room (self : TimetableGenerator) (room : Room.t) :=
  mkGen (courses self) (time_slots self) (rooms self ++ [room]) (graph self)
        (color_assignments self) (room_assignments self)
        (teacher_schedules self) (student_schedules self) (stdout self).

(* ------------------------------------------------------------------ *)
(** *** Stage 1: [build_conflict_graph] *)

Definition conflict (course1 course2 : Course.t) : bool :=
  String.eqb (Course.teacher course1) (Course.teacher course2)
  || String.eqb (Course.student_group course1) (Course.student_group course2).

Definition link (course1 : Course.t) (g : Graph) (course2 : Course.t) : Graph :=
  if conflict course1 course2
  then add_edge g (Course.id course1) (Course.id course2)
  else g.

(** The double loop: [course1] against the slice [self.courses[i+1:]]. *)
Fixpoint conflict_edges (cs : list Course.t) (g : Graph) : Graph :=
  match cs with
  | [] => g
  | course1 :: rest => conflict_edges rest (fold_left (link course1) rest g)
  end.

Definition build_conflict_graph (self : TimetableGenerator) : TimetableGenerator :=
  set_graph self (conflict_edges (courses self) (graph self)).

(* ------------------------------------------------------------------ *)
(** *** Stage 2: [welsh_powell_coloring] *)

Definition vertices_by_degree (g : Graph) : list string :=
  sorted (fun x => Z.of_nat (degree g x)) true (nodes g).

(** Iterating [set(range(n))]: CPython hashes a small non-negative int to
    itself and the table always has more slots than entries, so entry [i]
    sits in slot [i] and iteration is ascending. *)
Definition available_colors (n : nat) : list nat := seq 0 n.

(** The set comprehension over the neighbours that already have a color;
    only membership in it is ever asked. *)
Definition used_colors (colors : dict nat) (nbrs : list string) : list nat :=
  flat_map (fun neighbor =>
              match dict_get colors neighbor with
              | Some c => [c]
              | None => []
              end) nbrs.

Definition color_in (c : nat) (used : list nat) : bool :=
  existsb (Nat.eqb c) used.

(** [next(color for color in available_colors if color not in used_colors)] *)
Definition first_available (palette : list nat) (used : list nat) : result nat :=
  match find (fun color => negb (color_in color used)) palette with
  | Some color => Ok color
  | None => Raise StopIteration
  end.

Definition color_vertex (g : Graph) (palette : list nat)
    (colors : dict nat) (vertex : string) : result (dict nat) :=
  nbrs <- neighbors g vertex ;;
  color <- first_available palette (used_colors colors nbrs) ;;
  Ok (dict_set colors vertex color).

Fixpoint color_vertices (g : Graph) (palette : list nat)
    (vertices : list string) (colors : dict nat) : result (dict nat) :=
  match vertices with
  | [] => Ok colors
  | vertex :: rest =>
      colors' <- color_vertex g palette colors vertex ;;
      color_vertices g palette rest colors'
  end.

Definition welsh_powell_coloring (self : TimetableGenerator) : result (dict nat) :=
  color_vertices (graph self)
                 (available_colors (List.length (time_slots self)))
                 (vertices_by_degree (graph self))
                 [].

(* ------------------------------------------------------------------ *)
(** *** Text helpers *)

Definition newline : string := String (ascii_of_nat 10) EmptyString.

Definition digit (n : Z) : ascii := ascii_of_nat (48 + Z.to_nat n).

Definition two_digits (n : Z) : string :=
  String (digit (n / 10)) (String (digit (n mod 10)) EmptyString).

(** [t.strftime('%H:%M')] *)
Definition strftime_HM (t : datetime) : string :=
  (two_digits ((t / 3600000000) mod 24) ++ ":"
     ++ two_digits ((t / 60000000) mod 60))%string.

Definition upper_ascii (c : ascii) : ascii :=
  let n := nat_of_ascii c in
  if (97 <=? n)%nat && (n <=? 122)%nat then ascii_of_nat (n - 32) else c.

(** [s.upper()] on the ASCII letters, which is all department codes hold. *)
Fixpoint upper (s : string) : string :=
  match s with
  | EmptyString => EmptyString
  | String c rest => String (upper_ascii c) (upper rest)
  end.

Fixpoint join (sep : string) (l : list string) : string :=
  match l with
  | [] => EmptyString
  | [x] => x
  | x :: rest => (x ++ sep ++ join sep rest)%string
  end.

(* ------------------------------------------------------------------ *)
(** *** Stage 3: [assign_rooms] *)

Definition _time_slots_overlap (slot1 slot2 : TimeSlot.t) : bool :=
  String.eqb (TimeSlot.day slot1) (TimeSlot.day slot2)
  && (TimeSlot.start_time slot1 <? TimeSlot.end_time slot2)%Z
  && (TimeSlot.start_time slot2 <? TimeSlot.end_time slot1)%Z.

(** The loop of [_is_room_available] over [self.room_assignments.items()]. *)
Fixpoint room_available_in (self : TimetableGenerator) (room_id : string)
    (time_slot : TimeSlot.t) (items : list (string * string)) : result bool :=
  match items with
  | [] => Ok true
  | (course_id, assigned_room) :: rest =>
      if String.eqb assigned_room room_id then
        idx <- dict_lookup (color_assignments self) course_id ;;
        course_time_slot <- list_index (time_slots self) idx ;;
        if _time_slots_overlap time_slot course_time_slot then Ok false
        else room_available_in self room_id time_slot rest
      else room_available_in self room_id time_slot rest
  end.

Definition _is_room_available (self : TimetableGenerator) (room_id : string)
    (time_slot : TimeSlot.t) : result bool :=
  room_available_in self room_id time_slot (room_assignments self).

(** One tier: the first candidate that is available, if any. *)
Fixpoint first_free_room (self : TimetableGenerator) (time_slot : TimeSlot.t)
    (candidates : list Room.t) : result (option Room.t) :=
  match candidates with
  | [] => Ok None
  | room :: rest =>
      free <- _is_room_available self (Room.id room) time_slot ;;
      if free then Ok (Some room) else first_free_room self time_slot rest
  end.

Definition department_rooms (self : TimetableGenerator) (course : Course.t) :=
  filter (fun r => String.eqb (Room.department r) (Course.department course))
         (rooms self).

Definition nab_rooms (self : TimetableGenerator) :=
  filter (fun r => String.eqb (upper (Room.department r)) "NAB") (rooms self).

Definition other_rooms (self : TimetableGenerator) (course : Course.t) :=
  filter (fun r =>
            negb (String.eqb (Room.department r) (Course.department course))
            && negb (String.eqb (upper (Room.department r)) "NAB"))
         (rooms self).

Definition assign (self : TimetableGenerator) (course : Course.t) (room : Room.t) :=
  set_room_assignments self
    (dict_set (room_assignments self) (Course.id course) (Room.id room)).

Definition warn_unassigned (self : TimetableGenerator) (course : Course.t)
    (time_slot : TimeSlot.t) : TimetableGenerator :=
  print (print (print self
    ("Warning: Could not assign room for " ++ Course.id course
       ++ " (" ++ Course.name course ++ ")")%string)
    ("Department: " ++ Course.department course)%string)
    ("Time slot: " ++ TimeSlot.day time_slot ++ " "
       ++ strftime_HM (TimeSlot.start_time time_slot))%string.

(** The body of the [for course in self.courses] loop. *)
Definition assign_room (self : TimetableGenerator) (course : Course.t)
    : result TimetableGenerator :=
  time_slot_idx <- dict_lookup (color_assignments self) (Course.id course) ;;
  time_slot <- list_index (time_slots self) time_slot_idx ;;
  tier1 <- first_free_room self time_slot (department_rooms self course) ;;
  match tier1 with
  | Some room => Ok (assign self course room)
  | None =>
      tier2 <- first_free_room self time_slot (nab_rooms self) ;;
      match tier2 with
      | Some room => Ok (assign self course room)
      | None =>
          tier3 <- first_free_room self time_slot (other_rooms self course) ;;
          match tier3 with
          | Some room => Ok (assign self course room)
          | None => Ok (warn_unassigned self course time_slot)
          end
      end
  end.

Fixpoint assign_rooms_from (cs : list Course.t) (self : TimetableGenerator)
    : result TimetableGenerator :=
  match cs with
  | [] => Ok self
  | course :: rest =>
      self' <- assign_room self course ;;
      assign_rooms_from rest self'
  end.

Definition assign_rooms (self : TimetableGenerator) : result TimetableGenerator :=
  assign_rooms_from (courses self) self.

(* ------------------------------------------------------------------ *)
(** *** Stage 4: [optimize_schedules] *)

(** [next(r for r in self.rooms if r.id == self.room_assignments[cid])]: the
    subscript is evaluated once per room visited. *)
Fixpoint room_of (rs : list Room.t) (assignments : dict string) (cid : string)
    : result Room.t :=
  match rs with
  | [] => Raise StopIteration
  | r :: rest =>
      rid <- dict_lookup assignments cid ;;
      if String.eqb (Room.id r) rid then Ok r else room_of rest assignments cid
  end.

(** [schedules[k].append(e)] on a [defaultdict(list)]. *)
Definition schedule_append (schedules : dict (list entry)) (k : string) (e : entry) :=
  match dict_get schedules k with
  | Some l => dict_set schedules k (l ++ [e])
  | None => dict_set schedules k [e]
  end.

Definition entry_course (e : entry) : Course.t := fst (fst e).
Definition entry_slot (e : entry) : TimeSlot.t := snd (fst e).
Definition entry_room (e : entry) : Room.t := snd e.

Definition entry_start (e : entry) : Z := TimeSlot.start_time (entry_slot e).

Definition collect (self : TimetableGenerator) (course : Course.t)
    : result TimetableGenerator :=
  if negb (dict_mem (room_assignments self) (Course.id course)) then
    Ok (print self ("Skipping " ++ Course.id course ++ " ("
                      ++ Course.name course ++ ") - no room assigned.")%string)
  else
    time_slot_idx <- dict_lookup (color_assignments self) (Course.id course) ;;
    time_slot <- list_index (time_slots self) time_slot_idx ;;
    room <- room_of (rooms self) (room_assignments self) (Course.id course) ;;
    Ok (set_schedules self
          (schedule_append (teacher_schedules self) (Course.teacher course)
                           (course, time_slot, room))
          (schedule_append (student_schedules self) (Course.student_group course)
                           (course, time_slot, room))).

Fixpoint collect_from (cs : list Course.t) (self : TimetableGenerator)
    : result TimetableGenerator :=
  match cs with
  | [] => Ok self
  | course :: rest =>
      self' <- collect self course ;;
      collect_from rest self'
  end.

Definition sort_schedules (schedules : dict (list entry)) : dict (list entry) :=
  map (fun kv => (fst kv, sorted entry_start false (snd kv))) schedules.

Definition optimize_schedules (self : TimetableGenerator)
    : result TimetableGenerator :=
  self' <- collect_from (courses self) self ;;
  Ok (set_schedules self'
        (sort_schedules (teacher_schedules self'))
        (sort_schedules (student_schedules self'))).

(* ------------------------------------------------------------------ *)
(** *** The report: [_format_timetable] and [generate_timetable] *)

Definition slot_span (time_slot : TimeSlot.t) : string :=
  (TimeSlot.day time_slot ++ " " ++ strftime_HM (TimeSlot.start_time time_slot)
     ++ "-" ++ strftime_HM (TimeSlot.end_time time_slot))%string.

Fixpoint course_lines (self : TimetableGenerator) (cs : list Course.t)
    : result (list string) :=
  match cs with
  | [] => Ok []
  | course :: rest =>
      idx <- dict_lookup (color_assignments self) (Course.id course) ;;
      time_slot <- list_index (time_slots self) idx ;;
      room <- room_of (rooms self) (room_assignments self) (Course.id course) ;;
      lines <- course_lines self rest ;;
      Ok ((Course.name course ++ ": " ++ slot_span time_slot
             ++ " in Room " ++ Room.id room)%string :: lines)
  end.

Definition schedule_lines (schedules : dict (list entry)) : list string :=
  flat_map (fun kv =>
              (newline ++ fst kv ++ ":")%string
              :: map (fun e => ("  " ++ slot_span (entry_slot e) ++ ": "
                                  ++ Course.name (entry_course e)
                                  ++ " in Room " ++ Room.id (entry_room e))%string)
                     (snd kv))
           schedules.

Definition _format_timetable (self : TimetableGenerator) : result string :=
  assignments <- course_lines self (courses self) ;;
  Ok (join newline
        (("Course Assignments:" :: assignments)
           ++ ((newline ++ "Teacher Schedules:")%string
                 :: schedule_lines (teacher_schedules self))
           ++ ((newline ++ "Student Group Schedules:")%string
                 :: schedule_lines (student_schedules self)))).

Definition generate_timetable (self : TimetableGenerator)
    : result (TimetableGenerator * string) :=
  let self1 := build_conflict_graph self in
  colors <- welsh_powell_coloring self1 ;;
  let self2 := set_color_assignments self1 colors in
  self3 <- assign_rooms self2 ;;
  self4 <- optimize_schedules self3 ;;
  text <- _format_timetable self4 ;;
  Ok (self4, text).

(* ------------------------------------------------------------------ *)
(** *** Loading a generator, as the driver does: rooms, slots, courses *)

Definition load (cs : list Course.t) (ts : list TimeSlot.t) (rs : list Room.t)
    : TimetableGenerator :=
  fold_left add_course cs (fold_left add_time_slot ts (fold_left add_room rs init)).

(* ------------------------------------------------------------------ *)
(** *** Sample data *)

(** [datetime.strptime('HH:MM', '%H:%M')]: that time on 1900-01-01. *)
Definition clock (h m : Z) : datetime :=
  (((693595 * 24 + h) * 60 + m) * 60000000)%Z.

Definition hour_slot (d : string) (h : Z) : TimeSlot.t :=
  TimeSlot.make d (clock h 0) (clock (h + 1) 0).

Definition lecture_hall (rid dept : string) : Room.t :=
  Room.make rid 50 dept "LH".

Definition session (cid who grp dept : string) : Course.t :=
  Course.make cid cid who grp 60 dept.

(* ================================================================== *)
(** * Vocabulary of the statements *)

(* ------------------------------------------------------------------ *)
(** *** Conflict graph *)

(** [joins c1 c2 a b]: the pair [c1], [c2] is in conflict and carries the
    ids [a] and [b], in either order. *)
Definition joins (c1 c2 : Course.t) (a b : string) : Prop :=
  conflict c1 c2 = true
  /\ ((Course.id c1 = a /\ Course.id c2 = b)
      \/ (Course.id c1 = b /\ Course.id c2 = a)).

(** Some earlier course and some later course of [cs] are joined on [a], [b]. *)
Fixpoint linked (cs : list Course.t) (a b : string) : Prop :=
  match cs with
  | [] => False
  | c1 :: rest => (exists c2, In c2 rest /\ joins c1 c2 a b) \/ linked rest a b
  end.

(** The graph a loaded generator holds after [build_conflict_graph]. *)
Definition conflict_graph (cs : list Course.t) : Graph :=
  conflict_edges cs (fold_left add_node (map Course.id cs) []).

(** A checker for duplicate-free id lists. *)
Fixpoint all_distinct (l : list string) : bool :=
  match l with
  | [] => true
  | x :: rest => negb (str_in x rest) && all_distinct rest
  end.

(** Every adjacency list is duplicate-free. *)
Definition adj_lists_NoDup (g : Graph) : Prop :=
  forall u nbrs, dict_get g u = Some nbrs -> NoDup nbrs.

(** The courses other than [c] that are in conflict with it. *)
Definition conflicting (cs : list Course.t) (c : Course.t) : list Course.t :=
  filter (fun c' => conflict c c'
                    && negb (String.eqb (Course.id c') (Course.id c)))
         cs.

(* ------------------------------------------------------------------ *)
(** *** Room allocation *)

(** The slot a course id is colored with. *)
Definition slot_of (self : TimetableGenerator) (cid : string) : option TimeSlot.t :=
  match dict_get (color_assignments self) cid with
  | Some idx => nth_error (time_slots self) idx
  | None => None
  end.

(** No course assigned to room [rid] sits on a slot overlapping [slot]. *)
Definition room_free (self : TimetableGenerator) (rid : string)
    (slot : TimeSlot.t) : Prop :=
  forall k s,
    dict_get (room_assignments self) k = Some rid ->
    slot_of self k = Some s ->
    _time_slots_overlap slot s = false.

(** Some course assigned to room [rid] sits on a slot overlapping [slot]. *)
Definition room_occupied (self : TimetableGenerator) (rid : string)
    (slot : TimeSlot.t) : Prop :=
  exists k s,
    dict_get (room_assignments self) k = Some rid
    /\ slot_of self k = Some s
    /\ _time_slots_overlap slot s = true.

(** No room hosts two different courses on overlapping slots. *)
Definition rooms_conflict_free (self : TimetableGenerator) : Prop :=
  forall k1 k2 rid s1 s2,
    k1 <> k2 ->
    dict_get (room_assignments self) k1 = Some rid ->
    dict_get (room_assignments self) k2 = Some rid ->
    slot_of self k1 = Some s1 ->
    slot_of self k2 = Some s2 ->
    _time_slots_overlap s1 s2 = false.

(** Every room entry belongs to a course that has a slot. *)
Definition allocation_wf (self : TimetableGenerator) : Prop :=
  NoDup (dict_keys (room_assignments self))
  /\ forall k rid,
       dict_get (room_assignments self) k = Some rid ->
       exists s, slot_of self k = Some s.

(** The four ways the loop body can end without an exception. *)
Inductive allocation (self : TimetableGenerator) (course : Course.t)
    (slot : TimeSlot.t) : TimetableGenerator -> Prop :=
| alloc_home room :
    first_free_room self slot (department_rooms self course) = Ok (Some room) ->
    allocation self course slot (assign self course room)
| alloc_nab room :
    first_free_room self slot (department_rooms self course) = Ok None ->
    first_free_room self slot (nab_rooms self) = Ok (Some room) ->
    allocation self course slot (assign self course room)
| alloc_other room :
    first_free_room self slot (department_rooms self course) = Ok None ->
    first_free_room self slot (nab_rooms self) = Ok None ->
    first_free_room self slot (other_rooms self course) = Ok (Some room) ->
    allocation self course slot (assign self course room)
| alloc_none :
    first_free_room self slot (department_rooms self course) = Ok None ->
    first_free_room self slot (nab_rooms self) = Ok None ->
    first_free_room self slot (other_rooms self course) = Ok None ->
    allocation self course slot (warn_unassigned self course slot).



(** Every room entry names a room of the catalog. *)
Definition rooms_known (self : TimetableGenerator) : Prop :=
  forall k rid,
    dict_get (room_assignments self) k = Some rid ->
    exists r, In r (rooms self) /\ Room.id r = rid.

(** The three lines [assign_rooms] prints for a course it leaves out. *)
Definition warning_lines (course : Course.t) (slot : TimeSlot.t) : list string :=
  [("Warning: Could not assign room for " ++ Course.id course
      ++ " (" ++ Course.name course ++ ")")%string;
   ("Department: " ++ Course.department course)%string;
   ("Time slot: " ++ TimeSlot.day slot ++ " "
      ++ strftime_HM (TimeSlot.start_time slot))%string].

(** What [assign_rooms] prints for [c] if it leaves it out. *)
Definition warnings_for (self : TimetableGenerator) (c : Course.t) : list string :=
  match slot_of self (Course.id c) with
  | Some slot => warning_lines c slot
  | None => []
  end.

(** The courses of [cs] without a room entry. *)
Definition left_out (self : TimetableGenerator) (cs : list Course.t) : list Course.t :=
  filter (fun c => negb (dict_mem (room_assignments self) (Course.id c))) cs.

(* ------------------------------------------------------------------ *)
(** *** Schedules *)

(** The start time of the slot a course is colored with. *)
Definition start_of (self : TimetableGenerator) (c : Course.t) : option Z :=
  option_map TimeSlot.start_time (slot_of self (Course.id c)).

Definition starts_at (self : TimetableGenerator) (s : Z) (c : Course.t) : bool :=
  match start_of self c with
  | Some s' => Z.eqb s' s
  | None => false
  end.

(** The courses filed under key [k] by [sel] that have a room and start at
    [s], in registration order. *)
Definition scheduled_at (self : TimetableGenerator) (sel : Course.t -> string)
    (k : string) (s : Z) : list Course.t :=
  filter (fun c => String.eqb (sel c) k
                   && dict_mem (room_assignments self) (Course.id c)
                   && starts_at self s c)
         (courses self).

(** An entry that agrees with the two assignment maps. *)
Definition entry_consistent (self : TimetableGenerator) (e : entry) : Prop :=
  slot_of self (Course.id (entry_course e)) = Some (entry_slot e)
  /\ In (entry_room e) (rooms self)
  /\ dict_get (room_assignments self) (Course.id (entry_course e))
     = Some (Room.id (entry_room e)).

(** Appending the entries [es], each under the key [sel] gives it. *)
Definition file_all (sel : Course.t -> string) (es : list entry)
    (schedules : dict (list entry)) : dict (list entry) :=
  fold_left (fun d e => schedule_append d (sel (entry_course e)) e) es schedules.

(** The order the specification asks of a schedule: weekday Monday to
    Friday, then start time, then course id. *)
Definition weekday_index (d : string) : nat :=
  if String.eqb d "Monday" then 0
  else if String.eqb d "Tuesday" then 1
  else if String.eqb d "Wednesday" then 2
  else if String.eqb d "Thursday" then 3
  else if String.eqb d "Friday" then 4
  else 5.

Definition chronological (e1 e2 : entry) : bool :=
  let d1 := weekday_index (TimeSlot.day (entry_slot e1)) in
  let d2 := weekday_index (TimeSlot.day (entry_slot e2)) in
  (d1 <? d2)%nat
  || ((d1 =? d2)%nat
      && ((entry_start e1 <? entry_start e2)%Z
          || ((entry_start e1 =? entry_start e2)%Z
              && String.leb (Course.id (entry_course e1))
                            (Course.id (entry_course e2))))).

(** The orders the specification asks of a whole schedule. *)
Definition chronologically_sorted (l : list entry) : Prop :=
  StronglySorted (fun e1 e2 => chronological e1 e2 = true) l.

(** The courses with a room entry that [sel] files under [k], in
    registration order. *)
Definition roomed_under (self : TimetableGenerator) (sel : Course.t -> string)
    (k : string) : list Course.t :=
  filter (fun c => dict_mem (room_assignments self) (Course.id c)
                   && String.eqb (sel c) k)
         (courses self).

(* ------------------------------------------------------------------ *)
(** *** Sample generators *)

(** The value of a computation that did not raise. *)
Definition value {A : Type} (r : result A) (default : A) : A :=
  match r with
  | Ok a => a
  | Raise _ => default
  end.

(** The fallback courses of the driver, cut to two departments. *)
Definition small_courses : list Course.t :=
  [session "CS101" "Smith" "A" "FCSE"; session "CS102" "Smith" "B" "FCSE";
   session "EE201" "Johnson" "A" "FEE"; session "EE202" "Johnson" "B" "FEE"].

Definition small_slots : list TimeSlot.t :=
  [hour_slot "Monday" 8; hour_slot "Monday" 9; hour_slot "Tuesday" 8].

Definition small_rooms : list Room.t :=
  [lecture_hall "FCSE-LH1" "FCSE"; lecture_hall "FEE-LH4" "FEE";
   lecture_hall "NAB-LH5" "NAB"].

Definition small : TimetableGenerator :=
  load small_courses small_slots small_rooms.

(** [small] after the first two stages. *)
Definition small_colored : TimetableGenerator :=
  set_color_assignments (build_conflict_graph small)
    [("CS101", 0); ("CS102", 1); ("EE201", 1); ("EE202", 0)].

(** [small] after room allocation, and after schedule compilation. *)
Definition small_allocated : TimetableGenerator :=
  value (assign_rooms small_colored) init.

Definition small_compiled : TimetableGenerator :=
  value (optimize_schedules small_allocated) init.

(** Two courses, one teacher, a single slot. *)
Definition one_slot_clash : TimetableGenerator :=
  load [session "CS101" "Smith" "A" "FCSE"; session "CS102" "Smith" "B" "FCSE"]
       [hour_slot "Monday" 8]
       [lecture_hall "FCSE-LH1" "FCSE"].

(** Two unrelated courses of one department, one slot, one room. *)
Definition crowded_courses : list Course.t :=
  [session "CS101" "Smith" "A" "FCSE"; session "CS102" "Jones" "B" "FCSE"].

Definition crowded : TimetableGenerator :=
  load crowded_courses [hour_slot "Monday" 8] [lecture_hall "FCSE-LH1" "FCSE"].

Definition crowded_colored : TimetableGenerator :=
  set_color_assignments (build_conflict_graph crowded)
    [("CS101", 0); ("CS102", 0)].

(** One teacher; the first slot of the catalog is later in the week's
    clock than the second. *)
Definition late_monday : TimetableGenerator :=
  load [session "CS101" "Smith" "A" "FCSE"; session "CS102" "Smith" "B" "FCSE"]
       [hour_slot "Monday" 9; hour_slot "Tuesday" 8]
       [lecture_hall "FCSE-LH1" "FCSE"].

(** One teacher, two slots of one start on one day, ids registered in
    descending order. *)
Definition same_start : TimetableGenerator :=
  load [session "CS102" "Smith" "A" "FCSE"; session "CS101" "Smith" "B" "FCSE"]
       [TimeSlot.make "Monday" (clock 8 0) (clock 9 0);
        TimeSlot.make "Monday" (clock 8 0) (clock 10 0)]
       [lecture_hall "FCSE-LH1" "FCSE"; lecture_hall "FCSE-LH2" "FCSE"].

(* ------------------------------------------------------------------ *)
(** *** The driver's catalog and fallback courses ([test_timetable.py]) *)

(** [timedelta(hours=1)] *)
Definition one_hour : Z := 3600000000.

(** The inner loop of [create_time_slots]: [n] consecutive one-hour slots. *)
Fixpoint day_slots (day : string) (start_time : datetime) (n : nat)
    : list TimeSlot.t :=
  match n with
  | 0 => []
  | S n' =>
      let end_time := (start_time + one_hour)%Z in
      TimeSlot.make day start_time end_time :: day_slots day end_time n'
  end.

Definition days : list string :=
  ["Monday"; "Tuesday"; "Wednesday"; "Thursday"; "Friday"].

Definition create_time_slots : list TimeSlot.t :=
  flat_map (fun day => day_slots day (clock 8 0) 8) days.

(** [f'{prefix}{i}'] for [i] in [range(lo, hi)]. *)
Definition numbered_rooms (prefix : string) (lo hi : nat) (capacity : Z)
    (dept room_type : string) : list Room.t :=
  map (fun i => Room.make (prefix ++ NilEmpty.string_of_uint (Nat.to_uint i))%string
                          capacity dept room_type)
      (seq lo (hi - lo)).

Definition create_rooms : list Room.t :=
  numbered_rooms "FCSE-LH" 1 4 50 "FCSE" "LH"
  ++ [Room.make "FCSE-MLH1" 100 "FCSE" "MLH"]
  ++ numbered_rooms "FEE-LH" 4 7 50 "FEE" "LH"
  ++ [Room.make "FEE-MLH2" 100 "FEE" "MLH"]
  ++ numbered_rooms "FME-LH" 1 5 50 "FME" "LH"
  ++ [Room.make "FME-MLH1" 100 "FME" "MLH"]
  ++ numbered_rooms "FES-LH" 1 7 50 "FES" "LH"
  ++ [Room.make "FES-MLH1" 100 "FES" "MLH"]
  ++ numbered_rooms "FMCE-LH" 1 7 50 "FMCE" "LH"
  ++ [Room.make "FMCE-MLH1" 100 "FMCE" "MLH"]
  ++ numbered_rooms "DCve-LH" 1 4 50 "DCve" "LH"
  ++ [Room.make "DCve-MLH1" 100 "DCve" "MLH"]
  ++ numbered_rooms "NAB-LH" 5 10 50 "NAB" "LH"
  ++ numbered_rooms "NAB-MLH" 1 3 100 "NAB" "MLH".

(** The courses [main] falls back to when the spreadsheet cannot be read. *)
Definition example_courses : list Course.t :=
  [Course.make "CS101" "Introduction to Programming" "Dr. Smith" "Group A" 60 "FCSE";
   Course.make "CS102" "Data Structures" "Dr. Smith" "Group B" 60 "FCSE";
   Course.make "EE201" "Circuit Analysis" "Dr. Johnson" "Group A" 60 "FEE";
   Course.make "EE202" "Digital Electronics" "Dr. Johnson" "Group B" 60 "FEE";
   Course.make "ME301" "Thermodynamics" "Dr. Brown" "Group A" 60 "FME";
   Course.make "ME302" "Fluid Mechanics" "Dr. Brown" "Group B" 60 "FME";
   Course.make "ES401" "Environmental Science" "Dr. Wilson" "Group A" 60 "FES";
   Course.make "ES402" "Climate Change" "Dr. Wilson" "Group B" 60 "FES"].

(** The generator [main] builds on that path, before [generate_timetable]. *)
Definition fallback : TimetableGenerator :=
  load example_courses create_time_slots create_rooms.




(** The number of other registered courses that have the teacher or the
    student group of [c]. *)
Definition conflict_count (cs : list Course.t) (c : Course.t) : nat :=
  List.length
    (filter (fun c' =>
               (String.eqb (Course.teacher c) (Course.teacher c')
                || String.eqb (Course.student_group c) (Course.student_group c'))
               && negb (String.eqb (Course.id c') (Course.id c)))
            cs).

(** Four courses with conflict counts 1, 1, 2 and 0: CS103 has the teacher
    of CS101 and the group of CS102, CS104 stands alone. *)
Definition uneven_courses : list Course.t :=
  [session "CS101" "Smith" "A" "FCSE"; session "CS102" "Jones" "B" "FCSE";
   session "CS103" "Smith" "B" "FCSE"; session "CS104" "Brown" "C" "FCSE"].

Definition uneven : TimetableGenerator :=
  load uneven_courses small_slots small_rooms.

(** Four unrelated courses of one department on one slot, with one home
    room, one foreign room and one NAB room. *)
Definition packed_courses : list Course.t :=
  [session "CS101" "Smith" "A" "FCSE"; session "CS102" "Jones" "B" "FCSE";
   session "CS103" "Brown" "C" "FCSE"; session "CS104" "Wilson" "D" "FCSE"].

Definition packed_colored : TimetableGenerator :=
  set_color_assignments
    (build_conflict_graph (load packed_courses [hour_slot "Monday" 8] small_rooms))
    [("CS101", 0); ("CS102", 0); ("CS103", 0); ("CS104", 0)].

Definition packed_allocated : TimetableGenerator :=
  value (assign_rooms packed_colored) init.

(* ================================================================== *)
(** * Properties *)

(** ** The error monad *)

Lemma bind_ok {A B : Type} (m : result A) (k : A -> result B) (b : B) :
  bind m k = Ok b -> exists a, m = Ok a /\ k a = Ok b.
Proof.
  destruct m as [a|e]; simpl; intros H.
  - exists a. split; [reflexivity | exact H].
  - discriminate H.
Qed.

Ltac bind_inv H :=
  let x := fresh "x" in
  let Hx := fresh "Hx" in
  apply bind_ok in H; destruct H as (x & Hx & H).

(** ** Dictionaries *)

Section DictFacts.
Variable V : Type.
Implicit Types (d : dict V) (k : string) (v : V).

Lemma dict_get_set_same d k v : dict_get (dict_set d k v) k = Some v.
Proof.
  induction d as [|[k' v'] d IH]; simpl.
  - now rewrite String.eqb_refl.
  - destruct (String.eqb k' k) eqn:E; simpl; rewrite E; auto.
Qed.

Lemma dict_get_set_other d k k' v :
  k <> k' -> dict_get (dict_set d k v) k' = dict_get d k'.
Proof.
  intros Hne. induction d as [|[k0 v0] d IH]; simpl.
  - destruct (String.eqb k k') eqn:E; auto.
    apply String.eqb_eq in E. contradiction.
  - destruct (String.eqb k0 k) eqn:E; simpl.
    + apply String.eqb_eq in E. subst k0.
      destruct (String.eqb k k') eqn:E'; auto.
      apply String.eqb_eq in E'. contradiction.
    + now rewrite IH.
Qed.

Lemma dict_get_set d k k' v :
  dict_get (dict_set d k v) k' =
  if String.eqb k k' then Some v else dict_get d k'.
Proof.
  destruct (String.eqb k k') eqn:E.
  - apply String.eqb_eq in E. subst. apply dict_get_set_same.
  - apply String.eqb_neq in E. now apply dict_get_set_other.
Qed.

Lemma dict_get_In d k v : dict_get d k = Some v -> In (k, v) d.
Proof.
  induction d as [|[k' v'] d IH]; simpl; [discriminate|].
  destruct (String.eqb k' k) eqn:E.
  - apply String.eqb_eq in E. intros [= ->]. subst. now left.
  - intros H. right. auto.
Qed.

Lemma dict_get_None d k : dict_get d k = None <-> ~ In k (dict_keys d).
Proof.
  induction d as [|[k' v'] d IH]; simpl.
  - tauto.
  - destruct (String.eqb k' k) eqn:E.
    + apply String.eqb_eq in E. split; [discriminate | intros H; exfalso; auto].
    + apply String.eqb_neq in E. rewrite IH. tauto.
Qed.

Lemma dict_mem_keys d k : dict_mem d k = true <-> In k (dict_keys d).
Proof.
  unfold dict_mem. destruct (dict_get d k) eqn:E.
  - split; auto. intros _.
    apply dict_get_In in E. apply (in_map fst) in E. exact E.
  - apply dict_get_None in E. split; [discriminate | contradiction].
Qed.

Lemma In_dict_get d k v :
  NoDup (dict_keys d) -> In (k, v) d -> dict_get d k = Some v.
Proof.
  induction d as [|[k' v'] d IH]; simpl; [tauto|].
  intros Hnd [Heq | Hin].
  - injection Heq as -> ->. now rewrite String.eqb_refl.
  - inversion Hnd as [|? ? Hnotin Hnd']; subst.
    destruct (String.eqb k' k) eqn:E; auto.
    apply String.eqb_eq in E. subst k'.
    exfalso. apply Hnotin. apply (in_map fst) in Hin. exact Hin.
Qed.

Lemma dict_keys_set d k v :
  dict_keys (dict_set d k v) =
  if dict_mem d k then dict_keys d else dict_keys d ++ [k].
Proof.
  unfold dict_mem. induction d as [|[k' v'] d IH]; simpl; auto.
  destruct (String.eqb k' k) eqn:E; simpl; auto.
  rewrite IH. destruct (dict_get d k); reflexivity.
Qed.

Lemma dict_keys_set_NoDup d k v :
  NoDup (dict_keys d) -> NoDup (dict_keys (dict_set d k v)).
Proof.
  intros Hnd. rewrite dict_keys_set.
  destruct (dict_mem d k) eqn:E; auto.
  apply NoDup_app; auto.
  - constructor; [simpl; tauto | constructor].
  - intros x Hx [<- | []].
    apply dict_mem_keys in Hx. congruence.
Qed.

Lemma dict_mem_set d k k' v :
  dict_mem (dict_set d k v) k' = String.eqb k k' || dict_mem d k'.
Proof.
  unfold dict_mem. rewrite dict_get_set.
  destruct (String.eqb k k'); reflexivity.
Qed.
End DictFacts.

Lemma NoDup_app_disjoint {A : Type} (l1 l2 : list A) (a : A) :
  NoDup (l1 ++ l2) -> In a l1 -> In a l2 -> False.
Proof.
  induction l1 as [|x l1 IH]; simpl; [tauto|].
  intros Hnd [-> | H1] H2; inversion Hnd as [|? ? Hnotin Hnd']; subst.
  - apply Hnotin. apply in_or_app. now right.
  - now apply IH.
Qed.

Lemma str_in_In x l : str_in x l = true <-> In x l.
Proof.
  unfold str_in. rewrite existsb_exists. split.
  - intros (y & Hy & E). apply String.eqb_eq in E. now subst.
  - intros H. exists x. split; auto. apply String.eqb_refl.
Qed.

Lemma str_in_app x l1 l2 : str_in x (l1 ++ l2) = str_in x l1 || str_in x l2.
Proof. unfold str_in. apply existsb_app. Qed.

(** ** Stable sorting *)

Section StableSortFacts.
Variable A : Type.
Variable key : A -> Z.
Variable reverse : bool.

Let not_after (a b : A) : Prop := goes_before key reverse b a = false.

Lemma insert_sorted_perm x l :
  Permutation (insert_sorted key reverse x l) (x :: l).
Proof.
  induction l as [|y l IH]; simpl; auto.
  destruct (goes_before key reverse y x); auto.
  rewrite IH. apply perm_swap.
Qed.

Lemma sorted_perm l : Permutation (sorted key reverse l) l.
Proof.
  induction l as [|x l IH]; simpl; auto.
  rewrite insert_sorted_perm. now constructor.
Qed.

Lemma not_after_trans a b c : not_after a b -> not_after b c -> not_after a c.
Proof.
  unfold not_after, goes_before.
  destruct reverse; rewrite !Z.ltb_ge; lia.
Qed.

Lemma insert_sorted_sorted x l :
  StronglySorted not_after l ->
  StronglySorted not_after (insert_sorted key reverse x l).
Proof.
  induction l as [|y l IH]; simpl; intros Hs.
  - constructor; constructor.
  - inversion Hs as [|? ? Hs' Hall]; subst.
    destruct (goes_before key reverse y x) eqn:E.
    + constructor; auto.
      rewrite Forall_forall in *. intros z Hz.
      apply (Permutation_in _ (insert_sorted_perm x l)) in Hz.
      destruct Hz as [<- | Hz]; auto.
      unfold not_after, goes_before in *.
      destruct reverse; rewrite Z.ltb_lt in E; rewrite Z.ltb_ge; lia.
    + constructor; auto. constructor; auto.
      rewrite Forall_forall in *. intros z Hz.
      apply not_after_trans with y; auto.
Qed.

Lemma sorted_sorted l : StronglySorted not_after (sorted key reverse l).
Proof.
  induction l as [|x l IH]; simpl.
  - constructor.
  - now apply insert_sorted_sorted.
Qed.

(** Stability: the elements of any one key keep their relative order. *)
Lemma insert_sorted_stable k x l :
  filter (fun a => (key a =? k)%Z) (insert_sorted key reverse x l) =
  filter (fun a => (key a =? k)%Z) (x :: l).
Proof.
  induction l as [|y l IH]; auto.
  cbn [insert_sorted]. destruct (goes_before key reverse y x) eqn:E; auto.
  cbn [filter] in *. rewrite IH.
  destruct (key y =? k)%Z eqn:Ey; auto.
  destruct (key x =? k)%Z eqn:Ex; auto.
  exfalso. unfold goes_before in E.
  destruct reverse; rewrite Z.ltb_lt in E; rewrite Z.eqb_eq in *; lia.
Qed.

Lemma sorted_stable k l :
  filter (fun a => (key a =? k)%Z) (sorted key reverse l) =
  filter (fun a => (key a =? k)%Z) l.
Proof.
  induction l as [|x l IH]; auto.
  cbn [sorted]. rewrite insert_sorted_stable.
  cbn [filter]. now rewrite IH.
Qed.
End StableSortFacts.

(** ** The graph operations *)

Lemma dict_mem_add_node g n k :
  dict_mem (add_node g n) k = String.eqb n k || dict_mem g k.
Proof.
  unfold add_node. destruct (dict_mem g n) eqn:E.
  - destruct (String.eqb n k) eqn:E'; auto.
    apply String.eqb_eq in E'. now subst.
  - apply dict_mem_set.
Qed.

Lemma dict_mem_adj_insert g u v k :
  dict_mem (adj_insert g u v) k = dict_mem g k.
Proof.
  unfold adj_insert. destruct (dict_get g u) as [nbrs|] eqn:E; auto.
  rewrite dict_mem_set. destruct (String.eqb u k) eqn:E'; auto.
  apply String.eqb_eq in E'. subst. unfold dict_mem. now rewrite E.
Qed.

Lemma has_edge_add_node g n a b : has_edge (add_node g n) a b = has_edge g a b.
Proof.
  unfold add_node. destruct (dict_mem g n) eqn:E; auto.
  unfold has_edge. rewrite dict_get_set.
  destruct (String.eqb n a) eqn:E'; auto.
  apply String.eqb_eq in E'. subst.
  unfold dict_mem in E. now destruct (dict_get g a).
Qed.

Lemma has_edge_adj_insert g u v a b :
  dict_mem g u = true ->
  has_edge (adj_insert g u v) a b =
  has_edge g a b || (String.eqb u a && String.eqb v b).
Proof.
  unfold dict_mem, adj_insert, has_edge.
  destruct (dict_get g u) as [nbrs|] eqn:E; [intros _ | discriminate].
  rewrite dict_get_set. destruct (String.eqb u a) eqn:Eu.
  - apply String.eqb_eq in Eu. subst a. rewrite E.
    destruct (str_in v nbrs) eqn:Ev.
    + destruct (String.eqb v b) eqn:Eb; rewrite ?orb_false_r; auto.
      apply String.eqb_eq in Eb. subst. rewrite Ev. reflexivity.
    + rewrite str_in_app. simpl. rewrite orb_false_r.
      now rewrite (String.eqb_sym b v).
  - simpl. now rewrite orb_false_r.
Qed.

Lemma has_edge_add_edge g u v a b :
  has_edge (add_edge g u v) a b =
  has_edge g a b
  || (String.eqb u a && String.eqb v b)
  || (String.eqb v a && String.eqb u b).
Proof.
  unfold add_edge.
  rewrite has_edge_adj_insert.
  2:{ rewrite dict_mem_adj_insert, dict_mem_add_node.
      now rewrite String.eqb_refl. }
  rewrite has_edge_adj_insert.
  2:{ rewrite !dict_mem_add_node. rewrite String.eqb_refl.
      now rewrite orb_true_r. }
  now rewrite !has_edge_add_node.
Qed.

Lemma nodes_add_node_NoDup g n : NoDup (nodes g) -> NoDup (nodes (add_node g n)).
Proof.
  unfold add_node, nodes. destruct (dict_mem g n); auto.
  apply dict_keys_set_NoDup.
Qed.

Lemma nodes_adj_insert g u v : nodes (adj_insert g u v) = nodes g.
Proof.
  unfold adj_insert, nodes. destruct (dict_get g u) eqn:E; auto.
  rewrite dict_keys_set. unfold dict_mem. now rewrite E.
Qed.

Lemma nodes_add_node_known g n : dict_mem g n = true -> add_node g n = g.
Proof. unfold add_node. now intros ->. Qed.

Lemma nodes_add_edge_known g u v :
  dict_mem g u = true -> dict_mem g v = true -> nodes (add_edge g u v) = nodes g.
Proof.
  intros Hu Hv. unfold add_edge.
  rewrite !nodes_adj_insert.
  rewrite (nodes_add_node_known g u Hu).
  now rewrite (nodes_add_node_known g v Hv).
Qed.

(** ** Stage 1: the conflict graph *)

Lemma conflict_sym c1 c2 : conflict c1 c2 = conflict c2 c1.
Proof.
  unfold conflict.
  now rewrite (String.eqb_sym (Course.teacher c1)),
              (String.eqb_sym (Course.student_group c1)).
Qed.

Lemma conflict_iff c1 c2 :
  conflict c1 c2 = true <->
  Course.teacher c1 = Course.teacher c2
  \/ Course.student_group c1 = Course.student_group c2.
Proof.
  unfold conflict. now rewrite orb_true_iff, !String.eqb_eq.
Qed.

Lemma has_edge_link c1 c g a b :
  has_edge (link c1 g c) a b = true <->
  has_edge g a b = true \/ joins c1 c a b.
Proof.
  unfold link, joins. destruct (conflict c1 c) eqn:E.
  - rewrite has_edge_add_edge, !orb_true_iff, !andb_true_iff, !String.eqb_eq.
    tauto.
  - split; auto. intros [H | [H _]]; [exact H | discriminate H].
Qed.

Lemma has_edge_link_fold c1 rest g a b :
  has_edge (fold_left (link c1) rest g) a b = true <->
  has_edge g a b = true \/ exists c2, In c2 rest /\ joins c1 c2 a b.
Proof.
  revert g. induction rest as [|c rest IH]; intros g; simpl.
  - split; auto. intros [H | (c2 & [] & _)]; auto.
  - rewrite IH, has_edge_link. split.
    + intros [[H | H] | (c2 & Hin & H)]; auto.
      * right. exists c. auto.
      * right. exists c2. auto.
    + intros [H | (c2 & [<- | Hin] & H)]; auto.
      right. exists c2. auto.
Qed.

Lemma has_edge_conflict_edges cs g a b :
  has_edge (conflict_edges cs g) a b = true <->
  has_edge g a b = true \/ linked cs a b.
Proof.
  revert g. induction cs as [|c1 rest IH]; intros g; simpl.
  - tauto.
  - rewrite IH, has_edge_link_fold. tauto.
Qed.

Lemma joins_sym c1 c2 a b : joins c1 c2 a b -> joins c1 c2 b a.
Proof. unfold joins. tauto. Qed.

Lemma linked_sym cs a b : linked cs a b -> linked cs b a.
Proof.
  induction cs as [|c1 rest IH]; simpl; auto.
  intros [(c2 & Hin & H) | H]; auto.
  left. exists c2. split; auto. now apply joins_sym.
Qed.

(** With unique ids, [linked] is conflict between the two named courses. *)
Lemma linked_members cs a b :
  linked cs a b ->
  exists c1 c2, In c1 cs /\ In c2 cs /\ Course.id c1 = a /\ Course.id c2 = b
                /\ conflict c1 c2 = true.
Proof.
  induction cs as [|c rest IH]; simpl; [tauto|].
  intros [(c2 & Hin & Hc & [[Ha Hb] | [Ha Hb]]) | H].
  - exists c, c2. auto 10.
  - exists c2, c. rewrite conflict_sym. auto 10.
  - destruct (IH H) as (c1 & c2 & ? & ? & ? & ? & ?).
    exists c1, c2. auto 10.
Qed.

Lemma linked_distinct cs a b :
  NoDup (map Course.id cs) -> linked cs a b -> a <> b.
Proof.
  induction cs as [|c rest IH]; simpl; [tauto|].
  intros Hnd H. inversion Hnd as [|? ? Hnotin Hnd']; subst.
  destruct H as [(c2 & Hin & _ & H) | H]; auto.
  intros ->. apply Hnotin.
  apply (in_map Course.id) in Hin.
  destruct H as [[Ha Hb] | [Ha Hb]]; congruence.
Qed.

Lemma linked_intro cs c1 c2 :
  In c1 cs -> In c2 cs -> Course.id c1 <> Course.id c2 ->
  conflict c1 c2 = true -> linked cs (Course.id c1) (Course.id c2).
Proof.
  induction cs as [|c rest IH]; simpl; [tauto|].
  intros [-> | H1] [-> | H2] Hne Hc.
  - congruence.
  - left. exists c2. unfold joins. auto.
  - left. exists c1. unfold joins. rewrite conflict_sym. auto.
  - right. auto.
Qed.

Lemma id_injective cs c1 c2 :
  NoDup (map Course.id cs) -> In c1 cs -> In c2 cs ->
  Course.id c1 = Course.id c2 -> c1 = c2.
Proof.
  induction cs as [|c rest IH]; simpl; [tauto|].
  intros Hnd H1 H2 Heq. inversion Hnd as [|? ? Hnotin Hnd']; subst.
  destruct H1 as [-> | H1], H2 as [-> | H2]; auto.
  - exfalso. apply Hnotin. rewrite Heq. now apply in_map.
  - exfalso. apply Hnotin. rewrite <- Heq. now apply in_map.
Qed.

(** ** Loading *)

Lemma fold_add_room rs self :
  let self' := fold_left add_room rs self in
  courses self' = courses self /\ time_slots self' = time_slots self
  /\ rooms self' = rooms self ++ rs /\ graph self' = graph self
  /\ color_assignments self' = color_assignments self
  /\ room_assignments self' = room_assignments self
  /\ teacher_schedules self' = teacher_schedules self
  /\ student_schedules self' = student_schedules self.
Proof.
  revert self. induction rs as [|r rs IH]; intros self; simpl.
  - rewrite app_nil_r. tauto.
  - destruct (IH (add_room self r)) as (? & ? & E & ? & ? & ? & ? & ?).
    simpl in *. rewrite <- app_assoc in E. tauto.
Qed.

Lemma fold_add_time_slot ts self :
  let self' := fold_left add_time_slot ts self in
  courses self' = courses self /\ time_slots self' = time_slots self ++ ts
  /\ rooms self' = rooms self /\ graph self' = graph self
  /\ color_assignments self' = color_assignments self
  /\ room_assignments self' = room_assignments self
  /\ teacher_schedules self' = teacher_schedules self
  /\ student_schedules self' = student_schedules self.
Proof.
  revert self. induction ts as [|t ts IH]; intros self; simpl.
  - rewrite app_nil_r. tauto.
  - destruct (IH (add_time_slot self t)) as (? & E & ? & ? & ? & ? & ? & ?).
    simpl in *. rewrite <- app_assoc in E. tauto.
Qed.

Lemma fold_add_course cs self :
  let self' := fold_left add_course cs self in
  courses self' = courses self ++ cs /\ time_slots self' = time_slots self
  /\ rooms self' = rooms self
  /\ graph self' = fold_left add_node (map Course.id cs) (graph self)
  /\ color_assignments self' = color_assignments self
  /\ room_assignments self' = room_assignments self
  /\ teacher_schedules self' = teacher_schedules self
  /\ student_schedules self' = student_schedules self.
Proof.
  revert self. induction cs as [|c cs IH]; intros self; simpl.
  - rewrite app_nil_r. tauto.
  - destruct (IH (add_course self c)) as (E & ? & ? & ? & ? & ? & ? & ?).
    simpl in *. rewrite <- app_assoc in E. tauto.
Qed.

Lemma load_fields cs ts rs :
  courses (load cs ts rs) = cs /\ time_slots (load cs ts rs) = ts
  /\ rooms (load cs ts rs) = rs
  /\ graph (load cs ts rs) = fold_left add_node (map Course.id cs) []
  /\ color_assignments (load cs ts rs) = []
  /\ room_assignments (load cs ts rs) = []
  /\ teacher_schedules (load cs ts rs) = []
  /\ student_schedules (load cs ts rs) = [].
Proof.
  unfold load.
  destruct (fold_add_course cs
              (fold_left add_time_slot ts (fold_left add_room rs init)))
    as (c1 & c2 & c3 & c4 & c5 & c6 & c7 & c8).
  destruct (fold_add_time_slot ts (fold_left add_room rs init))
    as (t1 & t2 & t3 & t4 & t5 & t6 & t7 & t8).
  destruct (fold_add_room rs init) as (r1 & r2 & r3 & r4 & r5 & r6 & r7 & r8).
  simpl in *.
  rewrite c1, c2, c3, c4, c5, c6, c7, c8.
  rewrite t1, t2, t3, t4, t5, t6, t7, t8.
  rewrite r1, r2, r3, r4, r5, r6, r7, r8.
  simpl. tauto.
Qed.

Lemma fold_add_node_mem ids g k :
  dict_mem (fold_left add_node ids g) k = true <->
  dict_mem g k = true \/ In k ids.
Proof.
  revert g. induction ids as [|n ids IH]; intros g; simpl.
  - tauto.
  - rewrite IH, dict_mem_add_node, orb_true_iff, String.eqb_eq. tauto.
Qed.

Lemma fold_add_node_has_edge ids g a b :
  has_edge (fold_left add_node ids g) a b = has_edge g a b.
Proof.
  revert g. induction ids as [|n ids IH]; intros g; simpl; auto.
  now rewrite IH, has_edge_add_node.
Qed.

Lemma fold_add_node_NoDup ids g :
  NoDup (nodes g) -> NoDup (nodes (fold_left add_node ids g)).
Proof.
  revert g. induction ids as [|n ids IH]; intros g H; simpl; auto.
  apply IH. now apply nodes_add_node_NoDup.
Qed.

Lemma fold_add_node_fresh ids g :
  NoDup ids -> (forall k, In k ids -> dict_mem g k = false) ->
  nodes (fold_left add_node ids g) = nodes g ++ ids.
Proof.
  revert g. induction ids as [|n ids IH]; intros g Hnd Hfresh; simpl.
  - now rewrite app_nil_r.
  - inversion Hnd as [|? ? Hnotin Hnd']; subst.
    rewrite IH; auto.
    + unfold add_node, nodes. rewrite (Hfresh n) by now left.
      rewrite dict_keys_set. rewrite (Hfresh n) by now left.
      now rewrite <- app_assoc.
    + intros k Hk. rewrite dict_mem_add_node.
      rewrite (Hfresh k) by now right.
      rewrite orb_false_r. apply String.eqb_neq. intros ->. contradiction.
Qed.

Lemma nodes_link_fold c1 rest g :
  dict_mem g (Course.id c1) = true ->
  (forall c, In c rest -> dict_mem g (Course.id c) = true) ->
  nodes (fold_left (link c1) rest g) = nodes g
  /\ forall k, dict_mem (fold_left (link c1) rest g) k = dict_mem g k.
Proof.
  revert g. induction rest as [|c rest IH]; intros g H1 Hall; simpl; auto.
  assert (Hstep : nodes (link c1 g c) = nodes g).
  { unfold link. destruct (conflict c1 c); auto.
    apply nodes_add_edge_known; auto. apply Hall. now left. }
  assert (Hmem : forall k, dict_mem (link c1 g c) k = dict_mem g k).
  { intros k. unfold link. destruct (conflict c1 c); auto.
    unfold add_edge. rewrite !dict_mem_adj_insert.
    rewrite (nodes_add_node_known g (Course.id c1) H1).
    rewrite nodes_add_node_known; auto. apply Hall. now left. }
  destruct (IH (link c1 g c)) as [E1 E2].
  - now rewrite Hmem.
  - intros c' Hc'. rewrite Hmem. apply Hall. now right.
  - split; [congruence|]. intros k. now rewrite E2.
Qed.

Lemma nodes_conflict_edges cs g :
  (forall c, In c cs -> dict_mem g (Course.id c) = true) ->
  nodes (conflict_edges cs g) = nodes g.
Proof.
  revert g. induction cs as [|c1 rest IH]; intros g Hall; simpl; auto.
  destruct (nodes_link_fold c1 rest g) as [E1 E2].
  - apply Hall. now left.
  - intros c Hc. apply Hall. now right.
  - rewrite IH; auto. intros c Hc. rewrite E2. apply Hall. now right.
Qed.

Lemma graph_build cs ts rs :
  graph (build_conflict_graph (load cs ts rs)) = conflict_graph cs.
Proof.
  destruct (load_fields cs ts rs) as (E1 & _ & _ & E4 & _).
  unfold build_conflict_graph, conflict_graph. simpl. now rewrite E1, E4.
Qed.

Lemma conflict_graph_edge cs a b :
  has_edge (conflict_graph cs) a b = true <-> linked cs a b.
Proof.
  unfold conflict_graph.
  rewrite has_edge_conflict_edges, fold_add_node_has_edge. simpl.
  split; [intros [H | H]; [discriminate | exact H] | auto].
Qed.

Lemma conflict_graph_nodes_NoDup_ids cs :
  NoDup (map Course.id cs) -> nodes (conflict_graph cs) = map Course.id cs.
Proof.
  intros Hnd. unfold conflict_graph.
  rewrite nodes_conflict_edges.
  - now rewrite fold_add_node_fresh.
  - intros c Hc. apply fold_add_node_mem. right. now apply in_map.
Qed.

Lemma conflict_graph_nodes cs k :
  In k (nodes (conflict_graph cs)) <-> In k (map Course.id cs).
Proof.
  unfold conflict_graph. rewrite nodes_conflict_edges.
  - unfold nodes. rewrite <- dict_mem_keys, fold_add_node_mem.
    simpl. split; [intros [H | H]; [discriminate | exact H] | auto].
  - intros c Hc. apply fold_add_node_mem. right. now apply in_map.
Qed.

Lemma conflict_graph_NoDup cs : NoDup (nodes (conflict_graph cs)).
Proof.
  unfold conflict_graph. rewrite nodes_conflict_edges.
  - apply fold_add_node_NoDup. constructor.
  - intros c Hc. apply fold_add_node_mem. right. now apply in_map.
Qed.

(** ** Stage 2: greedy coloring *)

Lemma color_in_iff c used : color_in c used = true <-> In c used.
Proof.
  unfold color_in. rewrite existsb_exists. split.
  - intros (y & Hy & E). apply Nat.eqb_eq in E. now subst.
  - intros H. exists c. split; auto. apply Nat.eqb_refl.
Qed.

Lemma used_colors_iff colors nbrs c :
  In c (used_colors colors nbrs) <->
  exists n, In n nbrs /\ dict_get colors n = Some c.
Proof.
  unfold used_colors. rewrite in_flat_map. split.
  - intros (n & Hn & H). exists n. split; auto.
    destruct (dict_get colors n); simpl in H; [|tauto].
    destruct H as [-> | []]. reflexivity.
  - intros (n & Hn & H). exists n. split; auto. rewrite H. now left.
Qed.

Lemma find_seq_least (p : nat -> bool) a n c :
  find p (seq a n) = Some c ->
  a <= c < a + n /\ p c = true /\ forall c', a <= c' < c -> p c' = false.
Proof.
  revert a. induction n as [|n IH]; intros a; simpl; [discriminate|].
  destruct (p a) eqn:E.
  - intros [= <-]. repeat split; auto; lia.
  - intros H. destruct (IH _ H) as (Hr & Hp & Hleast).
    repeat split; auto; try lia.
    intros c' Hc'. destruct (Nat.eq_dec c' a) as [-> | Hne]; auto.
    apply Hleast. lia.
Qed.

Lemma first_available_least n used c :
  first_available (available_colors n) used = Ok c ->
  c < n /\ ~ In c used /\ forall c', c' < c -> In c' used.
Proof.
  unfold first_available, available_colors.
  destruct (find _ (seq 0 n)) as [c0|] eqn:E; [|discriminate].
  intros [= <-]. apply find_seq_least in E. destruct E as (Hr & Hp & Hleast).
  split; [lia|]. split.
  - rewrite <- color_in_iff. now destruct (color_in c0 used).
  - intros c' Hc'. rewrite <- color_in_iff.
    specialize (Hleast c' ltac:(lia)). now destruct (color_in c' used).
Qed.

Lemma first_available_exhausted n used :
  (forall c, c < n -> In c used) ->
  first_available (available_colors n) used = Raise StopIteration.
Proof.
  intros Hall. unfold first_available, available_colors.
  destruct (find _ (seq 0 n)) as [c0|] eqn:E; auto.
  apply find_some in E. destruct E as [Hin Hp].
  apply in_seq in Hin.
  assert (Hc : color_in c0 used = true) by (apply color_in_iff, Hall; lia).
  rewrite Hc in Hp. discriminate.
Qed.

Lemma color_vertex_ok g palette colors v colors' :
  color_vertex g palette colors v = Ok colors' ->
  exists nbrs c,
    dict_get g v = Some nbrs
    /\ first_available palette (used_colors colors nbrs) = Ok c
    /\ colors' = dict_set colors v c.
Proof.
  unfold color_vertex, neighbors. intros H.
  destruct (dict_get g v) as [nbrs|]; simpl in H; [|discriminate].
  bind_inv H. injection H as <-. exists nbrs, x. auto.
Qed.

Lemma color_vertices_app g palette pre post colors final :
  color_vertices g palette (pre ++ post) colors = Ok final ->
  exists mid,
    color_vertices g palette pre colors = Ok mid
    /\ color_vertices g palette post mid = Ok final.
Proof.
  revert colors. induction pre as [|v pre IH]; intros colors H; simpl in *.
  - exists colors. auto.
  - bind_inv H. rewrite Hx. simpl. auto.
Qed.

Lemma color_vertices_frame g palette vs colors final k :
  color_vertices g palette vs colors = Ok final ->
  ~ In k vs -> dict_get final k = dict_get colors k.
Proof.
  revert colors. induction vs as [|v vs IH]; intros colors H Hk; simpl in *.
  - now injection H as <-.
  - bind_inv H. rewrite (IH _ H) by tauto.
    apply color_vertex_ok in Hx. destruct Hx as (nbrs & c & _ & _ & ->).
    apply dict_get_set_other. tauto.
Qed.

Lemma color_vertices_keys g palette vs colors final k :
  color_vertices g palette vs colors = Ok final ->
  dict_mem final k = true -> dict_mem colors k = true \/ In k vs.
Proof.
  revert colors. induction vs as [|v vs IH]; intros colors H Hk; simpl in *.
  - injection H as <-. auto.
  - bind_inv H. destruct (IH _ H Hk) as [Hm | Hin]; auto.
    apply color_vertex_ok in Hx. destruct Hx as (nbrs & c & _ & _ & ->).
    rewrite dict_mem_set, orb_true_iff, String.eqb_eq in Hm. tauto.
Qed.

Lemma has_edge_nbrs g v nbrs n :
  dict_get g v = Some nbrs -> (has_edge g v n = true <-> In n nbrs).
Proof. intros H. unfold has_edge. rewrite H. apply str_in_In. Qed.

(** What the loop does for each vertex, told in terms of the final
    assignment: the vertex gets the least palette index that none of its
    earlier-processed neighbours holds. *)
Lemma color_vertices_greedy g n vs final :
  NoDup vs ->
  color_vertices g (available_colors n) vs [] = Ok final ->
  forall pre v post, vs = pre ++ v :: post ->
  exists c,
    dict_get final v = Some c /\ c < n
    /\ (forall u, In u pre -> has_edge g v u = true -> dict_get final u <> Some c)
    /\ (forall c', c' < c ->
        exists u, In u pre /\ has_edge g v u = true /\ dict_get final u = Some c').
Proof.
  intros Hnd Hrun pre v post ->.
  apply color_vertices_app in Hrun. destruct Hrun as (mid & Hpre & Hrest).
  pose proof (NoDup_remove_2 _ _ _ Hnd) as Hv.
  apply NoDup_remove_1 in Hnd as Hnd'.
  rewrite in_app_iff in Hv.
  assert (Hold : forall u, In u pre -> dict_get final u = dict_get mid u).
  { intros u Hu. apply (color_vertices_frame _ _ _ _ _ _ Hrest).
    intros [<- | Hin]; [tauto|].
    exact (NoDup_app_disjoint _ _ _ Hnd' Hu Hin). }
  assert (Hkeys : forall u, dict_mem mid u = true -> In u pre).
  { intros u Hu.
    destruct (color_vertices_keys _ _ _ _ _ _ Hpre Hu) as [H | H]; auto.
    discriminate H. }
  simpl in Hrest. bind_inv Hrest.
  apply color_vertex_ok in Hx. destruct Hx as (nbrs & c & Hg & Hc & ->).
  apply first_available_least in Hc. destruct Hc as (Hlt & Hfree & Hleast).
  exists c. split; [|split; [exact Hlt|split]].
  - rewrite (color_vertices_frame _ _ _ _ _ _ Hrest) by tauto.
    apply dict_get_set_same.
  - intros u Hu He Hcu. apply Hfree. apply used_colors_iff.
    exists u. split.
    + now apply (has_edge_nbrs _ _ _ u Hg).
    + now rewrite <- Hold.
  - intros c' Hc'. apply Hleast in Hc'. apply used_colors_iff in Hc'.
    destruct Hc' as (u & Hu & Hcu).
    assert (Hpu : In u pre).
    { apply Hkeys. unfold dict_mem. now rewrite Hcu. }
    exists u. split; [exact Hpu|]. split.
    + now apply (has_edge_nbrs _ _ _ u Hg).
    + now rewrite Hold.
Qed.

Lemma in_two_split (a b : string) l :
  In a l -> In b l -> a <> b ->
  (exists l1 l2 l3, l = l1 ++ a :: l2 ++ b :: l3)
  \/ (exists l1 l2 l3, l = l1 ++ b :: l2 ++ a :: l3).
Proof.
  intros Ha Hb Hne. apply in_split in Ha. destruct Ha as (l1 & l2 & ->).
  apply in_app_or in Hb. destruct Hb as [Hb | [Hb | Hb]].
  - right. apply in_split in Hb. destruct Hb as (m1 & m2 & ->).
    exists m1, m2, l2. now rewrite <- app_assoc.
  - contradiction.
  - left. apply in_split in Hb. destruct Hb as (m1 & m2 & ->).
    exists l1, m1, m2. reflexivity.
Qed.

(** Adjacent vertices end up with different colors. *)
Lemma color_vertices_proper g n vs final a b :
  NoDup vs ->
  color_vertices g (available_colors n) vs [] = Ok final ->
  In a vs -> In b vs -> a <> b ->
  has_edge g a b = true -> has_edge g b a = true ->
  exists i j, dict_get final a = Some i /\ dict_get final b = Some j /\ i <> j.
Proof.
  intros Hnd Hrun Ha Hb Hne Hab Hba.
  destruct (in_two_split _ _ _ Ha Hb Hne) as [(l1 & l2 & l3 & E) | (l1 & l2 & l3 & E)].
  - destruct (color_vertices_greedy _ _ _ _ Hnd Hrun l1 a (l2 ++ b :: l3) E)
      as (i & Hi & _).
    rewrite app_comm_cons, app_assoc in E.
    destruct (color_vertices_greedy _ _ _ _ Hnd Hrun _ b l3 E)
      as (j & Hj & _ & Hfree & _).
    exists i, j. split; [exact Hi|]. split; [exact Hj|].
    intros ->. apply (Hfree a); auto.
    apply in_or_app. right. now left.
  - destruct (color_vertices_greedy _ _ _ _ Hnd Hrun l1 b (l2 ++ a :: l3) E)
      as (j & Hj & _).
    rewrite app_comm_cons, app_assoc in E.
    destruct (color_vertices_greedy _ _ _ _ Hnd Hrun _ a l3 E)
      as (i & Hi & _ & Hfree & _).
    exists i, j. split; [exact Hi|]. split; [exact Hj|].
    intros ->. apply (Hfree b); auto.
    apply in_or_app. right. now left.
Qed.

Lemma vertices_by_degree_perm g : Permutation (vertices_by_degree g) (nodes g).
Proof. apply sorted_perm. Qed.

Lemma vertices_by_degree_NoDup g :
  NoDup (nodes g) -> NoDup (vertices_by_degree g).
Proof.
  intros H. apply (Permutation_NoDup (Permutation_sym (vertices_by_degree_perm g)) H).
Qed.

Lemma linked_unique_ids cs a b :
  NoDup (map Course.id cs) ->
  (linked cs a b <->
   exists c1 c2, In c1 cs /\ In c2 cs /\ Course.id c1 = a /\ Course.id c2 = b
                 /\ a <> b /\ conflict c1 c2 = true).
Proof.
  intros Hnd. split.
  - intros H. pose proof (linked_distinct _ _ _ Hnd H) as Hne.
    destruct (linked_members _ _ _ H) as (c1 & c2 & ? & ? & ? & ? & ?).
    exists c1, c2. auto 10.
  - intros (c1 & c2 & H1 & H2 & <- & <- & Hne & Hc).
    now apply linked_intro.
Qed.

(** C5: the conflict graph joins two distinct courses exactly when they
    share a teacher or a student group, in both directions of the edge; it
    has no self-loop; and registering the same courses in another order
    yields the same edges. *)
Theorem build_conflict_graph_exact cs ts rs :
  NoDup (map Course.id cs) ->
  let g := graph (build_conflict_graph (load cs ts rs)) in
  (forall c1 c2, In c1 cs -> In c2 cs -> c1 <> c2 ->
     (has_edge g (Course.id c1) (Course.id c2) = true <->
      Course.teacher c1 = Course.teacher c2
      \/ Course.student_group c1 = Course.student_group c2)
     /\ has_edge g (Course.id c2) (Course.id c1)
        = has_edge g (Course.id c1) (Course.id c2))
  /\ (forall a, has_edge g a a = false)
  /\ (forall cs', Permutation cs cs' ->
      forall a b,
        has_edge (graph (build_conflict_graph (load cs' ts rs))) a b
        = has_edge g a b).
Proof.
  intros Hnd g. subst g. rewrite graph_build.
  split; [|split].
  - intros c1 c2 H1 H2 Hne.
    assert (Hid : Course.id c1 <> Course.id c2).
    { intros E. apply Hne. now apply (id_injective cs). }
    split.
    + rewrite conflict_graph_edge, <- conflict_iff. split.
      * intros H. apply linked_members in H.
        destruct H as (d1 & d2 & Hd1 & Hd2 & E1 & E2 & Hc).
        apply (id_injective cs) in E1; auto.
        apply (id_injective cs) in E2; auto. now subst.
      * intros Hc. now apply linked_intro.
    + apply Bool.eq_iff_eq_true. rewrite !conflict_graph_edge.
      split; apply linked_sym.
  - intros a. destruct (has_edge (conflict_graph cs) a a) eqn:E; auto.
    apply conflict_graph_edge in E.
    now apply (linked_distinct _ _ _ Hnd) in E.
  - intros cs' Hperm a b. rewrite graph_build.
    apply Bool.eq_iff_eq_true. rewrite !conflict_graph_edge.
    assert (Hnd' : NoDup (map Course.id cs')).
    { apply (Permutation_NoDup (Permutation_map Course.id Hperm) Hnd). }
    rewrite (linked_unique_ids _ _ _ Hnd), (linked_unique_ids _ _ _ Hnd').
    split; intros (c1 & c2 & H1 & H2 & H);
      exists c1, c2; (split; [|split; [|exact H]]).
    + now apply (Permutation_in _ (Permutation_sym Hperm)).
    + now apply (Permutation_in _ (Permutation_sym Hperm)).
    + now apply (Permutation_in _ Hperm).
    + now apply (Permutation_in _ Hperm).
Qed.

(** C1: when the coloring stage returns, any two courses with different ids
    that share a teacher or a student group hold different slot indices. *)
Theorem coloring_separates_conflicts cs ts rs colors c1 c2 :
  welsh_powell_coloring (build_conflict_graph (load cs ts rs)) = Ok colors ->
  In c1 cs -> In c2 cs -> Course.id c1 <> Course.id c2 ->
  Course.teacher c1 = Course.teacher c2
  \/ Course.student_group c1 = Course.student_group c2 ->
  exists i j,
    dict_get colors (Course.id c1) = Some i
    /\ dict_get colors (Course.id c2) = Some j
    /\ i <> j.
Proof.
  unfold welsh_powell_coloring. rewrite graph_build.
  intros Hrun H1 H2 Hne Hshare.
  apply conflict_iff in Hshare.
  pose proof (linked_intro cs c1 c2 H1 H2 Hne Hshare) as Hl.
  assert (Hin : forall c, In c cs ->
                In (Course.id c) (vertices_by_degree (conflict_graph cs))).
  { intros c Hc.
    apply (Permutation_in _ (Permutation_sym (vertices_by_degree_perm _))).
    apply conflict_graph_nodes. now apply in_map. }
  apply (color_vertices_proper _ _ _ _ _ _
           (vertices_by_degree_NoDup _ (conflict_graph_NoDup cs)) Hrun); auto.
  - now apply conflict_graph_edge.
  - now apply conflict_graph_edge, linked_sym.
Qed.

Lemma all_distinct_NoDup l : all_distinct l = true -> NoDup l.
Proof.
  induction l as [|x l IH]; simpl; intros H; constructor.
  - apply andb_true_iff in H. destruct H as [H _].
    rewrite <- str_in_In. now destruct (str_in x l).
  - apply IH. apply andb_true_iff in H. tauto.
Qed.

Lemma build_conflict_graph_exact_witness :
  let cs := small_courses in
  let g := graph (build_conflict_graph small) in
  (forall c1 c2, In c1 cs -> In c2 cs -> c1 <> c2 ->
     (has_edge g (Course.id c1) (Course.id c2) = true <->
      Course.teacher c1 = Course.teacher c2
      \/ Course.student_group c1 = Course.student_group c2)
     /\ has_edge g (Course.id c2) (Course.id c1)
        = has_edge g (Course.id c1) (Course.id c2))
  /\ (forall a, has_edge g a a = false)
  /\ (forall cs', Permutation cs cs' ->
      forall a b,
        has_edge (graph (build_conflict_graph (load cs' small_slots small_rooms))) a b
        = has_edge g a b).
Proof.
  apply (build_conflict_graph_exact small_courses small_slots small_rooms).
  apply all_distinct_NoDup. reflexivity.
Defined.

Lemma coloring_separates_conflicts_witness :
  exists i j,
    dict_get [("CS101", 0); ("CS102", 1); ("EE201", 1); ("EE202", 0)] "CS101" = Some i
    /\ dict_get [("CS101", 0); ("CS102", 1); ("EE201", 1); ("EE202", 0)] "CS102" = Some j
    /\ i <> j.
Proof.
  apply (coloring_separates_conflicts small_courses small_slots small_rooms
           [("CS101", 0); ("CS102", 1); ("EE201", 1); ("EE202", 0)]
           (session "CS101" "Smith" "A" "FCSE")
           (session "CS102" "Smith" "B" "FCSE")).
  - vm_compute. reflexivity.
  - simpl. auto.
  - simpl. auto.
  - simpl. discriminate.
  - left. reflexivity.
Defined.

Lemma StronglySorted_weaken {A : Type} (R S : A -> A -> Prop) l :
  (forall a b, R a b -> S a b) -> StronglySorted R l -> StronglySorted S l.
Proof.
  intros HRS. induction 1 as [|a l Hs IH Hall]; constructor; auto.
  eapply Forall_impl; [|exact Hall]. auto.
Qed.

Lemma vertices_by_degree_sorted g :
  StronglySorted (fun a b => degree g b <= degree g a) (vertices_by_degree g).
Proof.
  unfold vertices_by_degree.
  eapply StronglySorted_weaken; [|apply sorted_sorted].
  simpl. intros a b. unfold goes_before. rewrite Z.ltb_ge. lia.
Qed.

Lemma vertices_by_degree_stable g d :
  filter (fun v => Nat.eqb (degree g v) d) (vertices_by_degree g)
  = filter (fun v => Nat.eqb (degree g v) d) (nodes g).
Proof.
  unfold vertices_by_degree.
  rewrite (filter_ext _ (fun v => (Z.of_nat (degree g v) =? Z.of_nat d)%Z)).
  - rewrite sorted_stable. apply filter_ext.
    intros v. destruct (Nat.eqb (degree g v) d) eqn:E.
    + apply Nat.eqb_eq in E. rewrite E. apply Z.eqb_refl.
    + apply Nat.eqb_neq in E. apply Z.eqb_neq. lia.
  - intros v. destruct (Nat.eqb (degree g v) d) eqn:E.
    + apply Nat.eqb_eq in E. rewrite E. symmetry. apply Z.eqb_refl.
    + apply Nat.eqb_neq in E. symmetry. apply Z.eqb_neq. lia.
Qed.

Lemma color_vertices_app_eq g palette pre post colors :
  color_vertices g palette (pre ++ post) colors
  = (mid <- color_vertices g palette pre colors ;;
     color_vertices g palette post mid).
Proof.
  revert colors. induction pre as [|v pre IH]; intros colors; simpl; auto.
  destruct (color_vertex g palette colors v); simpl; auto.
Qed.

(** C3, as the code has it: when a course comes up for coloring and every
    index below T is already held by one of its colored neighbours, the
    stage ends in an uncaught StopIteration and returns no assignment. *)
Theorem coloring_exhausted_raises self pre v post colored :
  vertices_by_degree (graph self) = pre ++ v :: post ->
  color_vertices (graph self)
                 (available_colors (List.length (time_slots self))) pre []
  = Ok colored ->
  (forall c, c < List.length (time_slots self) ->
     exists u, has_edge (graph self) v u = true /\ dict_get colored u = Some c) ->
  welsh_powell_coloring self = Raise StopIteration.
Proof.
  intros Hvs Hpre Hfull. unfold welsh_powell_coloring.
  rewrite Hvs, color_vertices_app_eq, Hpre. simpl.
  assert (Hv : In v (nodes (graph self))).
  { apply (Permutation_in _ (vertices_by_degree_perm _)).
    rewrite Hvs. apply in_or_app. right. now left. }
  apply dict_mem_keys in Hv. unfold dict_mem in Hv.
  unfold color_vertex, neighbors.
  destruct (dict_get (graph self) v) as [nbrs|] eqn:Hg; [|discriminate].
  simpl. rewrite first_available_exhausted; [reflexivity|].
  intros c Hc. destruct (Hfull c Hc) as (u & He & Hu).
  apply used_colors_iff. exists u. split; auto.
  now apply (has_edge_nbrs _ _ _ u Hg).
Qed.

Lemma coloring_exhausted_raises_witness :
  welsh_powell_coloring (build_conflict_graph one_slot_clash)
  = Raise StopIteration.
Proof.
  apply (coloring_exhausted_raises (build_conflict_graph one_slot_clash)
           ["CS101"] "CS102" [] [("CS101", 0)]).
  - vm_compute. reflexivity.
  - vm_compute. reflexivity.
  - intros c Hc. exists "CS101". split; [vm_compute; reflexivity|].
    assert (E : c = 0) by (vm_compute in Hc; lia).
    rewrite E. reflexivity.
Defined.

(** C3 does not hold of the code: with two courses of one teacher and a
    single slot, the second course finds no index and the stage, and with it
    the whole run, ends in an uncaught StopIteration. *)
Lemma coloring_capacity_not_signalled :
  welsh_powell_coloring (build_conflict_graph one_slot_clash)
  = Raise StopIteration
  /\ generate_timetable one_slot_clash = Raise StopIteration
  /\ ~ (exists colors,
          welsh_powell_coloring (build_conflict_graph one_slot_clash)
          = Ok colors).
Proof.
  split; [vm_compute; reflexivity|].
  split; [vm_compute; reflexivity|].
  intros (colors & H). vm_compute in H. discriminate H.
Qed.

(** ** Stage 3: room allocation *)

Lemma overlap_iff slot1 slot2 :
  _time_slots_overlap slot1 slot2 = true <->
  TimeSlot.day slot1 = TimeSlot.day slot2
  /\ (TimeSlot.start_time slot1 < TimeSlot.end_time slot2)%Z
  /\ (TimeSlot.start_time slot2 < TimeSlot.end_time slot1)%Z.
Proof.
  unfold _time_slots_overlap.
  rewrite !andb_true_iff, String.eqb_eq, !Z.ltb_lt. tauto.
Qed.

Lemma overlap_sym slot1 slot2 :
  _time_slots_overlap slot1 slot2 = _time_slots_overlap slot2 slot1.
Proof.
  apply Bool.eq_iff_eq_true. rewrite !overlap_iff.
  split; intros (H1 & H2 & H3); auto.
Qed.

Lemma slot_lookup self k s :
  slot_of self k = Some s ->
  exists idx, dict_lookup (color_assignments self) k = Ok idx
              /\ list_index (time_slots self) idx = Ok s.
Proof.
  unfold slot_of, dict_lookup, list_index.
  destruct (dict_get (color_assignments self) k) as [idx|]; [|discriminate].
  intros H. exists idx. now rewrite H.
Qed.

Lemma lookup_slot self k idx s :
  dict_lookup (color_assignments self) k = Ok idx ->
  list_index (time_slots self) idx = Ok s ->
  slot_of self k = Some s.
Proof.
  unfold slot_of, dict_lookup, list_index.
  destruct (dict_get (color_assignments self) k) as [i|]; [|discriminate].
  intros [= ->]. destruct (nth_error (time_slots self) idx); [|discriminate].
  now intros [= ->].
Qed.

Lemma room_available_in_true self rid slot items :
  room_available_in self rid slot items = Ok true ->
  forall k, In (k, rid) items ->
  exists s, slot_of self k = Some s /\ _time_slots_overlap slot s = false.
Proof.
  induction items as [|[k0 r0] items IH]; simpl; [tauto|].
  intros H k [Heq | Hin].
  - injection Heq as -> ->. rewrite String.eqb_refl in H.
    bind_inv H. bind_inv H.
    exists x0. split; [eapply lookup_slot; eauto|].
    destruct (_time_slots_overlap slot x0); [discriminate | reflexivity].
  - destruct (String.eqb r0 rid); [|now apply IH].
    bind_inv H. bind_inv H.
    destruct (_time_slots_overlap slot x0); [discriminate | now apply IH].
Qed.

Lemma room_available_in_false self rid slot items :
  room_available_in self rid slot items = Ok false ->
  exists k s, In (k, rid) items /\ slot_of self k = Some s
              /\ _time_slots_overlap slot s = true.
Proof.
  induction items as [|[k0 r0] items IH]; simpl; [discriminate|].
  intros H. destruct (String.eqb r0 rid) eqn:E.
  - apply String.eqb_eq in E. subst r0.
    bind_inv H. bind_inv H.
    destruct (_time_slots_overlap slot x0) eqn:Ho.
    + exists k0, x0. split; [now left|]. split; [eapply lookup_slot; eauto | auto].
    + destruct (IH H) as (k & s & ? & ? & ?). exists k, s. auto.
  - destruct (IH H) as (k & s & ? & ? & ?). exists k, s. auto.
Qed.

Lemma room_available_in_total self rid slot items :
  (forall k r, In (k, r) items -> exists s, slot_of self k = Some s) ->
  exists b, room_available_in self rid slot items = Ok b.
Proof.
  induction items as [|[k0 r0] items IH]; simpl; intros Hall.
  - now exists true.
  - assert (IH' : exists b, room_available_in self rid slot items = Ok b).
    { apply IH. intros k r Hin. apply (Hall k r). now right. }
    destruct (String.eqb r0 rid); auto.
    destruct (Hall k0 r0 (or_introl eq_refl)) as (s & Hs).
    apply slot_lookup in Hs. destruct Hs as (idx & H1 & H2).
    rewrite H1. simpl. rewrite H2. simpl.
    destruct (_time_slots_overlap slot s); auto. now exists false.
Qed.

Lemma is_room_available_total self rid slot :
  allocation_wf self -> exists b, _is_room_available self rid slot = Ok b.
Proof.
  intros [Hnd Hwf]. apply room_available_in_total.
  intros k r Hin. apply (Hwf k r). now apply In_dict_get.
Qed.

Lemma is_room_available_free self rid slot :
  _is_room_available self rid slot = Ok true -> room_free self rid slot.
Proof.
  intros H k s Hk Hs. apply dict_get_In in Hk.
  destruct (room_available_in_true _ _ _ _ H k Hk) as (s' & Hs' & Ho).
  congruence.
Qed.

Lemma is_room_available_occupied self rid slot :
  allocation_wf self ->
  _is_room_available self rid slot = Ok false -> room_occupied self rid slot.
Proof.
  intros [Hnd _] H. apply room_available_in_false in H.
  destruct H as (k & s & Hin & Hs & Ho).
  exists k, s. split; [now apply In_dict_get | auto].
Qed.

Lemma free_not_occupied self rid slot :
  room_free self rid slot -> room_occupied self rid slot -> False.
Proof.
  intros Hf (k & s & Hk & Hs & Ho). rewrite (Hf k s Hk Hs) in Ho. discriminate.
Qed.

Lemma free_is_room_available self rid slot :
  allocation_wf self -> room_free self rid slot ->
  _is_room_available self rid slot = Ok true.
Proof.
  intros Hwf Hf. destruct (is_room_available_total self rid slot Hwf) as ([|] & H); auto.
  exfalso. apply (free_not_occupied _ _ _ Hf).
  now apply is_room_available_occupied.
Qed.

Lemma occupied_is_room_available self rid slot :
  allocation_wf self -> room_occupied self rid slot ->
  _is_room_available self rid slot = Ok false.
Proof.
  intros Hwf Ho. destruct (is_room_available_total self rid slot Hwf) as ([|] & H); auto.
  exfalso. apply (free_not_occupied self rid slot); auto.
  now apply is_room_available_free.
Qed.

Lemma first_free_room_some self slot cands r :
  first_free_room self slot cands = Ok (Some r) ->
  In r cands /\ _is_room_available self (Room.id r) slot = Ok true.
Proof.
  induction cands as [|r0 cands IH]; simpl; [discriminate|].
  intros H. bind_inv H. destruct x.
  - injection H as <-. auto.
  - destruct (IH H). auto.
Qed.

Lemma first_free_room_none self slot cands :
  first_free_room self slot cands = Ok None ->
  forall r, In r cands -> _is_room_available self (Room.id r) slot = Ok false.
Proof.
  induction cands as [|r0 cands IH]; simpl; [tauto|].
  intros H r Hin. bind_inv H. destruct x; [discriminate|].
  destruct Hin as [<- | Hin]; auto.
Qed.

Lemma first_free_room_total self slot cands :
  allocation_wf self -> exists o, first_free_room self slot cands = Ok o.
Proof.
  intros Hwf. induction cands as [|r0 cands IH]; simpl.
  - now exists None.
  - destruct (is_room_available_total self (Room.id r0) slot Hwf) as (b & ->).
    simpl. destruct b; auto. now exists (Some r0).
Qed.

Lemma tiers_cover self course r :
  In r (rooms self) ->
  In r (department_rooms self course) \/ In r (nab_rooms self)
  \/ In r (other_rooms self course).
Proof.
  intros Hin. unfold department_rooms, nab_rooms, other_rooms.
  rewrite !filter_In.
  destruct (String.eqb (Room.department r) (Course.department course));
    destruct (String.eqb (upper (Room.department r)) "NAB"); simpl; auto.
Qed.

Lemma tiers_within self course r :
  In r (department_rooms self course) \/ In r (nab_rooms self)
  \/ In r (other_rooms self course) ->
  In r (rooms self).
Proof.
  unfold department_rooms, nab_rooms, other_rooms.
  rewrite !filter_In. tauto.
Qed.

Lemma assign_room_ok self course self' :
  assign_room self course = Ok self' ->
  exists slot,
    slot_of self (Course.id course) = Some slot
    /\ allocation self course slot self'.
Proof.
  unfold assign_room. intros H.
  bind_inv H. bind_inv H. rename x0 into slot.
  exists slot. split; [eapply lookup_slot; eauto|].
  bind_inv H. destruct x0 as [room|].
  { injection H as <-. now apply alloc_home. }
  bind_inv H. destruct x0 as [room|].
  { injection H as <-. now apply alloc_nab. }
  bind_inv H. destruct x0 as [room|].
  { injection H as <-. now apply alloc_other. }
  injection H as <-. now apply alloc_none.
Qed.

Lemma allocation_inputs self course slot self' :
  allocation self course slot self' ->
  courses self' = courses self /\ time_slots self' = time_slots self
  /\ rooms self' = rooms self
  /\ color_assignments self' = color_assignments self.
Proof. intros H. destruct H; simpl; auto. Qed.

Lemma allocation_entry self course slot self' :
  allocation self course slot self' ->
  (exists room,
      In room (rooms self)
      /\ _is_room_available self (Room.id room) slot = Ok true
      /\ room_assignments self'
         = dict_set (room_assignments self) (Course.id course) (Room.id room))
  \/ (room_assignments self' = room_assignments self
      /\ forall r, In r (rooms self) ->
                   _is_room_available self (Room.id r) slot = Ok false).
Proof.
  intros H. destruct H as [room H1 | room H1 H2 | room H1 H2 H3 | H1 H2 H3].
  - left. exists room. apply first_free_room_some in H1. destruct H1 as [Hin Hav].
    split; [apply (tiers_within self course); auto | auto].
  - left. exists room. apply first_free_room_some in H2. destruct H2 as [Hin Hav].
    split; [apply (tiers_within self course); auto | auto].
  - left. exists room. apply first_free_room_some in H3. destruct H3 as [Hin Hav].
    split; [apply (tiers_within self course); auto | auto].
  - right. split; [reflexivity|]. intros r Hr.
    destruct (tiers_cover self course r Hr) as [H | [H | H]].
    + now apply (first_free_room_none _ _ _ H1).
    + now apply (first_free_room_none _ _ _ H2).
    + now apply (first_free_room_none _ _ _ H3).
Qed.

Lemma slot_of_inputs self self' k :
  time_slots self' = time_slots self ->
  color_assignments self' = color_assignments self ->
  slot_of self' k = slot_of self k.
Proof. unfold slot_of. now intros -> ->. Qed.

Lemma allocation_slot_of self course slot self' k :
  allocation self course slot self' -> slot_of self' k = slot_of self k.
Proof.
  intros H. destruct (allocation_inputs _ _ _ _ H) as (_ & E1 & _ & E2).
  now apply slot_of_inputs.
Qed.

Lemma allocation_other_keys self course slot self' k :
  allocation self course slot self' -> k <> Course.id course ->
  dict_get (room_assignments self') k = dict_get (room_assignments self) k.
Proof.
  intros H Hne. destruct (allocation_entry _ _ _ _ H) as [(room & _ & _ & E) | [E _]];
    rewrite E; auto.
  apply dict_get_set_other. congruence.
Qed.

Lemma allocation_wf_step self course slot self' :
  slot_of self (Course.id course) = Some slot ->
  allocation self course slot self' ->
  allocation_wf self -> allocation_wf self'.
Proof.
  intros Hslot H [Hnd Hwf]. unfold allocation_wf.
  assert (Hs : forall k, slot_of self' k = slot_of self k).
  { intros k. now apply (allocation_slot_of _ _ _ _ k H). }
  destruct (allocation_entry _ _ _ _ H) as [(room & _ & _ & E) | [E _]]; rewrite E.
  - split; [now apply dict_keys_set_NoDup|].
    intros k rid. rewrite dict_get_set, Hs.
    destruct (String.eqb (Course.id course) k) eqn:Ek.
    + apply String.eqb_eq in Ek. subst k. intros _. now exists slot.
    + apply Hwf.
  - split; auto. intros k rid. rewrite Hs. apply Hwf.
Qed.

Lemma allocation_conflict_free_step self course slot self' :
  slot_of self (Course.id course) = Some slot ->
  allocation self course slot self' ->
  rooms_conflict_free self -> rooms_conflict_free self'.
Proof.
  intros Hslot H Hinv.
  assert (Hs : forall k, slot_of self' k = slot_of self k).
  { intros k. now apply (allocation_slot_of _ _ _ _ k H). }
  unfold rooms_conflict_free.
  destruct (allocation_entry _ _ _ _ H) as [(room & _ & Hav & E) | [E _]]; rewrite E.
  - apply is_room_available_free in Hav.
    intros k1 k2 rid s1 s2 Hne. rewrite !dict_get_set, !Hs.
    destruct (String.eqb (Course.id course) k1) eqn:E1;
      destruct (String.eqb (Course.id course) k2) eqn:E2.
    + apply String.eqb_eq in E1, E2. congruence.
    + apply String.eqb_eq in E1. subst k1.
      intros [= <-] Hk2 Hs1 Hs2.
      assert (s1 = slot) by congruence. subst s1.
      now apply (Hav k2 s2).
    + apply String.eqb_eq in E2. subst k2.
      intros Hk1 [= <-] Hs1 Hs2.
      assert (s2 = slot) by congruence. subst s2.
      rewrite overlap_sym. now apply (Hav k1 s1).
    + now apply Hinv.
  - intros k1 k2 rid s1 s2. rewrite !Hs. apply Hinv.
Qed.

Lemma assign_rooms_from_app_eq pre post self :
  assign_rooms_from (pre ++ post) self
  = (mid <- assign_rooms_from pre self ;; assign_rooms_from post mid).
Proof.
  revert self. induction pre as [|c pre IH]; intros self; simpl; auto.
  destruct (assign_room self c); simpl; auto.
Qed.

Lemma assign_rooms_from_app pre post self final :
  assign_rooms_from (pre ++ post) self = Ok final ->
  exists mid, assign_rooms_from pre self = Ok mid
              /\ assign_rooms_from post mid = Ok final.
Proof. rewrite assign_rooms_from_app_eq. apply bind_ok. Qed.

Lemma assign_rooms_from_inputs cs self final :
  assign_rooms_from cs self = Ok final ->
  courses final = courses self /\ time_slots final = time_slots self
  /\ rooms final = rooms self
  /\ color_assignments final = color_assignments self.
Proof.
  revert self. induction cs as [|c cs IH]; intros self H; simpl in H.
  - injection H as <-. auto.
  - bind_inv H. apply assign_room_ok in Hx. destruct Hx as (slot & _ & Ha).
    destruct (allocation_inputs _ _ _ _ Ha) as (E1 & E2 & E3 & E4).
    destruct (IH _ H) as (F1 & F2 & F3 & F4).
    repeat split; congruence.
Qed.

Lemma assign_rooms_from_slot_of cs self final k :
  assign_rooms_from cs self = Ok final -> slot_of final k = slot_of self k.
Proof.
  intros H. destruct (assign_rooms_from_inputs _ _ _ H) as (_ & E1 & _ & E2).
  now apply slot_of_inputs.
Qed.

Lemma assign_rooms_from_other_keys cs self final k :
  assign_rooms_from cs self = Ok final ->
  ~ In k (map Course.id cs) ->
  dict_get (room_assignments final) k = dict_get (room_assignments self) k.
Proof.
  revert self. induction cs as [|c cs IH]; intros self H Hk; simpl in *.
  - now injection H as <-.
  - bind_inv H. apply assign_room_ok in Hx. destruct Hx as (slot & _ & Ha).
    rewrite (IH _ H) by tauto.
    apply (allocation_other_keys _ _ _ _ k Ha). intros ->. tauto.
Qed.

Lemma assign_rooms_from_keys cs self final k :
  assign_rooms_from cs self = Ok final ->
  dict_mem (room_assignments final) k = true ->
  dict_mem (room_assignments self) k = true \/ In k (map Course.id cs).
Proof.
  intros H Hk.
  destruct (in_dec string_dec k (map Course.id cs)) as [Hin | Hnotin]; auto.
  left. unfold dict_mem in *.
  now rewrite <- (assign_rooms_from_other_keys _ _ _ k H Hnotin).
Qed.

Lemma assign_rooms_from_wf cs self final :
  assign_rooms_from cs self = Ok final ->
  allocation_wf self -> allocation_wf final.
Proof.
  revert self. induction cs as [|c cs IH]; intros self H Hwf; simpl in H.
  - now injection H as <-.
  - bind_inv H. apply assign_room_ok in Hx. destruct Hx as (slot & Hs & Ha).
    apply (IH _ H). now apply (allocation_wf_step _ _ _ _ Hs Ha).
Qed.

Lemma assign_rooms_from_conflict_free cs self final :
  assign_rooms_from cs self = Ok final ->
  rooms_conflict_free self -> rooms_conflict_free final.
Proof.
  revert self. induction cs as [|c cs IH]; intros self H Hinv; simpl in H.
  - now injection H as <-.
  - bind_inv H. apply assign_room_ok in Hx. destruct Hx as (slot & Hs & Ha).
    apply (IH _ H). now apply (allocation_conflict_free_step _ _ _ _ Hs Ha).
Qed.

Lemma empty_allocation_wf self :
  room_assignments self = [] -> allocation_wf self.
Proof.
  intros E. unfold allocation_wf. rewrite E. split; [constructor|].
  intros k rid H. discriminate H.
Qed.

Lemma empty_conflict_free self :
  room_assignments self = [] -> rooms_conflict_free self.
Proof.
  intros E. unfold rooms_conflict_free. rewrite E.
  intros k1 k2 rid s1 s2 _ H. discriminate H.
Qed.

(** C2: starting from an empty RoomAssignment, after any number of steps of
    [assign_rooms] no room holds two different courses whose slots overlap,
    where two slots overlap exactly when they are on the same day and each
    starts before the other ends. *)
Theorem assign_rooms_no_overlap self pre post mid :
  room_assignments self = [] ->
  courses self = pre ++ post ->
  assign_rooms_from pre self = Ok mid ->
  (forall k1 k2 rid s1 s2,
      k1 <> k2 ->
      dict_get (room_assignments mid) k1 = Some rid ->
      dict_get (room_assignments mid) k2 = Some rid ->
      slot_of mid k1 = Some s1 ->
      slot_of mid k2 = Some s2 ->
      _time_slots_overlap s1 s2 = false)
  /\ (forall s1 s2,
         _time_slots_overlap s1 s2 = true <->
         TimeSlot.day s1 = TimeSlot.day s2
         /\ (TimeSlot.start_time s1 < TimeSlot.end_time s2)%Z
         /\ (TimeSlot.start_time s2 < TimeSlot.end_time s1)%Z).
Proof.
  intros Hempty _ Hrun. split.
  - apply (assign_rooms_from_conflict_free _ _ _ Hrun).
    now apply empty_conflict_free.
  - apply overlap_iff.
Qed.

Lemma assign_rooms_no_overlap_witness :
  (forall k1 k2 rid s1 s2,
      k1 <> k2 ->
      dict_get (room_assignments small_allocated) k1 = Some rid ->
      dict_get (room_assignments small_allocated) k2 = Some rid ->
      slot_of small_allocated k1 = Some s1 ->
      slot_of small_allocated k2 = Some s2 ->
      _time_slots_overlap s1 s2 = false)
  /\ (forall s1 s2,
         _time_slots_overlap s1 s2 = true <->
         TimeSlot.day s1 = TimeSlot.day s2
         /\ (TimeSlot.start_time s1 < TimeSlot.end_time s2)%Z
         /\ (TimeSlot.start_time s2 < TimeSlot.end_time s1)%Z).
Proof.
  apply (assign_rooms_no_overlap small_colored small_courses []).
  - reflexivity.
  - reflexivity.
  - vm_compute. reflexivity.
Defined.

(** C10: after room allocation from an empty RoomAssignment over courses
    with unique ids, every key of RoomAssignment is a key of
    ColorAssignment, no course id has two entries, and an entry present
    after some step is still there, unchanged, at the end. *)
Theorem room_entries_colored_and_final self final :
  room_assignments self = [] ->
  NoDup (map Course.id (courses self)) ->
  assign_rooms self = Ok final ->
  (forall k, dict_mem (room_assignments final) k = true ->
             dict_mem (color_assignments final) k = true)
  /\ NoDup (dict_keys (room_assignments final))
  /\ (forall pre post mid k rid,
         courses self = pre ++ post ->
         assign_rooms_from pre self = Ok mid ->
         dict_get (room_assignments mid) k = Some rid ->
         dict_get (room_assignments final) k = Some rid).
Proof.
  intros Hempty Hnd Hrun. unfold assign_rooms in Hrun.
  pose proof (assign_rooms_from_wf _ _ _ Hrun (empty_allocation_wf _ Hempty))
    as [Hkeys Hwf].
  split; [|split; [exact Hkeys|]].
  - intros k Hk. unfold dict_mem in Hk.
    destruct (dict_get (room_assignments final) k) as [rid|] eqn:E; [|discriminate].
    destruct (Hwf k rid E) as (s & Hs). unfold slot_of in Hs. unfold dict_mem.
    destruct (dict_get (color_assignments final) k); [reflexivity | discriminate].
  - intros pre post mid k rid Hsplit Hpre Hk.
    rewrite Hsplit in Hrun, Hnd.
    rewrite assign_rooms_from_app_eq, Hpre in Hrun. simpl in Hrun.
    rewrite (assign_rooms_from_other_keys _ _ _ k Hrun); auto.
    intros Hpost.
    assert (Hmem : dict_mem (room_assignments mid) k = true).
    { unfold dict_mem. now rewrite Hk. }
    destruct (assign_rooms_from_keys _ _ _ k Hpre Hmem) as [H | H].
    + rewrite Hempty in H. discriminate H.
    + rewrite map_app in Hnd. exact (NoDup_app_disjoint _ _ _ Hnd H Hpost).
Qed.

Lemma room_entries_colored_and_final_witness :
  let final := assign (assign (assign (assign small_colored
                 (session "CS101" "Smith" "A" "FCSE") (lecture_hall "FCSE-LH1" "FCSE"))
                 (session "CS102" "Smith" "B" "FCSE") (lecture_hall "FCSE-LH1" "FCSE"))
                 (session "EE201" "Johnson" "A" "FEE") (lecture_hall "FEE-LH4" "FEE"))
                 (session "EE202" "Johnson" "B" "FEE") (lecture_hall "FEE-LH4" "FEE") in
  (forall k, dict_mem (room_assignments final) k = true ->
             dict_mem (color_assignments final) k = true)
  /\ NoDup (dict_keys (room_assignments final))
  /\ (forall pre post mid k rid,
         courses small_colored = pre ++ post ->
         assign_rooms_from pre small_colored = Ok mid ->
         dict_get (room_assignments mid) k = Some rid ->
         dict_get (room_assignments final) k = Some rid).
Proof.
  apply (room_entries_colored_and_final small_colored).
  - reflexivity.
  - apply all_distinct_NoDup. reflexivity.
  - vm_compute. reflexivity.
Defined.

(** C6: when the allocator reaches a course and some room of the course's
    own department has no overlapping occupant at the course's slot, the
    step assigns the course a room of that department. *)
Theorem home_room_preferred self pre course post before slot :
  room_assignments self = [] ->
  courses self = pre ++ course :: post ->
  assign_rooms_from pre self = Ok before ->
  slot_of self (Course.id course) = Some slot ->
  (exists r, In r (rooms self)
             /\ Room.department r = Course.department course
             /\ room_free before (Room.id r) slot) ->
  exists after room,
    assign_room before course = Ok after
    /\ In room (rooms self)
    /\ Room.department room = Course.department course
    /\ dict_get (room_assignments after) (Course.id course) = Some (Room.id room).
Proof.
  intros Hempty _ Hpre Hslot (r & Hr & Hdept & Hfree).
  pose proof (assign_rooms_from_wf _ _ _ Hpre (empty_allocation_wf _ Hempty)) as Hwf.
  destruct (assign_rooms_from_inputs _ _ _ Hpre) as (_ & Ets & Ers & Ecol).
  rewrite <- (assign_rooms_from_slot_of _ _ _ (Course.id course) Hpre) in Hslot.
  apply slot_lookup in Hslot. destruct Hslot as (idx & Hidx & Hts).
  assert (Hcand : In r (department_rooms before course)).
  { unfold department_rooms. rewrite Ers. apply filter_In. split; auto.
    rewrite Hdept. apply String.eqb_refl. }
  destruct (first_free_room_total before slot (department_rooms before course) Hwf)
    as ([room|] & Hscan).
  - exists (assign before course room), room.
    unfold assign_room. rewrite Hidx. simpl. rewrite Hts. simpl.
    rewrite Hscan. simpl. split; [reflexivity|].
    apply first_free_room_some in Hscan. destruct Hscan as [Hin _].
    unfold department_rooms in Hin. apply filter_In in Hin.
    destruct Hin as [Hin Hd]. apply String.eqb_eq in Hd.
    rewrite Ers in Hin. repeat split; auto.
    apply dict_get_set_same.
  - exfalso.
    pose proof (first_free_room_none _ _ _ Hscan r Hcand) as Hno.
    rewrite (free_is_room_available _ _ _ Hwf Hfree) in Hno. discriminate Hno.
Qed.

Lemma home_room_preferred_witness :
  exists after room,
    assign_room (assign small_colored (session "CS101" "Smith" "A" "FCSE")
                        (lecture_hall "FCSE-LH1" "FCSE"))
                (session "CS102" "Smith" "B" "FCSE") = Ok after
    /\ In room (rooms small_colored)
    /\ Room.department room = "FCSE"
    /\ dict_get (room_assignments after) "CS102" = Some (Room.id room).
Proof.
  apply (home_room_preferred small_colored
           [session "CS101" "Smith" "A" "FCSE"]
           (session "CS102" "Smith" "B" "FCSE")
           [session "EE201" "Johnson" "A" "FEE";
            session "EE202" "Johnson" "B" "FEE"]
           (assign small_colored (session "CS101" "Smith" "A" "FCSE")
                   (lecture_hall "FCSE-LH1" "FCSE"))
           (hour_slot "Monday" 9)).
  - reflexivity.
  - reflexivity.
  - vm_compute. reflexivity.
  - vm_compute. reflexivity.
  - exists (lecture_hall "FCSE-LH1" "FCSE"). split; [simpl; auto|].
    split; [reflexivity|].
    apply is_room_available_free. vm_compute. reflexivity.
Defined.

(** C7: after room allocation from an empty RoomAssignment over courses
    with unique ids, a course has no entry exactly when, at the step that
    handled it, every room of the catalog had an overlapping occupant at the
    course's slot; said by tier: every room of the course's department,
    every room whose department is NAB, and every room that is neither. *)
Theorem unassigned_iff_all_occupied self pre course post final :
  room_assignments self = [] ->
  NoDup (map Course.id (courses self)) ->
  courses self = pre ++ course :: post ->
  assign_rooms self = Ok final ->
  exists before slot,
    assign_rooms_from pre self = Ok before
    /\ slot_of self (Course.id course) = Some slot
    /\ (dict_get (room_assignments final) (Course.id course) = None <->
        forall r, In r (rooms self) -> room_occupied before (Room.id r) slot)
    /\ (dict_get (room_assignments final) (Course.id course) = None <->
        (forall r, In r (rooms self) ->
                   Room.department r = Course.department course ->
                   room_occupied before (Room.id r) slot)
        /\ (forall r, In r (rooms self) ->
                      upper (Room.department r) = "NAB" ->
                      room_occupied before (Room.id r) slot)
        /\ (forall r, In r (rooms self) ->
                      Room.department r <> Course.department course ->
                      upper (Room.department r) <> "NAB" ->
                      room_occupied before (Room.id r) slot)).
Proof.
  intros Hempty Hnd Hsplit Hrun. unfold assign_rooms in Hrun.
  rewrite Hsplit in Hrun, Hnd.
  apply assign_rooms_from_app in Hrun. destruct Hrun as (before & Hpre & Hrest).
  simpl in Hrest. bind_inv Hrest. rename x into after.
  apply assign_room_ok in Hx. destruct Hx as (slot & Hslot & Halloc).
  exists before, slot. split; [exact Hpre|].
  rewrite (assign_rooms_from_slot_of _ _ _ (Course.id course) Hpre) in Hslot.
  split; [exact Hslot|].
  pose proof (assign_rooms_from_wf _ _ _ Hpre (empty_allocation_wf _ Hempty)) as Hwf.
  destruct (assign_rooms_from_inputs _ _ _ Hpre) as (_ & _ & Ers & _).
  rewrite map_app in Hnd. simpl in Hnd.
  pose proof (NoDup_remove_2 _ _ _ Hnd) as Hfresh.
  rewrite in_app_iff in Hfresh.
  rewrite (assign_rooms_from_other_keys _ _ _ (Course.id course) Hrest) by tauto.
  assert (Hnew : dict_get (room_assignments before) (Course.id course) = None).
  { destruct (dict_get (room_assignments before) (Course.id course)) eqn:E; auto.
    exfalso.
    assert (Hmem : dict_mem (room_assignments before) (Course.id course) = true).
    { unfold dict_mem. now rewrite E. }
    destruct (assign_rooms_from_keys _ _ _ _ Hpre Hmem) as [H | H].
    - rewrite Hempty in H. discriminate H.
    - tauto. }
  assert (Hall : dict_get (room_assignments after) (Course.id course) = None <->
                 forall r, In r (rooms self) ->
                           room_occupied before (Room.id r) slot).
  { destruct (allocation_entry _ _ _ _ Halloc)
      as [(room & Hroom & Hav & E) | [E Hocc]]; rewrite E.
    - rewrite dict_get_set_same. split; [discriminate|].
      intros Hocc. exfalso.
      apply is_room_available_free in Hav.
      apply (free_not_occupied _ _ _ Hav). apply Hocc. now rewrite <- Ers.
    - split; [|intros _; exact Hnew].
      intros _ r Hr. apply is_room_available_occupied; auto.
      apply Hocc. now rewrite Ers. }
  split; [exact Hall|].
  rewrite Hall. split.
  - intros H. repeat split; intros r Hr; intros; now apply H.
  - intros (Hhome & Hnab & Hother) r Hr.
    destruct (string_dec (Room.department r) (Course.department course)) as [E1 | N1];
      [now apply Hhome|].
    destruct (string_dec (upper (Room.department r)) "NAB") as [E2 | N2];
      [now apply Hnab | now apply Hother].
Qed.

Lemma unassigned_iff_all_occupied_witness :
  exists before slot,
    assign_rooms_from
      [session "CS101" "Smith" "A" "FCSE"; session "CS102" "Jones" "B" "FCSE";
       session "CS103" "Brown" "C" "FCSE"] packed_colored
    = Ok before
    /\ slot_of packed_colored "CS104" = Some slot
    /\ (dict_get (room_assignments packed_allocated) "CS104" = None <->
        forall r, In r (rooms packed_colored) ->
                  room_occupied before (Room.id r) slot)
    /\ (dict_get (room_assignments packed_allocated) "CS104" = None <->
        (forall r, In r (rooms packed_colored) ->
                   Room.department r = "FCSE" ->
                   room_occupied before (Room.id r) slot)
        /\ (forall r, In r (rooms packed_colored) ->
                      upper (Room.department r) = "NAB" ->
                      room_occupied before (Room.id r) slot)
        /\ (forall r, In r (rooms packed_colored) ->
                      Room.department r <> "FCSE" ->
                      upper (Room.department r) <> "NAB" ->
                      room_occupied before (Room.id r) slot)).
Proof.
  apply (unassigned_iff_all_occupied packed_colored
           [session "CS101" "Smith" "A" "FCSE"; session "CS102" "Jones" "B" "FCSE";
            session "CS103" "Brown" "C" "FCSE"]
           (session "CS104" "Wilson" "D" "FCSE") [] packed_allocated).
  - reflexivity.
  - apply all_distinct_NoDup. reflexivity.
  - reflexivity.
  - vm_compute. reflexivity.
Defined.

(** ** Stage 4: schedule compilation *)

Lemma room_of_ok rs assignments cid r :
  room_of rs assignments cid = Ok r ->
  In r rs /\ dict_get assignments cid = Some (Room.id r).
Proof.
  induction rs as [|r0 rs IH]; simpl; [discriminate|].
  intros H. bind_inv H. unfold dict_lookup in Hx.
  destruct (dict_get assignments cid) as [rid|] eqn:E; [|discriminate].
  injection Hx as ->.
  destruct (String.eqb (Room.id r0) x) eqn:Er.
  - injection H as <-. apply String.eqb_eq in Er. rewrite Er. auto.
  - destruct (IH H). auto.
Qed.

Lemma collect_ok self course self' :
  collect self course = Ok self' ->
  courses self' = courses self /\ time_slots self' = time_slots self
  /\ rooms self' = rooms self
  /\ color_assignments self' = color_assignments self
  /\ room_assignments self' = room_assignments self
  /\ ((dict_mem (room_assignments self) (Course.id course) = false
       /\ teacher_schedules self' = teacher_schedules self
       /\ student_schedules self' = student_schedules self)
      \/ (dict_mem (room_assignments self) (Course.id course) = true
          /\ exists e,
               entry_course e = course
               /\ entry_consistent self e
               /\ teacher_schedules self'
                  = schedule_append (teacher_schedules self)
                                    (Course.teacher course) e
               /\ student_schedules self'
                  = schedule_append (student_schedules self)
                                    (Course.student_group course) e)).
Proof.
  unfold collect.
  destruct (dict_mem (room_assignments self) (Course.id course)) eqn:Em; simpl.
  - intros H. bind_inv H. bind_inv H. bind_inv H. injection H as <-. simpl.
    repeat split; auto. right. split; auto.
    exists (course, x0, x1). split; [reflexivity|].
    apply room_of_ok in Hx1. destruct Hx1 as [Hin Hrid].
    repeat split; auto.
    unfold entry_consistent. simpl. eapply lookup_slot; eauto.
  - intros [= <-]. simpl. repeat split; auto.
Qed.

Lemma collect_from_spec cs self self' :
  collect_from cs self = Ok self' ->
  (courses self' = courses self /\ time_slots self' = time_slots self
   /\ rooms self' = rooms self
   /\ color_assignments self' = color_assignments self
   /\ room_assignments self' = room_assignments self)
  /\ exists es,
       map entry_course es
       = filter (fun c => dict_mem (room_assignments self) (Course.id c)) cs
       /\ Forall (entry_consistent self) es
       /\ teacher_schedules self'
          = file_all Course.teacher es (teacher_schedules self)
       /\ student_schedules self'
          = file_all Course.student_group es (student_schedules self).
Proof.
  revert self. induction cs as [|c cs IH]; intros self H; simpl in H.
  - injection H as <-. split; [tauto|]. exists []. simpl. auto.
  - bind_inv H. rename x into mid.
    apply collect_ok in Hx.
    destruct Hx as (E1 & E2 & E3 & E4 & E5 & Hcase).
    destruct (IH _ H) as ((F1 & F2 & F3 & F4 & F5) & es & Hmap & Hall & Hts & Hss).
    split; [repeat split; congruence|].
    assert (Hcons : forall e, entry_consistent mid e -> entry_consistent self e).
    { intros e. unfold entry_consistent, slot_of. now rewrite E2, E3, E4, E5. }
    rewrite E5 in Hmap.
    destruct Hcase as [(Hm & Ht & Hs) | (Hm & e & He & Hce & Ht & Hs)].
    + exists es. simpl. rewrite Hm. rewrite Ht in Hts. rewrite Hs in Hss.
      repeat split; auto.
      eapply Forall_impl; [|exact Hall]. exact Hcons.
    + exists (e :: es). simpl. rewrite Hm, He, Hmap.
      rewrite Ht in Hts. rewrite Hs in Hss. subst c.
      repeat split; auto.
      constructor; auto. eapply Forall_impl; [|exact Hall]. exact Hcons.
Qed.

Lemma schedule_append_get schedules k' e k :
  dict_get (schedule_append schedules k' e) k =
  if String.eqb k' k
  then Some (match dict_get schedules k with Some l => l | None => [] end ++ [e])
  else dict_get schedules k.
Proof.
  unfold schedule_append.
  destruct (String.eqb k' k) eqn:E.
  - apply String.eqb_eq in E. subst k'.
    destruct (dict_get schedules k); now rewrite dict_get_set_same.
  - apply String.eqb_neq in E.
    destruct (dict_get schedules k'); now rewrite dict_get_set_other.
Qed.

Lemma file_all_get sel es schedules k :
  dict_get (file_all sel es schedules) k =
  match filter (fun e => String.eqb (sel (entry_course e)) k) es with
  | [] => dict_get schedules k
  | new => Some (match dict_get schedules k with Some l => l | None => [] end
                   ++ new)
  end.
Proof.
  unfold file_all. revert schedules.
  induction es as [|e es IH]; intros schedules; simpl; auto.
  rewrite IH, schedule_append_get.
  destruct (String.eqb (sel (entry_course e)) k).
  - destruct (filter _ es); auto. now rewrite <- app_assoc.
  - reflexivity.
Qed.

Lemma sort_schedules_get schedules k :
  dict_get (sort_schedules schedules) k
  = option_map (sorted entry_start false) (dict_get schedules k).
Proof.
  induction schedules as [|[k' l] schedules IH]; simpl; auto.
  destruct (String.eqb k' k); auto.
Qed.

Lemma map_filter_rel {A B : Type} (f : A -> B) (p : A -> bool) (q : B -> bool) l :
  (forall x, In x l -> p x = q (f x)) ->
  map f (filter p l) = filter q (map f l).
Proof.
  induction l as [|x l IH]; simpl; intros H; auto.
  rewrite <- (H x) by now left.
  destruct (p x); simpl; rewrite IH; auto.
Qed.

Lemma filter_twice {A : Type} (p q : A -> bool) l :
  filter p (filter q l) = filter (fun x => q x && p x) l.
Proof.
  induction l as [|x l IH]; simpl; auto.
  destruct (q x); simpl; [destruct (p x)|]; now rewrite IH.
Qed.

Lemma consistent_start self e s :
  entry_consistent self e ->
  (entry_start e =? s)%Z = starts_at self s (entry_course e).
Proof.
  intros (Hs & _). unfold starts_at, start_of. now rewrite Hs.
Qed.

(** The list filed under [k], once sorted. *)
Lemma schedule_shape self sel es k l :
  map entry_course es
  = filter (fun c => dict_mem (room_assignments self) (Course.id c)) (courses self) ->
  Forall (entry_consistent self) es ->
  dict_get (sort_schedules (file_all sel es [])) k = Some l ->
  StronglySorted (fun e1 e2 => (entry_start e1 <= entry_start e2)%Z) l
  /\ (forall s,
        map entry_course (filter (fun e => (entry_start e =? s)%Z) l)
        = scheduled_at self sel k s)
  /\ Forall (entry_consistent self) l.
Proof.
  intros Hmap Hall Hget.
  rewrite sort_schedules_get, file_all_get in Hget. simpl in Hget.
  set (mine := filter (fun e => String.eqb (sel (entry_course e)) k) es) in *.
  assert (Hl : l = sorted entry_start false mine).
  { destruct mine; simpl in Hget; [discriminate | now injection Hget as <-]. }
  clear Hget. subst l. split; [|split].
  - eapply StronglySorted_weaken; [|apply sorted_sorted].
    simpl. intros a b. unfold goes_before. rewrite Z.ltb_ge. lia.
  - intros s. rewrite sorted_stable. unfold mine, scheduled_at.
    rewrite filter_twice.
    rewrite (map_filter_rel entry_course _
               (fun c => String.eqb (sel c) k && starts_at self s c)).
    + rewrite Hmap, filter_twice. apply filter_ext. intros c.
      destruct (String.eqb (sel c) k), (dict_mem (room_assignments self) (Course.id c));
        reflexivity.
    + intros e He. rewrite Forall_forall in Hall.
      now rewrite (consistent_start self e s (Hall e He)).
  - rewrite Forall_forall in *. intros e He.
    apply (Permutation_in _ (sorted_perm _ _ _ _)) in He.
    unfold mine in He. apply filter_In in He. apply Hall. tauto.
Qed.

(** C9, as the code has it: after schedule compilation from empty schedules,
    each per-teacher and per-group sequence is in ascending order of the
    slots' [start_time] values alone, entries of equal [start_time] stay in
    course-registration order, every entry agrees with the two assignment
    maps, and a course without a room entry is in no sequence. *)
Theorem schedules_sorted_by_start_time self self' :
  teacher_schedules self = [] ->
  student_schedules self = [] ->
  optimize_schedules self = Ok self' ->
  (forall k l,
      dict_get (teacher_schedules self') k = Some l ->
      StronglySorted (fun e1 e2 => (entry_start e1 <= entry_start e2)%Z) l
      /\ (forall s,
            map entry_course (filter (fun e => (entry_start e =? s)%Z) l)
            = scheduled_at self Course.teacher k s)
      /\ Forall (entry_consistent self) l)
  /\ (forall k l,
        dict_get (student_schedules self') k = Some l ->
        StronglySorted (fun e1 e2 => (entry_start e1 <= entry_start e2)%Z) l
        /\ (forall s,
              map entry_course (filter (fun e => (entry_start e =? s)%Z) l)
              = scheduled_at self Course.student_group k s)
        /\ Forall (entry_consistent self) l)
  /\ (forall k l e,
        dict_get (teacher_schedules self') k = Some l
        \/ dict_get (student_schedules self') k = Some l ->
        In e l ->
        dict_mem (room_assignments self) (Course.id (entry_course e)) = true).
Proof.
  intros Ht Hs Hrun. unfold optimize_schedules in Hrun.
  bind_inv Hrun. rename x into mid. injection Hrun as <-. simpl.
  apply collect_from_spec in Hx.
  destruct Hx as (_ & es & Hmap & Hall & Hts & Hss).
  rewrite Ht in Hts. rewrite Hs in Hss. rewrite Hts, Hss.
  assert (HT : forall k l,
             dict_get (sort_schedules (file_all Course.teacher es [])) k = Some l ->
             StronglySorted (fun e1 e2 => (entry_start e1 <= entry_start e2)%Z) l
             /\ (forall s,
                   map entry_course (filter (fun e => (entry_start e =? s)%Z) l)
                   = scheduled_at self Course.teacher k s)
             /\ Forall (entry_consistent self) l).
  { intros k l. now apply schedule_shape. }
  assert (HS : forall k l,
             dict_get (sort_schedules (file_all Course.student_group es [])) k = Some l ->
             StronglySorted (fun e1 e2 => (entry_start e1 <= entry_start e2)%Z) l
             /\ (forall s,
                   map entry_course (filter (fun e => (entry_start e =? s)%Z) l)
                   = scheduled_at self Course.student_group k s)
             /\ Forall (entry_consistent self) l).
  { intros k l. now apply schedule_shape. }
  split; [exact HT|]. split; [exact HS|].
  intros k l e Hget He.
  assert (Hc : entry_consistent self e).
  { destruct Hget as [Hget | Hget].
    - destruct (HT k l Hget) as (_ & _ & Hcons).
      rewrite Forall_forall in Hcons. auto.
    - destruct (HS k l Hget) as (_ & _ & Hcons).
      rewrite Forall_forall in Hcons. auto. }
  destruct Hc as (_ & _ & Hroom). unfold dict_mem. now rewrite Hroom.
Qed.

Lemma schedules_sorted_by_start_time_witness :
  (forall k l,
      dict_get (teacher_schedules small_compiled) k = Some l ->
      StronglySorted (fun e1 e2 => (entry_start e1 <= entry_start e2)%Z) l
      /\ (forall s,
            map entry_course (filter (fun e => (entry_start e =? s)%Z) l)
            = scheduled_at small_allocated Course.teacher k s)
      /\ Forall (entry_consistent small_allocated) l)
  /\ (forall k l,
        dict_get (student_schedules small_compiled) k = Some l ->
        StronglySorted (fun e1 e2 => (entry_start e1 <= entry_start e2)%Z) l
        /\ (forall s,
              map entry_course (filter (fun e => (entry_start e =? s)%Z) l)
              = scheduled_at small_allocated Course.student_group k s)
        /\ Forall (entry_consistent small_allocated) l)
  /\ (forall k l e,
        dict_get (teacher_schedules small_compiled) k = Some l
        \/ dict_get (student_schedules small_compiled) k = Some l ->
        In e l ->
        dict_mem (room_assignments small_allocated) (Course.id (entry_course e)) = true).
Proof.
  apply (schedules_sorted_by_start_time small_allocated small_compiled).
  - reflexivity.
  - reflexivity.
  - vm_compute. reflexivity.
Defined.

(** C9 does not hold of the code.  With slots Monday 09:00 and Tuesday
    08:00 one teacher's sequence lists the Tuesday session first; with two
    Monday 08:00 slots it lists CS102 before CS101. *)
Lemma schedules_not_chronological :
  (exists self' text l,
      generate_timetable late_monday = Ok (self', text)
      /\ dict_get (teacher_schedules self') "Smith" = Some l
      /\ map (fun e => TimeSlot.day (entry_slot e)) l = ["Tuesday"; "Monday"]
      /\ ~ chronologically_sorted l)
  /\ (exists self' text l,
        generate_timetable same_start = Ok (self', text)
        /\ dict_get (teacher_schedules self') "Smith" = Some l
        /\ map (fun e => (TimeSlot.day (entry_slot e), entry_start e,
                          Course.id (entry_course e))) l
           = [("Monday", clock 8 0, "CS102"); ("Monday", clock 8 0, "CS101")]
        /\ ~ chronologically_sorted l).
Proof.
  split.
  - eexists. eexists. eexists.
    split; [vm_compute; reflexivity|].
    split; [vm_compute; reflexivity|].
    split; [vm_compute; reflexivity|].
    intros H. inversion H as [|e1 l1 _ Hall]; subst.
    inversion Hall as [|e2 l2 Hc _]; subst.
    vm_compute in Hc. discriminate Hc.
  - eexists. eexists. eexists.
    split; [vm_compute; reflexivity|].
    split; [vm_compute; reflexivity|].
    split; [vm_compute; reflexivity|].
    intros H. inversion H as [|e1 l1 _ Hall]; subst.
    inversion Hall as [|e2 l2 Hc _]; subst.
    vm_compute in Hc. discriminate Hc.
Qed.

(** C4 against the code.  Two unrelated courses of one department, one slot
    and one room: allocation leaves CS102 without an entry and schedule
    compilation skips it, but the report subscripts RoomAssignment with its
    id and the run ends in KeyError. *)
Theorem report_raises_on_unassigned_course :
  (exists allocated compiled,
      assign_rooms crowded_colored = Ok allocated
      /\ dict_get (room_assignments allocated) "CS102" = None
      /\ optimize_schedules allocated = Ok compiled
      /\ _format_timetable compiled = Raise (KeyError "CS102"))
  /\ welsh_powell_coloring (build_conflict_graph crowded)
     = Ok (color_assignments crowded_colored)
  /\ generate_timetable crowded = Raise (KeyError "CS102").
Proof.
  split.
  - eexists. eexists.
    split; [vm_compute; reflexivity|].
    split; [vm_compute; reflexivity|].
    split; [vm_compute; reflexivity|].
    vm_compute. reflexivity.
  - split; vm_compute; reflexivity.
Qed.

(** ** The run as a whole *)

(** The report can only be produced when every course has a room entry. *)
Lemma course_lines_need_rooms self cs lines :
  course_lines self cs = Ok lines ->
  forall c, In c cs -> dict_mem (room_assignments self) (Course.id c) = true.
Proof.
  revert lines. induction cs as [|c0 cs IH]; simpl; intros lines H c Hin; [tauto|].
  bind_inv H. bind_inv H. bind_inv H. bind_inv H.
  destruct Hin as [<- | Hin].
  - apply room_of_ok in Hx1. destruct Hx1 as [_ Hget].
    unfold dict_mem. now rewrite Hget.
  - now apply (IH x2).
Qed.

Lemma format_needs_rooms self text :
  _format_timetable self = Ok text ->
  forall c, In c (courses self) ->
            dict_mem (room_assignments self) (Course.id c) = true.
Proof.
  unfold _format_timetable. intros H. bind_inv H.
  now apply (course_lines_need_rooms _ _ _ Hx).
Qed.

Lemma assign_room_total self course slot :
  allocation_wf self ->
  slot_of self (Course.id course) = Some slot ->
  exists self', assign_room self course = Ok self'.
Proof.
  intros Hwf Hslot. apply slot_lookup in Hslot.
  destruct Hslot as (idx & Hidx & Hts).
  unfold assign_room. rewrite Hidx. simpl. rewrite Hts. simpl.
  destruct (first_free_room_total self slot (department_rooms self course) Hwf)
    as ([r|] & ->); simpl; eauto.
  destruct (first_free_room_total self slot (nab_rooms self) Hwf)
    as ([r|] & ->); simpl; eauto.
  destruct (first_free_room_total self slot (other_rooms self course) Hwf)
    as ([r|] & ->); simpl; eauto.
Qed.

Lemma assign_rooms_from_total cs self :
  allocation_wf self ->
  (forall c, In c cs -> exists slot, slot_of self (Course.id c) = Some slot) ->
  exists final, assign_rooms_from cs self = Ok final.
Proof.
  revert self. induction cs as [|c cs IH]; intros self Hwf Hall; simpl.
  - eauto.
  - destruct (Hall c (or_introl eq_refl)) as (slot & Hslot).
    destruct (assign_room_total self c slot Hwf Hslot) as (mid & Hmid).
    rewrite Hmid. simpl.
    pose proof (assign_room_ok _ _ _ Hmid) as (slot' & Hslot' & Halloc).
    apply IH.
    + now apply (allocation_wf_step _ _ _ _ Hslot' Halloc).
    + intros c' Hc'. rewrite (allocation_slot_of _ _ _ _ _ Halloc).
      apply Hall. now right.
Qed.

(** Once coloring has returned, every course has a slot and room allocation
    runs to its end. *)
Lemma allocation_completes cs ts rs colors :
  welsh_powell_coloring (build_conflict_graph (load cs ts rs)) = Ok colors ->
  let colored := set_color_assignments (build_conflict_graph (load cs ts rs)) colors in
  (forall c, In c cs -> exists slot, slot_of colored (Course.id c) = Some slot)
  /\ exists allocated, assign_rooms colored = Ok allocated.
Proof.
  intros Hrun colored.
  destruct (load_fields cs ts rs) as (Ecs & Ets & _ & _ & _ & Era & _).
  assert (Hslots : forall c, In c cs ->
                   exists slot, slot_of colored (Course.id c) = Some slot).
  { intros c Hc. unfold welsh_powell_coloring in Hrun.
    rewrite graph_build in Hrun.
    assert (Hv : In (Course.id c) (vertices_by_degree (conflict_graph cs))).
    { apply (Permutation_in _ (Permutation_sym (vertices_by_degree_perm _))).
      apply conflict_graph_nodes. now apply in_map. }
    apply in_split in Hv. destruct Hv as (pre & post & Hsplit).
    destruct (color_vertices_greedy _ _ _ _
                (vertices_by_degree_NoDup _ (conflict_graph_NoDup cs))
                Hrun pre _ post Hsplit) as (i & Hi & Hlt & _).
    unfold slot_of, colored. simpl. rewrite Hi.
    simpl in Hlt. rewrite Ets in *.
    destruct (nth_error ts i) eqn:E; eauto.
    apply nth_error_None in E. lia. }
  split; [exact Hslots|].
  unfold assign_rooms. apply assign_rooms_from_total.
  - apply empty_allocation_wf. unfold colored. simpl. exact Era.
  - unfold colored at 1. simpl. rewrite Ecs. exact Hslots.
Qed.

(** [generate_timetable] returns only when every course has a room entry:
    one course left out by the allocator makes the whole run raise. *)
Lemma run_needs_every_room cs ts rs final text :
  generate_timetable (load cs ts rs) = Ok (final, text) ->
  forall c, In c cs -> dict_mem (room_assignments final) (Course.id c) = true.
Proof.
  unfold generate_timetable. intros H.
  bind_inv H. rename x into colors.
  bind_inv H. rename x into allocated.
  bind_inv H. rename x into compiled.
  bind_inv H. injection H as <- <-.
  destruct (load_fields cs ts rs) as (Ecs & _).
  unfold assign_rooms in Hx0.
  destruct (assign_rooms_from_inputs _ _ _ Hx0) as (Ea & _).
  simpl in Ea. rewrite Ecs in Ea.
  unfold optimize_schedules in Hx1. bind_inv Hx1. injection Hx1 as <-.
  apply collect_from_spec in Hx3. destruct Hx3 as ((Ec & _ & _ & _ & Er) & _).
  intros c Hc.
  assert (Hfmt := format_needs_rooms _ _ Hx2 c). simpl in Hfmt.
  apply Hfmt. rewrite Ec, Ea. exact Hc.
Qed.

(* ================================================================== *)
(** * Further properties of the stages *)

(** ** Coloring: coverage, bounds, termination *)

Lemma used_colors_length colors nbrs :
  List.length (used_colors colors nbrs) <= List.length nbrs.
Proof.
  induction nbrs as [|n nbrs IH]; simpl; auto.
  rewrite length_app. destruct (dict_get colors n); simpl; lia.
Qed.

Lemma degree_nbrs g v nbrs :
  dict_get g v = Some nbrs -> List.length nbrs <= degree g v.
Proof. intros H. unfold degree. rewrite H. lia. Qed.

Lemma prefix_in_used_length c used :
  (forall c', c' < c -> In c' used) -> c <= List.length used.
Proof.
  intros H. rewrite <- (length_seq c 0) at 1.
  apply NoDup_incl_length; [apply seq_NoDup|].
  intros x Hx. apply in_seq in Hx. apply H. lia.
Qed.

Lemma first_available_total n used :
  List.length used < n ->
  exists c, first_available (available_colors n) used = Ok c.
Proof.
  intros Hlen. unfold first_available, available_colors.
  destruct (find _ (seq 0 n)) as [c|] eqn:E; [eauto|].
  exfalso.
  assert (H : n <= List.length used).
  { apply prefix_in_used_length. intros c' Hc'.
    apply color_in_iff.
    assert (Hn : negb (color_in c' used) = false).
    { apply (find_none _ _ E). apply in_seq. lia. }
    destruct (color_in c' used); [reflexivity | discriminate Hn]. }
  lia.
Qed.

Lemma color_vertices_total g n vs colors :
  (forall v, In v vs -> In v (nodes g) /\ degree g v < n) ->
  exists final, color_vertices g (available_colors n) vs colors = Ok final.
Proof.
  revert colors. induction vs as [|v vs IH]; intros colors Hall; simpl.
  - eauto.
  - destruct (Hall v (or_introl eq_refl)) as [Hnode Hdeg].
    apply dict_mem_keys in Hnode. unfold dict_mem in Hnode.
    unfold color_vertex, neighbors.
    destruct (dict_get g v) as [nbrs|] eqn:Hg; [|discriminate]. simpl.
    destruct (first_available_total n (used_colors colors nbrs)) as (c & ->).
    + pose proof (used_colors_length colors nbrs).
      pose proof (degree_nbrs _ _ _ Hg). lia.
    + simpl. apply IH. intros v' Hv'. apply Hall. now right.
Qed.

Lemma color_vertices_bounds g n vs colors final :
  (forall v c, dict_get colors v = Some c -> c < n /\ c <= degree g v) ->
  color_vertices g (available_colors n) vs colors = Ok final ->
  forall v c, dict_get final v = Some c -> c < n /\ c <= degree g v.
Proof.
  revert colors. induction vs as [|v0 vs IH]; intros colors Hinv H; simpl in H.
  - now injection H as <-.
  - bind_inv H. apply (IH x); [clear IH H | exact H].
    apply color_vertex_ok in Hx. destruct Hx as (nbrs & c & Hg & Hc & ->).
    apply first_available_least in Hc. destruct Hc as (Hlt & _ & Hleast).
    intros v c'. rewrite dict_get_set.
    destruct (String.eqb v0 v) eqn:E; [|apply Hinv].
    apply String.eqb_eq in E. subst v. intros [= <-]. split; [exact Hlt|].
    pose proof (prefix_in_used_length _ _ Hleast).
    pose proof (used_colors_length colors nbrs).
    pose proof (degree_nbrs _ _ _ Hg). lia.
Qed.

Lemma no_colors_bounds g n :
  forall v c, dict_get ([] : dict nat) v = Some c -> c < n /\ c <= degree g v.
Proof. intros v c H. discriminate H. Qed.

Lemma color_vertices_keys_NoDup g palette vs colors final :
  NoDup (dict_keys colors) ->
  color_vertices g palette vs colors = Ok final ->
  NoDup (dict_keys final).
Proof.
  revert colors. induction vs as [|v vs IH]; intros colors Hnd H; simpl in H.
  - now injection H as <-.
  - bind_inv H. apply (IH x); [|exact H].
    apply color_vertex_ok in Hx. destruct Hx as (nbrs & c & _ & _ & ->).
    now apply dict_keys_set_NoDup.
Qed.

Lemma color_vertices_covers g palette vs colors final v :
  color_vertices g palette vs colors = Ok final ->
  In v vs -> dict_mem final v = true.
Proof.
  revert colors. induction vs as [|v0 vs IH]; intros colors H Hin; simpl in *;
    [tauto|].
  bind_inv H.
  destruct (in_dec string_dec v vs) as [Hvs | Hvs]; [now apply (IH x)|].
  destruct Hin as [-> | Hin]; [|contradiction].
  unfold dict_mem. rewrite (color_vertices_frame _ _ _ _ _ _ H Hvs).
  apply color_vertex_ok in Hx. destruct Hx as (nbrs & c & _ & _ & ->).
  now rewrite dict_get_set_same.
Qed.

(** X1: when the coloring of a loaded generator returns, every registered
    course id has an index, every key is a registered course id, every index
    is below the number of time slots, and no id is listed twice. *)
Theorem coloring_covers_courses_within_palette cs ts rs colors :
  welsh_powell_coloring (build_conflict_graph (load cs ts rs)) = Ok colors ->
  (forall c, In c cs -> exists i, dict_get colors (Course.id c) = Some i)
  /\ (forall k i, dict_get colors k = Some i ->
                  In k (map Course.id cs) /\ i < List.length ts)
  /\ NoDup (dict_keys colors).
Proof.
  unfold welsh_powell_coloring. rewrite graph_build. simpl.
  destruct (load_fields cs ts rs) as (_ & -> & _).
  intros Hrun.
  assert (Hvs : forall k, In k (vertices_by_degree (conflict_graph cs)) <->
                          In k (map Course.id cs)).
  { intros k. rewrite <- conflict_graph_nodes. split.
    - apply Permutation_in, vertices_by_degree_perm.
    - apply Permutation_in, Permutation_sym, vertices_by_degree_perm. }
  split; [|split].
  - intros c Hc.
    assert (Hm : dict_mem colors (Course.id c) = true).
    { apply (color_vertices_covers _ _ _ _ _ _ Hrun). apply Hvs. now apply in_map. }
    unfold dict_mem in Hm. destruct (dict_get colors (Course.id c)); eauto.
    discriminate.
  - intros k i Hk. split.
    + apply Hvs.
      assert (Hm : dict_mem colors k = true) by (unfold dict_mem; now rewrite Hk).
      destruct (color_vertices_keys _ _ _ _ _ _ Hrun Hm) as [H | H]; auto.
      discriminate H.
    + apply (color_vertices_bounds _ _ _ _ _ (no_colors_bounds _ _) Hrun k i Hk).
  - apply (color_vertices_keys_NoDup _ _ _ [] _ (NoDup_nil _) Hrun).
Qed.

Lemma coloring_covers_courses_within_palette_witness :
  let colors := [("CS101", 0); ("CS102", 1); ("EE201", 1); ("EE202", 0);
                 ("ME301", 2); ("ME302", 3); ("ES401", 3); ("ES402", 2)] in
  (forall c, In c example_courses ->
             exists i, dict_get colors (Course.id c) = Some i)
  /\ (forall k i, dict_get colors k = Some i ->
                  In k (map Course.id example_courses)
                  /\ i < List.length create_time_slots)
  /\ NoDup (dict_keys colors).
Proof.
  apply (coloring_covers_courses_within_palette
           example_courses create_time_slots create_rooms).
  vm_compute. reflexivity.
Defined.

(** X2: the coloring returns, with no exception, whenever every node has
    fewer neighbours (degree) than there are time slots. *)
Theorem coloring_returns_when_slots_exceed_degree self :
  (forall v, In v (nodes (graph self)) ->
             degree (graph self) v < List.length (time_slots self)) ->
  exists colors, welsh_powell_coloring self = Ok colors.
Proof.
  intros Hdeg. unfold welsh_powell_coloring.
  apply color_vertices_total. intros v Hv.
  apply (Permutation_in _ (vertices_by_degree_perm _)) in Hv. auto.
Qed.

Lemma coloring_returns_when_slots_exceed_degree_witness :
  exists colors,
    welsh_powell_coloring (build_conflict_graph fallback) = Ok colors.
Proof.
  apply (coloring_returns_when_slots_exceed_degree (build_conflict_graph fallback)).
  intros v Hv. vm_compute in Hv.
  repeat (destruct Hv as [<- | Hv]; [vm_compute; lia|]).
  destruct Hv.
Defined.

(** X3: an index handed out by the coloring never exceeds the degree of its
    node: a course in conflict with d others gets one of the slots 0..d. *)
Theorem color_at_most_degree self colors v c :
  welsh_powell_coloring self = Ok colors ->
  dict_get colors v = Some c ->
  c <= degree (graph self) v.
Proof.
  unfold welsh_powell_coloring. intros Hrun Hv.
  apply (color_vertices_bounds _ _ _ _ _ (no_colors_bounds _ _) Hrun v c Hv).
Qed.

Lemma color_at_most_degree_witness :
  3 <= degree (graph (build_conflict_graph fallback)) "ME302".
Proof.
  apply (color_at_most_degree (build_conflict_graph fallback)
           [("CS101", 0); ("CS102", 1); ("EE201", 1); ("EE202", 0);
            ("ME301", 2); ("ME302", 3); ("ES401", 3); ("ES402", 2)]).
  - vm_compute. reflexivity.
  - reflexivity.
Defined.

(** X4: with an empty time-slot catalog and at least one course the run
    ends in StopIteration, raised while the first vertex is colored. *)
Theorem empty_catalog_raises_stop_iteration c cs rs :
  welsh_powell_coloring (build_conflict_graph (load (c :: cs) [] rs))
  = Raise StopIteration
  /\ generate_timetable (load (c :: cs) [] rs) = Raise StopIteration.
Proof.
  assert (H : welsh_powell_coloring (build_conflict_graph (load (c :: cs) [] rs))
              = Raise StopIteration).
  { unfold welsh_powell_coloring. rewrite graph_build. simpl time_slots.
    destruct (load_fields (c :: cs) [] rs) as (_ & -> & _).
    assert (Hin : In (Course.id c)
                     (vertices_by_degree (conflict_graph (c :: cs)))).
    { apply (Permutation_in _ (Permutation_sym (vertices_by_degree_perm _))).
      apply conflict_graph_nodes. now left. }
    destruct (vertices_by_degree (conflict_graph (c :: cs))) as [|v rest] eqn:E;
      [destruct Hin|].
    assert (Hv : In v (nodes (conflict_graph (c :: cs)))).
    { apply (Permutation_in _ (vertices_by_degree_perm _)). rewrite E. now left. }
    apply dict_mem_keys in Hv. unfold dict_mem in Hv.
    simpl. unfold color_vertex, neighbors.
    destruct (dict_get (conflict_graph (c :: cs)) v); [|discriminate].
    reflexivity. }
  split; [exact H|].
  unfold generate_timetable. rewrite H. reflexivity.
Qed.

(** ** The conflict graph: rebuilding and degrees *)

Lemma dict_set_same_value {V : Type} (d : dict V) k v :
  dict_get d k = Some v -> dict_set d k v = d.
Proof.
  induction d as [|[k' v'] d IH]; simpl; [discriminate|].
  destruct (String.eqb k' k) eqn:E.
  - now intros [= ->].
  - intros H. now rewrite IH.
Qed.

Lemma adj_insert_present g u v :
  has_edge g u v = true -> adj_insert g u v = g.
Proof.
  unfold has_edge, adj_insert.
  destruct (dict_get g u) as [nbrs|] eqn:E; [|discriminate].
  intros ->. now apply dict_set_same_value.
Qed.

Lemma has_edge_node g u v : has_edge g u v = true -> dict_mem g u = true.
Proof.
  unfold has_edge, dict_mem. now destruct (dict_get g u).
Qed.

Lemma add_edge_present g u v :
  has_edge g u v = true -> has_edge g v u = true -> add_edge g u v = g.
Proof.
  intros Huv Hvu. unfold add_edge.
  rewrite (nodes_add_node_known g u (has_edge_node _ _ _ Huv)).
  rewrite (nodes_add_node_known g v (has_edge_node _ _ _ Hvu)).
  rewrite (adj_insert_present g u v Huv).
  now apply adj_insert_present.
Qed.

Lemma link_fold_present c1 rest g :
  (forall c2, In c2 rest -> conflict c1 c2 = true ->
              has_edge g (Course.id c1) (Course.id c2) = true
              /\ has_edge g (Course.id c2) (Course.id c1) = true) ->
  fold_left (link c1) rest g = g.
Proof.
  induction rest as [|c rest IH]; intros Hall; simpl; auto.
  assert (E : link c1 g c = g).
  { unfold link. destruct (conflict c1 c) eqn:Ec; auto.
    destruct (Hall c (or_introl eq_refl) Ec). now apply add_edge_present. }
  rewrite E. apply IH. intros c2 Hc2. apply Hall. now right.
Qed.

Lemma conflict_edges_present cs g :
  (forall a b, linked cs a b -> has_edge g a b = true) ->
  conflict_edges cs g = g.
Proof.
  induction cs as [|c1 rest IH]; intros Hall; simpl; auto.
  rewrite link_fold_present.
  - apply IH. intros a b H. apply Hall. simpl. now right.
  - intros c2 Hin Hc. split; apply Hall; simpl; left; exists c2;
      unfold joins; auto.
Qed.

(** X5: building the conflict graph a second time changes nothing: the
    generator after two calls is the generator after one. *)
Theorem build_conflict_graph_idempotent self :
  build_conflict_graph (build_conflict_graph self) = build_conflict_graph self.
Proof.
  unfold build_conflict_graph, set_graph. simpl. f_equal.
  apply conflict_edges_present. intros a b H.
  apply has_edge_conflict_edges. now right.
Qed.

Lemma adj_NoDup_add_node g n : adj_lists_NoDup g -> adj_lists_NoDup (add_node g n).
Proof.
  intros H u nbrs. unfold add_node. destruct (dict_mem g n); [apply H|].
  rewrite dict_get_set. destruct (String.eqb n u); [|apply H].
  intros [= <-]. constructor.
Qed.

Lemma adj_NoDup_adj_insert g u v :
  adj_lists_NoDup g -> adj_lists_NoDup (adj_insert g u v).
Proof.
  intros H w nbrs. unfold adj_insert.
  destruct (dict_get g u) as [old|] eqn:E; [|apply H].
  rewrite dict_get_set. destruct (String.eqb u w); [|apply H].
  intros [= <-]. pose proof (H u old E) as Hold.
  destruct (str_in v old) eqn:Ev; auto.
  apply NoDup_app; auto.
  - constructor; [simpl; tauto | constructor].
  - intros x Hx [<- | []]. apply str_in_In in Hx. congruence.
Qed.

Lemma adj_NoDup_conflict_edges cs g :
  adj_lists_NoDup g -> adj_lists_NoDup (conflict_edges cs g).
Proof.
  revert g. induction cs as [|c1 rest IH]; intros g H; simpl; auto.
  apply IH. clear IH. revert g H.
  induction rest as [|c rest IH]; intros g H; simpl; auto.
  apply IH. unfold link. destruct (conflict c1 c); auto.
  unfold add_edge.
  now apply adj_NoDup_adj_insert, adj_NoDup_adj_insert,
            adj_NoDup_add_node, adj_NoDup_add_node.
Qed.

Lemma adj_NoDup_conflict_graph cs : adj_lists_NoDup (conflict_graph cs).
Proof.
  unfold conflict_graph. apply adj_NoDup_conflict_edges.
  generalize (map Course.id cs). intros ids.
  assert (H : adj_lists_NoDup []) by (intros u nbrs E; discriminate E).
  revert H. generalize ([] : Graph).
  induction ids as [|n ids IH]; intros g H; simpl; auto.
  apply IH. now apply adj_NoDup_add_node.
Qed.

Lemma NoDup_map_filter {A B : Type} (f : A -> B) (p : A -> bool) l :
  NoDup (map f l) -> NoDup (map f (filter p l)).
Proof.
  induction l as [|x l IH]; simpl; intros H; [constructor|].
  inversion H as [|? ? Hnotin Hnd]; subst.
  destruct (p x); simpl; auto.
  constructor; auto. intros Hin. apply Hnotin.
  apply in_map_iff in Hin. destruct Hin as (y & <- & Hy).
  apply filter_In in Hy. apply in_map. tauto.
Qed.

(** X6: with unique course ids, the degree that orders the coloring is the
    number of other courses sharing the course's teacher or student group. *)
Theorem degree_counts_conflicting_courses cs ts rs c :
  NoDup (map Course.id cs) ->
  In c cs ->
  degree (graph (build_conflict_graph (load cs ts rs))) (Course.id c)
  = List.length (conflicting cs c).
Proof.
  intros Hnd Hc. rewrite graph_build.
  assert (Hnode : In (Course.id c) (nodes (conflict_graph cs))).
  { apply conflict_graph_nodes. now apply in_map. }
  apply dict_mem_keys in Hnode. unfold dict_mem in Hnode.
  destruct (dict_get (conflict_graph cs) (Course.id c)) as [nbrs|] eqn:Hg;
    [clear Hnode | discriminate].
  assert (Hedge : forall n, In n nbrs <-> linked cs (Course.id c) n).
  { intros n. rewrite <- conflict_graph_edge. symmetry.
    now apply has_edge_nbrs. }
  unfold degree. rewrite Hg.
  assert (Hself : str_in (Course.id c) nbrs = false).
  { destruct (str_in (Course.id c) nbrs) eqn:E; auto.
    apply str_in_In, Hedge in E.
    now apply (linked_distinct _ _ _ Hnd) in E. }
  rewrite Hself, Nat.add_0_r.
  rewrite <- (length_map Course.id (conflicting cs c)).
  apply Permutation_length. apply NoDup_Permutation.
  - apply (adj_NoDup_conflict_graph cs _ _ Hg).
  - now apply NoDup_map_filter.
  - intros n. rewrite Hedge, (linked_unique_ids _ _ _ Hnd), in_map_iff.
    unfold conflicting. split.
    + intros (c1 & c2 & H1 & H2 & E1 & E2 & Hne & Hcf).
      apply (id_injective cs) in E1; auto. subst c1.
      exists c2. split; auto. apply filter_In. split; auto.
      rewrite Hcf. simpl. apply negb_true_iff, String.eqb_neq. congruence.
    + intros (c2 & E & Hin). apply filter_In in Hin. destruct Hin as [Hin Hp].
      apply andb_true_iff in Hp. destruct Hp as [Hcf Hne].
      apply negb_true_iff, String.eqb_neq in Hne.
      exists c, c2. repeat split; auto. congruence.
Qed.

Lemma degree_counts_conflicting_courses_witness :
  degree (graph (build_conflict_graph fallback)) "CS101"
  = List.length
      (conflicting example_courses
         (Course.make "CS101" "Introduction to Programming" "Dr. Smith"
                      "Group A" 60 "FCSE")).
Proof.
  exact (degree_counts_conflicting_courses
           example_courses create_time_slots create_rooms
           (Course.make "CS101" "Introduction to Programming" "Dr. Smith"
                        "Group A" 60 "FCSE")
           (all_distinct_NoDup (map Course.id example_courses) eq_refl)
           (or_introl eq_refl)).
Defined.

(** ** Slots *)

(** X7: the overlap test is symmetric; slots on different days, and slots
    of which one ends no later than the other starts, do not overlap; a slot
    overlaps itself exactly when it starts before it ends. *)
Theorem overlap_facts s1 s2 :
  _time_slots_overlap s1 s2 = _time_slots_overlap s2 s1
  /\ (TimeSlot.day s1 <> TimeSlot.day s2 -> _time_slots_overlap s1 s2 = false)
  /\ ((TimeSlot.end_time s1 <= TimeSlot.start_time s2)%Z ->
      _time_slots_overlap s1 s2 = false)
  /\ _time_slots_overlap s1 s1
     = (TimeSlot.start_time s1 <? TimeSlot.end_time s1)%Z.
Proof.
  split; [apply overlap_sym|]. split; [|split].
  - intros Hd. destruct (_time_slots_overlap s1 s2) eqn:E; auto.
    apply overlap_iff in E. tauto.
  - intros Hle. destruct (_time_slots_overlap s1 s2) eqn:E; auto.
    apply overlap_iff in E. lia.
  - unfold _time_slots_overlap. rewrite String.eqb_refl. simpl.
    now destruct (TimeSlot.start_time s1 <? TimeSlot.end_time s1)%Z.
Qed.

(** ** Room allocation: errors, tiers, what is written *)

(** X8: if the allocator reaches a course that has no entry in
    ColorAssignment, [assign_rooms] ends in KeyError carrying that course's
    id; so does calling it before any coloring. *)
Theorem assign_rooms_uncolored_course_raises self pre course post before :
  courses self = pre ++ course :: post ->
  assign_rooms_from pre self = Ok before ->
  dict_get (color_assignments self) (Course.id course) = None ->
  assign_rooms self = Raise (KeyError (Course.id course)).
Proof.
  intros Hsplit Hpre Hnone. unfold assign_rooms.
  rewrite Hsplit, assign_rooms_from_app_eq, Hpre. simpl.
  destruct (assign_rooms_from_inputs _ _ _ Hpre) as (_ & _ & _ & Ecol).
  unfold assign_room, dict_lookup. now rewrite Ecol, Hnone.
Qed.

Lemma assign_rooms_uncolored_course_raises_witness :
  assign_rooms fallback = Raise (KeyError "CS101").
Proof.
  exact (assign_rooms_uncolored_course_raises fallback []
           (Course.make "CS101" "Introduction to Programming" "Dr. Smith"
                        "Group A" 60 "FCSE")
           (tl example_courses) fallback eq_refl eq_refl eq_refl).
Defined.

Lemma allocation_rooms_known self course slot self' :
  allocation self course slot self' -> rooms_known self -> rooms_known self'.
Proof.
  intros H Hinv. unfold rooms_known.
  destruct (allocation_inputs _ _ _ _ H) as (_ & _ & -> & _).
  destruct (allocation_entry _ _ _ _ H) as [(room & Hroom & _ & E) | [E _]];
    rewrite E; [|exact Hinv].
  intros k rid. rewrite dict_get_set.
  destruct (String.eqb (Course.id course) k); [|apply Hinv].
  intros [= <-]. eauto.
Qed.

Lemma assign_rooms_from_rooms_known cs self final :
  assign_rooms_from cs self = Ok final -> rooms_known self -> rooms_known final.
Proof.
  revert self. induction cs as [|c cs IH]; intros self H Hinv; simpl in H.
  - now injection H as <-.
  - bind_inv H. apply assign_room_ok in Hx. destruct Hx as (slot & _ & Ha).
    apply (IH _ H). now apply (allocation_rooms_known _ _ _ _ Ha).
Qed.

Lemma empty_rooms_known self : room_assignments self = [] -> rooms_known self.
Proof. intros E k rid. rewrite E. discriminate. Qed.

(** X9: after room allocation from an empty RoomAssignment, every key of
    RoomAssignment is the id of a registered course and every value is the
    id of a room of the catalog. *)
Theorem room_entries_name_courses_and_rooms self final k rid :
  room_assignments self = [] ->
  assign_rooms self = Ok final ->
  dict_get (room_assignments final) k = Some rid ->
  In k (map Course.id (courses self))
  /\ exists r, In r (rooms self) /\ Room.id r = rid.
Proof.
  intros Hempty Hrun Hk. unfold assign_rooms in Hrun. split.
  - assert (Hm : dict_mem (room_assignments final) k = true).
    { unfold dict_mem. now rewrite Hk. }
    destruct (assign_rooms_from_keys _ _ _ _ Hrun Hm) as [H | H]; auto.
    rewrite Hempty in H. discriminate H.
  - destruct (assign_rooms_from_inputs _ _ _ Hrun) as (_ & _ & <- & _).
    apply (assign_rooms_from_rooms_known _ _ _ Hrun (empty_rooms_known _ Hempty) k rid Hk).
Qed.

Lemma room_entries_name_courses_and_rooms_witness :
  In "CS102" (map Course.id (courses small_colored))
  /\ exists r, In r (rooms small_colored) /\ Room.id r = "FCSE-LH1".
Proof.
  apply (room_entries_name_courses_and_rooms small_colored small_allocated).
  - reflexivity.
  - vm_compute. reflexivity.
  - vm_compute. reflexivity.
Defined.





(** X11: when every slot of the catalog starts before it ends, two
    different courses that room allocation puts in one room hold different
    slot indices. *)
Theorem shared_room_different_index self final k1 k2 rid i1 i2 :
  room_assignments self = [] ->
  (forall s, In s (time_slots self) ->
             (TimeSlot.start_time s < TimeSlot.end_time s)%Z) ->
  assign_rooms self = Ok final ->
  k1 <> k2 ->
  dict_get (room_assignments final) k1 = Some rid ->
  dict_get (room_assignments final) k2 = Some rid ->
  dict_get (color_assignments final) k1 = Some i1 ->
  dict_get (color_assignments final) k2 = Some i2 ->
  i1 <> i2.
Proof.
  intros Hempty Hpos Hrun Hne H1 H2 Hc1 Hc2 ->. unfold assign_rooms in Hrun.
  pose proof (assign_rooms_from_conflict_free _ _ _ Hrun
                (empty_conflict_free _ Hempty)) as Hfree.
  pose proof (assign_rooms_from_wf _ _ _ Hrun (empty_allocation_wf _ Hempty))
    as [_ Hwf].
  destruct (Hwf k1 rid H1) as (s & Hs).
  assert (Hs2 : slot_of final k2 = Some s).
  { unfold slot_of in *. rewrite Hc1 in Hs. now rewrite Hc2. }
  pose proof (Hfree k1 k2 rid s s Hne H1 H2 Hs Hs2) as Hno.
  assert (Hin : In s (time_slots self)).
  { destruct (assign_rooms_from_inputs _ _ _ Hrun) as (_ & <- & _).
    unfold slot_of in Hs. rewrite Hc1 in Hs. now apply nth_error_In in Hs. }
  apply Hpos in Hin.
  assert (Hyes : _time_slots_overlap s s = true).
  { apply overlap_iff. auto. }
  congruence.
Qed.

Lemma shared_room_different_index_witness : 0 <> 1.
Proof.
  apply (shared_room_different_index small_colored small_allocated
           "CS101" "CS102" "FCSE-LH1" 0 1).
  - reflexivity.
  - intros s Hs. vm_compute in Hs.
    repeat (destruct Hs as [<- | Hs]; [reflexivity|]). destruct Hs.
  - vm_compute. reflexivity.
  - discriminate.
  - vm_compute. reflexivity.
  - vm_compute. reflexivity.
  - vm_compute. reflexivity.
  - vm_compute. reflexivity.
Defined.

Lemma allocation_frame self course slot self' :
  allocation self course slot self' ->
  graph self' = graph self
  /\ teacher_schedules self' = teacher_schedules self
  /\ student_schedules self' = student_schedules self.
Proof. intros H. destruct H; simpl; auto. Qed.

Lemma assign_rooms_from_frame cs self final :
  assign_rooms_from cs self = Ok final ->
  graph final = graph self
  /\ teacher_schedules final = teacher_schedules self
  /\ student_schedules final = student_schedules self.
Proof.
  revert self. induction cs as [|c cs IH]; intros self H; simpl in H.
  - injection H as <-. auto.
  - bind_inv H. apply assign_room_ok in Hx. destruct Hx as (slot & _ & Ha).
    destruct (allocation_frame _ _ _ _ Ha) as (E1 & E2 & E3).
    destruct (IH _ H) as (F1 & F2 & F3).
    repeat split; congruence.
Qed.

Lemma collect_graph self course self' :
  collect self course = Ok self' -> graph self' = graph self.
Proof.
  unfold collect.
  destruct (negb (dict_mem (room_assignments self) (Course.id course))).
  - now intros [= <-].
  - intros H. bind_inv H. bind_inv H. bind_inv H. now injection H as <-.
Qed.

Lemma collect_from_graph cs self self' :
  collect_from cs self = Ok self' -> graph self' = graph self.
Proof.
  revert self. induction cs as [|c cs IH]; intros self H; simpl in H.
  - now injection H as <-.
  - bind_inv H. rewrite (IH _ H). now apply (collect_graph _ c).
Qed.

(** X12: room allocation leaves the registered courses, both catalogs, the
    conflict graph, ColorAssignment and both schedule maps as they were;
    schedule compilation leaves the courses, both catalogs, the graph,
    ColorAssignment and RoomAssignment as they were. *)
Theorem stages_keep_earlier_results self :
  (forall final,
      assign_rooms self = Ok final ->
      courses final = courses self /\ time_slots final = time_slots self
      /\ rooms final = rooms self /\ graph final = graph self
      /\ color_assignments final = color_assignments self
      /\ teacher_schedules final = teacher_schedules self
      /\ student_schedules final = student_schedules self)
  /\ (forall final,
        optimize_schedules self = Ok final ->
        courses final = courses self /\ time_slots final = time_slots self
        /\ rooms final = rooms self /\ graph final = graph self
        /\ color_assignments final = color_assignments self
        /\ room_assignments final = room_assignments self).
Proof.
  split; intros final H.
  - unfold assign_rooms in H.
    destruct (assign_rooms_from_inputs _ _ _ H) as (? & ? & ? & ?).
    destruct (assign_rooms_from_frame _ _ _ H) as (? & ? & ?).
    repeat split; assumption.
  - unfold optimize_schedules in H. bind_inv H. injection H as <-. simpl.
    pose proof (collect_from_graph _ _ _ Hx) as Hg.
    apply collect_from_spec in Hx. destruct Hx as ((? & ? & ? & ? & ?) & _).
    repeat split; assumption.
Qed.

Lemma stdout_warn_unassigned self course slot :
  stdout (warn_unassigned self course slot)
  = stdout self ++ warning_lines course slot.
Proof.
  unfold warn_unassigned, warning_lines, print. simpl.
  now rewrite <- !app_assoc.
Qed.

Lemma allocation_stdout self course slot self' :
  allocation self course slot self' ->
  (dict_mem (room_assignments self') (Course.id course) = true
   /\ stdout self' = stdout self)
  \/ (room_assignments self' = room_assignments self
      /\ stdout self' = stdout self ++ warning_lines course slot).
Proof.
  intros H. destruct H; [left | left | left | right].
  1-3: split; [|reflexivity]; unfold assign; simpl;
       unfold dict_mem; now rewrite dict_get_set_same.
  split; [reflexivity | apply stdout_warn_unassigned].
Qed.

Lemma assign_rooms_from_stdout cs self final :
  NoDup (map Course.id cs) ->
  (forall c, In c cs -> dict_mem (room_assignments self) (Course.id c) = false) ->
  assign_rooms_from cs self = Ok final ->
  stdout final = stdout self ++ flat_map (warnings_for self) (left_out final cs).
Proof.
  revert self. induction cs as [|c cs IH]; intros self Hnd Hfresh H; simpl in H.
  - injection H as <-. simpl. now rewrite app_nil_r.
  - inversion Hnd as [|? ? Hnotin Hnd']; subst.
    bind_inv H. rename x into mid.
    apply assign_room_ok in Hx. destruct Hx as (slot & Hslot & Ha).
    assert (Hmid : forall c', In c' cs ->
                   dict_mem (room_assignments mid) (Course.id c') = false).
    { intros c' Hc'. unfold dict_mem.
      rewrite (allocation_other_keys _ _ _ _ (Course.id c') Ha).
      - apply (Hfresh c'). now right.
      - intros E. apply Hnotin. rewrite <- E. now apply in_map. }
    rewrite (IH mid Hnd' Hmid H).
    assert (Hw : flat_map (warnings_for mid) (left_out final cs)
                 = flat_map (warnings_for self) (left_out final cs)).
    { apply flat_map_ext. intros c'. unfold warnings_for.
      now rewrite (allocation_slot_of _ _ _ _ (Course.id c') Ha). }
    rewrite Hw. unfold left_out at 2. simpl. fold (left_out final cs).
    assert (Hc : dict_mem (room_assignments final) (Course.id c)
                 = dict_mem (room_assignments mid) (Course.id c)).
    { unfold dict_mem.
      now rewrite (assign_rooms_from_other_keys _ _ _ _ H Hnotin). }
    rewrite Hc.
    destruct (allocation_stdout _ _ _ _ Ha) as [[Hm Hout] | [Hra Hout]].
    + rewrite Hm, Hout. reflexivity.
    + rewrite Hra, (Hfresh c (or_introl eq_refl)), Hout. simpl.
      unfold warnings_for at 2. rewrite Hslot. now rewrite <- app_assoc.
Qed.

(** X13: over courses with unique ids and from an empty RoomAssignment,
    room allocation prints its three warning lines exactly for the courses
    that end without a room entry, in registration order, and prints
    nothing else. *)
Theorem warnings_exactly_for_left_out self final :
  room_assignments self = [] ->
  NoDup (map Course.id (courses self)) ->
  assign_rooms self = Ok final ->
  stdout final
  = stdout self ++ flat_map (warnings_for self) (left_out final (courses self)).
Proof.
  intros Hempty Hnd Hrun. apply assign_rooms_from_stdout; auto.
  intros c _. now rewrite Hempty.
Qed.

Lemma warnings_exactly_for_left_out_witness :
  stdout (value (assign_rooms crowded_colored) init)
  = stdout crowded_colored
    ++ flat_map (warnings_for crowded_colored)
         (left_out (value (assign_rooms crowded_colored) init)
                   (courses crowded_colored)).
Proof.
  apply (warnings_exactly_for_left_out crowded_colored).
  - reflexivity.
  - apply all_distinct_NoDup. reflexivity.
  - vm_compute. reflexivity.
Defined.

(** ** Schedule compilation: termination and membership *)

Lemma room_of_total rs assignments cid rid :
  dict_get assignments cid = Some rid ->
  (exists r, In r rs /\ Room.id r = rid) ->
  exists r, room_of rs assignments cid = Ok r.
Proof.
  intros Hget. induction rs as [|r0 rs IH]; intros (r & Hin & Hid).
  - destruct Hin.
  - simpl. unfold dict_lookup. rewrite Hget. simpl.
    destruct (String.eqb (Room.id r0) rid) eqn:E; [eauto|].
    apply IH. exists r. split; auto.
    destruct Hin as [-> | Hin]; auto.
    apply String.eqb_neq in E. contradiction.
Qed.

Lemma collect_total self course :
  allocation_wf self -> rooms_known self ->
  exists self', collect self course = Ok self'.
Proof.
  intros [_ Hwf] Hknown. unfold collect, dict_mem.
  destruct (dict_get (room_assignments self) (Course.id course)) as [rid|] eqn:E;
    simpl; [|eauto].
  destruct (Hwf _ _ E) as (slot & Hslot).
  apply slot_lookup in Hslot. destruct Hslot as (idx & H1 & H2).
  rewrite H1. simpl. rewrite H2. simpl.
  destruct (room_of_total (rooms self) _ _ _ E (Hknown _ _ E)) as (r & ->).
  simpl. eauto.
Qed.

Lemma invariants_transfer self self' :
  time_slots self' = time_slots self -> rooms self' = rooms self ->
  color_assignments self' = color_assignments self ->
  room_assignments self' = room_assignments self ->
  allocation_wf self /\ rooms_known self ->
  allocation_wf self' /\ rooms_known self'.
Proof.
  unfold allocation_wf, rooms_known, slot_of. intros -> -> -> ->. tauto.
Qed.

Lemma collect_from_total cs self :
  allocation_wf self -> rooms_known self ->
  exists self', collect_from cs self = Ok self'.
Proof.
  revert self. induction cs as [|c cs IH]; intros self Hwf Hknown; simpl.
  - eauto.
  - destruct (collect_total self c Hwf Hknown) as (mid & Hmid).
    rewrite Hmid. simpl.
    apply collect_ok in Hmid. destruct Hmid as (_ & E2 & E3 & E4 & E5 & _).
    destruct (invariants_transfer self mid E2 E3 E4 E5 (conj Hwf Hknown)).
    now apply IH.
Qed.

(** X14: after a room allocation that started from an empty RoomAssignment,
    schedule compilation returns: its subscripts and its search for the
    room of an entry never raise. *)
Theorem optimize_schedules_returns self allocated :
  room_assignments self = [] ->
  assign_rooms self = Ok allocated ->
  exists compiled, optimize_schedules allocated = Ok compiled.
Proof.
  intros Hempty Hrun. unfold assign_rooms in Hrun.
  pose proof (assign_rooms_from_wf _ _ _ Hrun (empty_allocation_wf _ Hempty)) as Hwf.
  pose proof (assign_rooms_from_rooms_known _ _ _ Hrun (empty_rooms_known _ Hempty))
    as Hknown.
  unfold optimize_schedules.
  destruct (collect_from_total (courses allocated) allocated Hwf Hknown) as (mid & ->).
  simpl. eauto.
Qed.

Lemma optimize_schedules_returns_witness :
  exists compiled, optimize_schedules small_allocated = Ok compiled.
Proof.
  apply (optimize_schedules_returns small_colored small_allocated).
  - reflexivity.
  - vm_compute. reflexivity.
Defined.

Lemma filter_nil_iff {A : Type} (p : A -> bool) l :
  filter p l = [] <-> forall x, In x l -> p x = false.
Proof.
  induction l as [|x l IH]; simpl.
  - split; [intros _ y [] | reflexivity].
  - destruct (p x) eqn:E.
    + split; [discriminate|]. intros H. specialize (H x (or_introl eq_refl)).
      congruence.
    + rewrite IH. split.
      * intros H y [<- | Hy]; auto.
      * intros H y Hy. apply H. now right.
Qed.

Lemma schedule_members self sel es k :
  map entry_course es
  = filter (fun c => dict_mem (room_assignments self) (Course.id c)) (courses self) ->
  (dict_get (sort_schedules (file_all sel es [])) k = None <->
   roomed_under self sel k = [])
  /\ forall l,
       dict_get (sort_schedules (file_all sel es [])) k = Some l ->
       Permutation (map entry_course l) (roomed_under self sel k).
Proof.
  intros Hmap.
  rewrite sort_schedules_get, file_all_get. simpl.
  set (mine := filter (fun e => String.eqb (sel (entry_course e)) k) es).
  assert (Hmine : map entry_course mine = roomed_under self sel k).
  { unfold mine, roomed_under.
    rewrite (map_filter_rel entry_course _ (fun c => String.eqb (sel c) k))
      by reflexivity.
    now rewrite Hmap, filter_twice. }
  rewrite <- Hmine. split.
  - destruct mine; simpl; split; auto; discriminate.
  - intros l Hl. apply Permutation_map.
    assert (E : l = sorted entry_start false mine).
    { destruct mine; simpl in Hl; [discriminate | now injection Hl as <-]. }
    rewrite E. apply sorted_perm.
Qed.

(** X15: after schedule compilation from empty schedules, a teacher (a
    student group) has a sequence exactly when one of their courses has a
    room entry, and the courses of that sequence are, up to order, the
    teacher's (the group's) courses that have a room entry, each once. *)
Theorem schedules_hold_the_roomed_courses self compiled k :
  teacher_schedules self = [] ->
  student_schedules self = [] ->
  optimize_schedules self = Ok compiled ->
  (dict_get (teacher_schedules compiled) k = None <->
   roomed_under self Course.teacher k = [])
  /\ (forall l, dict_get (teacher_schedules compiled) k = Some l ->
                Permutation (map entry_course l)
                            (roomed_under self Course.teacher k))
  /\ (dict_get (student_schedules compiled) k = None <->
      roomed_under self Course.student_group k = [])
  /\ (forall l, dict_get (student_schedules compiled) k = Some l ->
                Permutation (map entry_course l)
                            (roomed_under self Course.student_group k)).
Proof.
  intros Ht Hs Hrun. unfold optimize_schedules in Hrun.
  bind_inv Hrun. injection Hrun as <-. simpl.
  apply collect_from_spec in Hx.
  destruct Hx as (_ & es & Hmap & _ & Hts & Hss).
  rewrite Ht in Hts. rewrite Hs in Hss. rewrite Hts, Hss.
  destruct (schedule_members self Course.teacher es k Hmap) as [T1 T2].
  destruct (schedule_members self Course.student_group es k Hmap) as [S1 S2].
  auto.
Qed.

Lemma schedules_hold_the_roomed_courses_witness :
  (dict_get (teacher_schedules small_compiled) "Smith" = None <->
   roomed_under small_allocated Course.teacher "Smith" = [])
  /\ (forall l, dict_get (teacher_schedules small_compiled) "Smith" = Some l ->
                Permutation (map entry_course l)
                            (roomed_under small_allocated Course.teacher "Smith"))
  /\ (dict_get (student_schedules small_compiled) "Smith" = None <->
      roomed_under small_allocated Course.student_group "Smith" = [])
  /\ (forall l, dict_get (student_schedules small_compiled) "Smith" = Some l ->
                Permutation (map entry_course l)
                            (roomed_under small_allocated Course.student_group "Smith")).
Proof.
  apply (schedules_hold_the_roomed_courses small_allocated small_compiled).
  - reflexivity.
  - reflexivity.
  - vm_compute. reflexivity.
Defined.

(** ** The run: when it returns and how it fails *)

Lemma optimize_schedules_fields self compiled :
  optimize_schedules self = Ok compiled ->
  courses compiled = courses self /\ time_slots compiled = time_slots self
  /\ rooms compiled = rooms self
  /\ color_assignments compiled = color_assignments self
  /\ room_assignments compiled = room_assignments self.
Proof.
  unfold optimize_schedules. intros H. bind_inv H. injection H as <-. simpl.
  apply collect_from_spec in Hx. tauto.
Qed.

Lemma course_lines_total self cs :
  rooms_known self ->
  (forall c, In c cs ->
     (exists slot, slot_of self (Course.id c) = Some slot)
     /\ dict_mem (room_assignments self) (Course.id c) = true) ->
  exists lines, course_lines self cs = Ok lines.
Proof.
  intros Hknown. induction cs as [|c cs IH]; intros Hall; simpl; [eauto|].
  destruct (Hall c (or_introl eq_refl)) as ((slot & Hslot) & Hmem).
  apply slot_lookup in Hslot. destruct Hslot as (idx & H1 & H2).
  rewrite H1. simpl. rewrite H2. simpl.
  unfold dict_mem in Hmem.
  destruct (dict_get (room_assignments self) (Course.id c)) as [rid|] eqn:E;
    [|discriminate].
  destruct (room_of_total (rooms self) _ _ _ E (Hknown _ _ E)) as (r & ->). simpl.
  destruct IH as (lines & ->); [intros c' Hc'; apply Hall; now right|].
  simpl. eauto.
Qed.

Lemma course_lines_key_error self pre c post :
  rooms self <> [] ->
  rooms_known self ->
  (forall c', In c' pre ->
     (exists slot, slot_of self (Course.id c') = Some slot)
     /\ dict_mem (room_assignments self) (Course.id c') = true) ->
  (exists slot, slot_of self (Course.id c) = Some slot) ->
  dict_mem (room_assignments self) (Course.id c) = false ->
  course_lines self (pre ++ c :: post) = Raise (KeyError (Course.id c)).
Proof.
  intros Hrooms Hknown Hpre (slot & Hslot) Hout.
  induction pre as [|c0 pre IH]; simpl.
  - apply slot_lookup in Hslot. destruct Hslot as (idx & H1 & H2).
    rewrite H1. simpl. rewrite H2. simpl.
    destruct (rooms self) as [|r rs']; [congruence|]. simpl.
    unfold dict_lookup. unfold dict_mem in Hout.
    now destruct (dict_get (room_assignments self) (Course.id c)).
  - destruct (Hpre c0 (or_introl eq_refl)) as ((slot0 & Hslot0) & Hmem).
    apply slot_lookup in Hslot0. destruct Hslot0 as (idx & H1 & H2).
    rewrite H1. simpl. rewrite H2. simpl.
    unfold dict_mem in Hmem.
    destruct (dict_get (room_assignments self) (Course.id c0)) as [rid|] eqn:E;
      [|discriminate].
    destruct (room_of_total (rooms self) _ _ _ E (Hknown _ _ E)) as (r & ->). simpl.
    rewrite IH; [reflexivity|]. intros c' Hc'. apply Hpre. now right.
Qed.

(** The state of a run after its first three stages, and what the fourth
    and the report see of it. *)
Lemma run_after_allocation cs ts rs colors allocated :
  welsh_powell_coloring (build_conflict_graph (load cs ts rs)) = Ok colors ->
  assign_rooms (set_color_assignments (build_conflict_graph (load cs ts rs)) colors)
  = Ok allocated ->
  exists compiled,
    optimize_schedules allocated = Ok compiled
    /\ generate_timetable (load cs ts rs)
       = (text <- _format_timetable compiled ;; Ok (compiled, text))
    /\ courses compiled = cs
    /\ rooms compiled = rs
    /\ room_assignments compiled = room_assignments allocated
    /\ rooms_known compiled
    /\ forall c, In c cs -> exists slot, slot_of compiled (Course.id c) = Some slot.
Proof.
  intros Hcol Halloc.
  set (colored := set_color_assignments (build_conflict_graph (load cs ts rs)) colors)
    in *.
  destruct (load_fields cs ts rs) as (Ecs & _ & Ers & _ & _ & Era & _).
  assert (Hempty : room_assignments colored = []) by exact Era.
  unfold assign_rooms in Halloc.
  assert (Hopt : exists compiled, optimize_schedules allocated = Ok compiled).
  { unfold optimize_schedules.
    destruct (collect_from_total (courses allocated) allocated
                (assign_rooms_from_wf _ _ _ Halloc (empty_allocation_wf _ Hempty))
                (assign_rooms_from_rooms_known _ _ _ Halloc
                   (empty_rooms_known _ Hempty))) as (mid & ->).
    simpl. eauto. }
  destruct Hopt as (compiled & Hopt).
  exists compiled. split; [exact Hopt|].
  destruct (optimize_schedules_fields _ _ Hopt) as (F1 & F2 & F3 & F4 & F5).
  destruct (assign_rooms_from_inputs _ _ _ Halloc) as (G1 & G2 & G3 & G4).
  split.
  { unfold generate_timetable. rewrite Hcol. simpl. fold colored.
    unfold assign_rooms. rewrite Halloc. simpl. now rewrite Hopt. }
  split; [rewrite F1, G1; exact Ecs|].
  split; [rewrite F3, G3; exact Ers|].
  split; [exact F5|].
  split.
  - pose proof (assign_rooms_from_rooms_known _ _ _ Halloc
                  (empty_rooms_known _ Hempty)) as Hk.
    unfold rooms_known in *. rewrite F3, F5. exact Hk.
  - intros c Hc.
    destruct (allocation_completes cs ts rs colors Hcol) as [Hslots _].
    destruct (Hslots c Hc) as (slot & Hslot). exists slot.
    rewrite <- Hslot. unfold slot_of. fold colored. now rewrite F2, F4, G2, G4.
Qed.

(** X16: [generate_timetable] on a loaded generator returns exactly when
    the coloring returns and room allocation gives every registered course
    a room entry. *)
Theorem generate_timetable_returns_iff cs ts rs :
  (exists final text, generate_timetable (load cs ts rs) = Ok (final, text))
  <->
  (exists colors allocated,
      welsh_powell_coloring (build_conflict_graph (load cs ts rs)) = Ok colors
      /\ assign_rooms
           (set_color_assignments (build_conflict_graph (load cs ts rs)) colors)
         = Ok allocated
      /\ forall c, In c cs ->
                   dict_mem (room_assignments allocated) (Course.id c) = true).
Proof.
  split.
  - intros (final & text & H).
    pose proof (run_needs_every_room cs ts rs final text H) as Hall.
    unfold generate_timetable in H.
    bind_inv H. rename x into colors.
    bind_inv H. rename x into allocated.
    bind_inv H. rename x into compiled.
    bind_inv H. injection H as <- _.
    exists colors, allocated. split; [exact Hx|]. split; [exact Hx0|].
    destruct (optimize_schedules_fields _ _ Hx1) as (_ & _ & _ & _ & <-).
    exact Hall.
  - intros (colors & allocated & Hcol & Halloc & Hall).
    destruct (run_after_allocation cs ts rs colors allocated Hcol Halloc)
      as (compiled & _ & Hrun & Ecs & _ & Era & Hknown & Hslots).
    rewrite Hrun. unfold _format_timetable.
    destruct (course_lines_total compiled (courses compiled) Hknown) as (lines & ->).
    + rewrite Ecs, Era. intros c Hc. split; auto.
    + simpl. eauto.
Qed.

(** X17: when the coloring and room allocation have returned, the room
    catalog is not empty, and some course has no room entry, the run ends in
    KeyError carrying the id of the first such course in registration
    order. *)
Theorem first_left_out_course_raises_key_error
    cs ts rs colors allocated pre c post :
  welsh_powell_coloring (build_conflict_graph (load cs ts rs)) = Ok colors ->
  assign_rooms (set_color_assignments (build_conflict_graph (load cs ts rs)) colors)
  = Ok allocated ->
  rs <> [] ->
  cs = pre ++ c :: post ->
  (forall c', In c' pre ->
              dict_mem (room_assignments allocated) (Course.id c') = true) ->
  dict_mem (room_assignments allocated) (Course.id c) = false ->
  generate_timetable (load cs ts rs) = Raise (KeyError (Course.id c)).
Proof.
  intros Hcol Halloc Hrs Hsplit Hpre Hout.
  destruct (run_after_allocation cs ts rs colors allocated Hcol Halloc)
    as (compiled & _ & Hrun & Ecs & Ers & Era & Hknown & Hslots).
  rewrite Hrun. unfold _format_timetable.
  rewrite Ecs, Hsplit, course_lines_key_error; auto.
  - now rewrite Ers.
  - rewrite Era. intros c' Hc'. split; auto.
    apply Hslots. rewrite Hsplit. apply in_or_app. now left.
  - apply Hslots. rewrite Hsplit. apply in_or_app. right. now left.
  - now rewrite Era.
Qed.

Lemma first_left_out_course_raises_key_error_witness :
  generate_timetable crowded = Raise (KeyError "CS102").
Proof.
  apply (first_left_out_course_raises_key_error
           crowded_courses [hour_slot "Monday" 8] [lecture_hall "FCSE-LH1" "FCSE"]
           [("CS101", 0); ("CS102", 0)]
           (value (assign_rooms crowded_colored) init)
           [session "CS101" "Smith" "A" "FCSE"]
           (session "CS102" "Jones" "B" "FCSE") []).
  - vm_compute. reflexivity.
  - vm_compute. reflexivity.
  - discriminate.
  - reflexivity.
  - intros c' [<- | []]. vm_compute. reflexivity.
  - vm_compute. reflexivity.
Defined.

(** X18: with an empty room catalog and at least one course, a run whose
    coloring returns ends in StopIteration, not KeyError: the search for the
    first course's room runs over no rooms and never reaches the subscript. *)
Theorem empty_room_catalog_raises_stop_iteration c cs ts colors :
  welsh_powell_coloring (build_conflict_graph (load (c :: cs) ts [])) = Ok colors ->
  generate_timetable (load (c :: cs) ts []) = Raise StopIteration.
Proof.
  intros Hcol.
  destruct (allocation_completes (c :: cs) ts [] colors Hcol) as [_ (allocated & Halloc)].
  destruct (run_after_allocation (c :: cs) ts [] colors allocated Hcol Halloc)
    as (compiled & _ & Hrun & Ecs & Ers & _ & _ & Hslots).
  rewrite Hrun. unfold _format_timetable. rewrite Ecs. simpl.
  destruct (Hslots c (or_introl eq_refl)) as (slot & Hslot).
  apply slot_lookup in Hslot. destruct Hslot as (idx & H1 & H2).
  rewrite H1. simpl. rewrite H2. simpl. rewrite Ers. reflexivity.
Qed.

Lemma empty_room_catalog_raises_stop_iteration_witness :
  generate_timetable (load crowded_courses [hour_slot "Monday" 8] [])
  = Raise StopIteration.
Proof.
  apply (empty_room_catalog_raises_stop_iteration
           (session "CS101" "Smith" "A" "FCSE")
           [session "CS102" "Jones" "B" "FCSE"]
           [hour_slot "Monday" 8]
           [("CS101", 0); ("CS102", 0)]).
  vm_compute. reflexivity.
Defined.

(** X19: with no course registered the run returns, whatever the two
    catalogs hold; both assignment maps stay empty and the report is the
    three section headers. *)
Theorem no_courses_report_is_headers ts rs :
  exists final,
    generate_timetable (load [] ts rs)
    = Ok (final,
          join newline ["Course Assignments:";
                        (newline ++ "Teacher Schedules:")%string;
                        (newline ++ "Student Group Schedules:")%string])
    /\ color_assignments final = []
    /\ room_assignments final = [].
Proof.
  destruct (load_fields [] ts rs) as (E1 & E2 & E3 & E4 & E5 & E6 & E7 & E8).
  destruct (load [] ts rs) as [cs0 ts0 rs0 g0 col0 ra0 tsch0 ssch0 out0].
  simpl in *. subst.
  eexists. split; [reflexivity|]. split; reflexivity.
Qed.

(** ** The driver's catalogs *)

Lemma pairwise_by_check {A : Type} (p : A -> A -> bool) (l : list A) :
  forallb (fun i =>
             forallb (fun j =>
                        Nat.eqb i j
                        || match nth_error l i, nth_error l j with
                           | Some a, Some b => p a b
                           | _, _ => true
                           end)
                     (seq 0 (List.length l)))
          (seq 0 (List.length l)) = true ->
  forall i j a b,
    i <> j -> nth_error l i = Some a -> nth_error l j = Some b -> p a b = true.
Proof.
  intros H i j a b Hne Hi Hj.
  rewrite forallb_forall in H.
  assert (Hli : i < List.length l) by (apply nth_error_Some; congruence).
  assert (Hlj : j < List.length l) by (apply nth_error_Some; congruence).
  specialize (H i ltac:(apply in_seq; lia)).
  rewrite forallb_forall in H.
  specialize (H j ltac:(apply in_seq; lia)).
  rewrite Hi, Hj in H. apply Nat.eqb_neq in Hne. now rewrite Hne in H.
Qed.

(** X20: [create_time_slots] yields forty slots; each lies on one of the
    five weekdays, lasts one hour and falls between 08:00 and 16:00; and two
    slots at different indices never overlap. *)
Theorem create_time_slots_catalog :
  List.length create_time_slots = 40
  /\ (forall s, In s create_time_slots ->
        In (TimeSlot.day s) days
        /\ TimeSlot.end_time s = (TimeSlot.start_time s + one_hour)%Z
        /\ (clock 8 0 <= TimeSlot.start_time s)%Z
        /\ (TimeSlot.end_time s <= clock 16 0)%Z)
  /\ (forall i j s1 s2,
        i <> j ->
        nth_error create_time_slots i = Some s1 ->
        nth_error create_time_slots j = Some s2 ->
        _time_slots_overlap s1 s2 = false).
Proof.
  split; [reflexivity|]. split.
  - assert (H : forallb (fun s =>
                  str_in (TimeSlot.day s) days
                  && (TimeSlot.end_time s =? TimeSlot.start_time s + one_hour)%Z
                  && (clock 8 0 <=? TimeSlot.start_time s)%Z
                  && (TimeSlot.end_time s <=? clock 16 0)%Z)
                create_time_slots = true) by (vm_compute; reflexivity).
    rewrite forallb_forall in H. intros s Hs. specialize (H s Hs).
    rewrite !andb_true_iff, str_in_In, Z.eqb_eq, !Z.leb_le in H. tauto.
  - intros i j s1 s2 Hne H1 H2.
    apply negb_true_iff.
    apply (pairwise_by_check (fun a b => negb (_time_slots_overlap a b))
             create_time_slots ltac:(vm_compute; reflexivity) i j); auto.
Qed.

(** [create_rooms] yields thirty-eight rooms whose ids are pairwise
    distinct, seven of them in the NAB tier, and every department of the
    fallback courses has a room of its own. *)
Lemma create_rooms_catalog :
  List.length create_rooms = 38
  /\ NoDup (map Room.id create_rooms)
  /\ List.length
       (filter (fun r => String.eqb (upper (Room.department r)) "NAB") create_rooms)
     = 7
  /\ (forall c, In c example_courses ->
        exists r, In r create_rooms
                  /\ Room.department r = Course.department c).
Proof.
  split; [reflexivity|]. split; [apply all_distinct_NoDup; reflexivity|].
  split; [reflexivity|].
  assert (H : forallb (fun c =>
                existsb (fun r => String.eqb (Room.department r)
                                             (Course.department c))
                        create_rooms)
              example_courses = true) by (vm_compute; reflexivity).
  rewrite forallb_forall in H. intros c Hc. specialize (H c Hc).
  apply existsb_exists in H. destruct H as (r & Hr & E).
  apply String.eqb_eq in E. eauto.
Qed.

(** ** Registration, re-runs, and the middle stages of a run *)

(** X21: registering courses gives the graph one node per distinct course
    id, in order of first registration, and no edge; and
    [build_conflict_graph] adds edges only, leaving the node list as it
    was. *)
Theorem registration_makes_nodes_only cs ts rs :
  NoDup (nodes (graph (load cs ts rs)))
  /\ (forall k, In k (nodes (graph (load cs ts rs))) <-> In k (map Course.id cs))
  /\ (forall a b, has_edge (graph (load cs ts rs)) a b = false)
  /\ (NoDup (map Course.id cs) ->
      nodes (graph (load cs ts rs)) = map Course.id cs)
  /\ nodes (graph (build_conflict_graph (load cs ts rs)))
     = nodes (graph (load cs ts rs)).
Proof.
  destruct (load_fields cs ts rs) as (Ecs & _ & _ & Eg & _).
  rewrite Eg. split; [|split; [|split; [|split]]].
  - apply fold_add_node_NoDup. constructor.
  - intros k. unfold nodes. rewrite <- dict_mem_keys, fold_add_node_mem.
    simpl. split; [intros [H | H]; [discriminate | exact H] | auto].
  - intros a b. now rewrite fold_add_node_has_edge.
  - intros Hnd. now rewrite fold_add_node_fresh.
  - unfold build_conflict_graph. simpl. rewrite Ecs, Eg.
    apply nodes_conflict_edges.
    intros c Hc. apply fold_add_node_mem. right. now apply in_map.
Qed.

(** X22: a course that already holds a room blocks that room for its own
    slot: with consistent maps and a slot that starts before it ends,
    [_is_room_available] answers False for the room and slot of any
    occupant, so a second pass of the allocator never confirms a course in
    the room it has. *)
Theorem occupant_blocks_own_room self k rid slot :
  allocation_wf self ->
  dict_get (room_assignments self) k = Some rid ->
  slot_of self k = Some slot ->
  (TimeSlot.start_time slot < TimeSlot.end_time slot)%Z ->
  _is_room_available self rid slot = Ok false.
Proof.
  intros Hwf Hk Hslot Hpos.
  apply occupied_is_room_available; auto.
  exists k, slot. repeat split; auto.
  apply overlap_iff. auto.
Qed.

Lemma occupant_blocks_own_room_witness :
  _is_room_available small_allocated "FCSE-LH1" (hour_slot "Monday" 8)
  = Ok false.
Proof.
  apply (occupant_blocks_own_room small_allocated "CS101").
  - apply (assign_rooms_from_wf (courses small_colored) small_colored).
    + vm_compute. reflexivity.
    + apply empty_allocation_wf. reflexivity.
  - vm_compute. reflexivity.
  - vm_compute. reflexivity.
  - vm_compute. reflexivity.
Defined.

(** X23: once the coloring of a loaded generator has returned, neither room
    allocation nor schedule compilation raises; the outcome of the run is
    the outcome of the report on the compiled state. *)
Theorem middle_stages_return cs ts rs colors :
  welsh_powell_coloring (build_conflict_graph (load cs ts rs)) = Ok colors ->
  exists allocated compiled,
    assign_rooms
      (set_color_assignments (build_conflict_graph (load cs ts rs)) colors)
    = Ok allocated
    /\ optimize_schedules allocated = Ok compiled
    /\ generate_timetable (load cs ts rs)
       = (text <- _format_timetable compiled ;; Ok (compiled, text))
    /\ color_assignments compiled = colors.
Proof.
  intros Hcol.
  destruct (allocation_completes cs ts rs colors Hcol) as [_ (allocated & Halloc)].
  destruct (run_after_allocation cs ts rs colors allocated Hcol Halloc)
    as (compiled & Hopt & Hrun & _).
  exists allocated, compiled. repeat split; auto.
  destruct (optimize_schedules_fields _ _ Hopt) as (_ & _ & _ & -> & _).
  unfold assign_rooms in Halloc.
  destruct (assign_rooms_from_inputs _ _ _ Halloc) as (_ & _ & _ & ->).
  reflexivity.
Qed.

Lemma middle_stages_return_witness :
  exists allocated compiled,
    assign_rooms
      (set_color_assignments (build_conflict_graph fallback)
         [("CS101", 0); ("CS102", 1); ("EE201", 1); ("EE202", 0);
          ("ME301", 2); ("ME302", 3); ("ES401", 3); ("ES402", 2)])
    = Ok allocated
    /\ optimize_schedules allocated = Ok compiled
    /\ generate_timetable fallback
       = (text <- _format_timetable compiled ;; Ok (compiled, text))
    /\ color_assignments compiled
       = [("CS101", 0); ("CS102", 1); ("EE201", 1); ("EE202", 0);
          ("ME301", 2); ("ME302", 3); ("ES401", 3); ("ES402", 2)].
Proof.
  apply (middle_stages_return example_courses create_time_slots create_rooms).
  vm_compute. reflexivity.
Defined.

(** ** The visiting order of the coloring *)

Lemma degree_is_conflict_count cs c :
  NoDup (map Course.id cs) ->
  In c cs ->
  degree (conflict_graph cs) (Course.id c) = conflict_count cs c.
Proof.
  intros Hnd Hc.
  assert (Hnode : In (Course.id c) (nodes (conflict_graph cs))).
  { apply conflict_graph_nodes. now apply in_map. }
  apply dict_mem_keys in Hnode. unfold dict_mem in Hnode.
  destruct (dict_get (conflict_graph cs) (Course.id c)) as [nbrs|] eqn:Hg;
    [clear Hnode | discriminate].
  assert (Hedge : forall n, In n nbrs <-> linked cs (Course.id c) n).
  { intros n. rewrite <- conflict_graph_edge. symmetry.
    now apply has_edge_nbrs. }
  unfold degree. rewrite Hg.
  assert (Hself : str_in (Course.id c) nbrs = false).
  { destruct (str_in (Course.id c) nbrs) eqn:E; auto.
    apply str_in_In, Hedge in E.
    now apply (linked_distinct _ _ _ Hnd) in E. }
  rewrite Hself, Nat.add_0_r. unfold conflict_count.
  set (others := filter _ cs).
  rewrite <- (length_map Course.id others).
  apply Permutation_length. apply NoDup_Permutation.
  - apply (adj_NoDup_conflict_graph cs _ _ Hg).
  - now apply NoDup_map_filter.
  - intros n. rewrite Hedge, (linked_unique_ids _ _ _ Hnd), in_map_iff.
    unfold others. split.
    + intros (c1 & c2 & H1 & H2 & E1 & E2 & Hne & Hcf).
      apply (id_injective cs) in E1; auto. subst c1.
      exists c2. split; auto. apply filter_In. split; auto.
      unfold conflict in Hcf. rewrite Hcf. simpl.
      apply negb_true_iff, String.eqb_neq. congruence.
    + intros (c2 & E & Hin). apply filter_In in Hin. destruct Hin as [Hin Hp].
      apply andb_true_iff in Hp. destruct Hp as [Hcf Hne].
      apply negb_true_iff, String.eqb_neq in Hne.
      exists c, c2. repeat split; auto. congruence.
Qed.

Lemma insert_sorted_map {A B : Type} (f : A -> B) (key : B -> Z) reverse x l :
  map f (insert_sorted (fun a => key (f a)) reverse x l)
  = insert_sorted key reverse (f x) (map f l).
Proof.
  induction l as [|y l IH]; simpl; auto.
  change (goes_before (fun a => key (f a)) reverse y x)
    with (goes_before key reverse (f y) (f x)).
  destruct (goes_before key reverse (f y) (f x)); simpl; now rewrite ?IH.
Qed.

Lemma sorted_map {A B : Type} (f : A -> B) (key : B -> Z) reverse l :
  map f (sorted (fun a => key (f a)) reverse l) = sorted key reverse (map f l).
Proof.
  induction l as [|x l IH]; simpl; auto.
  now rewrite insert_sorted_map, IH.
Qed.

Lemma StronglySorted_weaken_in {A : Type} (R S : A -> A -> Prop) l :
  (forall a b, In a l -> In b l -> R a b -> S a b) ->
  StronglySorted R l -> StronglySorted S l.
Proof.
  intros HRS Hs. induction Hs as [|a l Hs IH Hall]; constructor.
  - apply IH. intros x y Hx Hy. apply HRS; now right.
  - rewrite Forall_forall in *. intros b Hb.
    apply HRS; [now left | now right | now apply Hall].
Qed.

(** C8: with unique ids, the coloring stage visits the courses in the one
    order that lists them by descending number of conflicting courses (the
    other courses that have the same teacher or the same student group),
    courses of equal number in registration order; and each course gets the
    least index below T held by no course visited before it that has its
    teacher or its student group. *)
Theorem welsh_powell_order_and_choice cs ts rs colors :
  NoDup (map Course.id cs) ->
  welsh_powell_coloring (build_conflict_graph (load cs ts rs)) = Ok colors ->
  exists order,
    vertices_by_degree (graph (build_conflict_graph (load cs ts rs)))
    = map Course.id order
    /\ Permutation order cs
    /\ StronglySorted
         (fun a b => conflict_count cs b <= conflict_count cs a) order
    /\ (forall d,
          filter (fun c => Nat.eqb (conflict_count cs c) d) order
          = filter (fun c => Nat.eqb (conflict_count cs c) d) cs)
    /\ (forall pre v post,
          order = pre ++ v :: post ->
          exists c,
            dict_get colors (Course.id v) = Some c
            /\ c < List.length ts
            /\ (forall u, In u pre ->
                   Course.teacher u = Course.teacher v
                   \/ Course.student_group u = Course.student_group v ->
                   dict_get colors (Course.id u) <> Some c)
            /\ (forall c', c' < c ->
                   exists u,
                     In u pre
                     /\ (Course.teacher u = Course.teacher v
                         \/ Course.student_group u = Course.student_group v)
                     /\ dict_get colors (Course.id u) = Some c')).
Proof.
  intros Hnd Hrun. unfold welsh_powell_coloring in Hrun.
  rewrite graph_build in *. simpl time_slots in Hrun.
  destruct (load_fields cs ts rs) as (_ & Ets & _). rewrite Ets in Hrun. clear Ets.
  set (g := conflict_graph cs) in *.
  set (key := fun c : Course.t => Z.of_nat (degree g (Course.id c))).
  set (order := sorted key true cs).
  assert (Hperm : Permutation order cs) by apply sorted_perm.
  assert (Hin : forall c, In c order -> In c cs).
  { intros c. apply Permutation_in, Hperm. }
  assert (Hvs : vertices_by_degree g = map Course.id order).
  { unfold vertices_by_degree, order, key.
    rewrite (sorted_map Course.id (fun x => Z.of_nat (degree g x))).
    unfold g. now rewrite conflict_graph_nodes_NoDup_ids. }
  assert (Hdeg : forall c, In c cs -> degree g (Course.id c) = conflict_count cs c).
  { intros c Hc. now apply degree_is_conflict_count. }
  assert (Hnd_order : NoDup (map Course.id order)).
  { apply (Permutation_NoDup (Permutation_sym (Permutation_map Course.id Hperm)) Hnd). }
  exists order. split; [exact Hvs|]. split; [exact Hperm|]. split; [|split].
  - apply (StronglySorted_weaken_in
             (fun a b => goes_before key true b a = false)); [|apply sorted_sorted].
    intros a b Ha Hb. unfold goes_before, key. rewrite Z.ltb_ge.
    rewrite <- (Hdeg a (Hin a Ha)), <- (Hdeg b (Hin b Hb)). lia.
  - intros d.
    assert (Hkey : forall c, In c cs ->
                   Nat.eqb (conflict_count cs c) d = (key c =? Z.of_nat d)%Z).
    { intros c Hc. unfold key. rewrite (Hdeg c Hc).
      destruct (Nat.eqb (conflict_count cs c) d) eqn:E.
      - apply Nat.eqb_eq in E. rewrite E. symmetry. apply Z.eqb_refl.
      - apply Nat.eqb_neq in E. symmetry. apply Z.eqb_neq. lia. }
    rewrite (filter_ext_in _ (fun c => (key c =? Z.of_nat d)%Z) order)
      by (intros c Hc; apply Hkey; auto).
    rewrite (filter_ext_in _ (fun c => (key c =? Z.of_nat d)%Z) cs)
      by (intros c Hc; apply Hkey; auto).
    apply sorted_stable.
  - intros pre v post Hsplit.
    assert (Hids : map Course.id order
                   = map Course.id pre ++ Course.id v :: map Course.id post).
    { now rewrite Hsplit, map_app. }
    rewrite Hvs in Hrun.
    destruct (color_vertices_greedy g (List.length ts) _ colors Hnd_order Hrun
                _ _ _ Hids) as (c & Hc & Hlt & Hfree & Hleast).
    assert (Hv : In v cs).
    { apply Hin. rewrite Hsplit. apply in_or_app. right. now left. }
    assert (Hpre : forall u, In u pre -> In u cs /\ Course.id v <> Course.id u).
    { intros u Hu. split.
      - apply Hin. rewrite Hsplit. apply in_or_app. now left.
      - intros E. rewrite Hids in Hnd_order.
        apply NoDup_remove_2 in Hnd_order. apply Hnd_order.
        apply in_or_app. left. rewrite E. now apply in_map. }
    exists c. split; [exact Hc|]. split; [exact Hlt|]. split.
    + intros u Hu Hshare. destruct (Hpre u Hu) as [Hucs Hne].
      apply (Hfree (Course.id u)); [now apply in_map|].
      apply conflict_graph_edge. apply linked_intro; auto.
      apply conflict_iff. destruct Hshare as [E | E]; [left | right]; congruence.
    + intros c' Hc'. destruct (Hleast c' Hc') as (n & Hn & He & Hcol).
      apply in_map_iff in Hn. destruct Hn as (u & <- & Hu).
      destruct (Hpre u Hu) as [Hucs Hne].
      exists u. split; [exact Hu|]. split; [|exact Hcol].
      apply conflict_graph_edge, linked_members in He.
      destruct He as (c1 & c2 & H1 & H2 & E1 & E2 & Hcf).
      apply (id_injective cs) in E1; auto.
      apply (id_injective cs) in E2; auto. subst c1 c2.
      apply conflict_iff in Hcf. destruct Hcf as [E | E]; [left | right]; congruence.
Qed.

Lemma welsh_powell_order_and_choice_witness :
  let cs := uneven_courses in
  let colors := [("CS103", 0); ("CS101", 1); ("CS102", 1); ("CS104", 0)] in
  exists order,
    vertices_by_degree (graph (build_conflict_graph uneven))
    = map Course.id order
    /\ Permutation order cs
    /\ StronglySorted
         (fun a b => conflict_count cs b <= conflict_count cs a) order
    /\ (forall d,
          filter (fun c => Nat.eqb (conflict_count cs c) d) order
          = filter (fun c => Nat.eqb (conflict_count cs c) d) cs)
    /\ (forall pre v post,
          order = pre ++ v :: post ->
          exists c,
            dict_get colors (Course.id v) = Some c
            /\ c < List.length small_slots
            /\ (forall u, In u pre ->
                   Course.teacher u = Course.teacher v
                   \/ Course.student_group u = Course.student_group v ->
                   dict_get colors (Course.id u) <> Some c)
            /\ (forall c', c' < c ->
                   exists u,
                     In u pre
                     /\ (Course.teacher u = Course.teacher v
                         \/ Course.student_group u = Course.student_group v)
                     /\ dict_get colors (Course.id u) = Some c')).
Proof.
  apply (welsh_powell_order_and_choice uneven_courses small_slots small_rooms).
  - apply all_distinct_NoDup. reflexivity.
  - vm_compute. reflexivity.
Defined.
